(** * ZYBOCHAT: conversation store, chat view and websocket consumers

    A shallow embedding of [app/models.py], [app/consumers.py] and the
    views [user_list], [chat_view] and [get_unread_counts] of
    [app/views.py].

    - The three Django tables are finite maps from primary key to row.
    - The database takes keys of 64 bits and texts that UTF-8 can encode:
      an [id__in] lookup with a larger integer raises [OverflowError] and
      the insert of another text [UnicodeEncodeError].
    - A handler is a function of the store that yields an outcome (a value
      or the exception that escaped), the store it leaves behind and the
      list of channel-layer and socket effects it performed, in order.
    - [json.loads] is a library function: an inbound frame is represented
      by what [json.loads] makes of it ([None] when it raises).  Numbers
      are modelled at integer values.
    - The clock read by [auto_now_add] is an argument [now] of the
      operations that create rows. *)

From Stdlib Require Import Ascii String.
From stdpp Require Import gmap strings list fin_maps pretty.

Local Open Scope Z_scope.

(** ** Python strings *)

(** A [str] is a sequence of code points. *)
Abbreviation pystr := (list N).

Definition lit (s : string) : pystr :=
  (λ a, Ascii.N_of_ascii a) <$> String.list_ascii_of_string s.

(** [str.isspace] on one code point. *)
Definition isspace (c : N) : bool :=
  ((9 <=? c) && (c <=? 13) || (28 <=? c) && (c <=? 32)
   || (c =? 133) || (c =? 160) || (c =? 5760)
   || (8192 <=? c) && (c <=? 8202)
   || (c =? 8232) || (c =? 8233) || (c =? 8239) || (c =? 8287)
   || (c =? 12288))%N.

Fixpoint lstrip (s : pystr) : pystr :=
  match s with
  | c :: s' => if isspace c then lstrip s' else s
  | [] => []
  end.

Definition rstrip (s : pystr) : pystr := reverse (lstrip (reverse s)).

(** [s.strip()] *)
Definition strip (s : pystr) : pystr := rstrip (lstrip s).

(** ** Decoded JSON *)

#[warnings="-register-all"]
Inductive json :=
| JNull
| JBool (b : bool)
| JInt (z : Z)
| JStr (s : pystr)
| JArr (l : list json)
| JObj (m : gmap pystr json).

(** Truth value of a decoded value, as tested by [if v:]. *)
Definition truthy (v : json) : bool :=
  match v with
  | JNull => false
  | JBool b => b
  | JInt z => negb (z =? 0)
  | JStr s => negb (bool_decide (s = []))
  | JArr l => negb (bool_decide (l = []))
  | JObj m => negb (bool_decide (m = ∅))
  end.

(** [v == "..."] against a string literal. *)
Definition eq_str (v : json) (s : string) : bool :=
  match v with
  | JStr t => bool_decide (t = lit s)
  | _ => false
  end.

(** [d.get(key, default)] on a dict. *)
Definition dict_get (m : gmap pystr json) (key : string) (dflt : json) : json :=
  default dflt (m !! lit key).

(** The integers of a list of integers. *)
Definition as_int (v : json) : option Z :=
  match v with
  | JInt z => Some z
  | _ => None
  end.

Definition as_int_list (v : json) : option (list Z) :=
  match v with
  | JArr l => mapM as_int l
  | _ => None
  end.

(** ** Exceptions *)

Inductive exn :=
| JSONDecodeError
| AttributeError
| TypeError
| ValueError
| OverflowError
| UnicodeEncodeError
| DoesNotExist
| MultipleObjectsReturned
| IntegrityError
| Http404.

(** ** What the database takes *)

(** An integer that fits the 64 bits of a key column. *)
Definition in_int64 (z : Z) : Prop := - 2 ^ 63 ≤ z < 2 ^ 63.

#[global] Instance in_int64_dec z : Decision (in_int64 z).
Proof. unfold in_int64. apply _. Defined.

(** A text is stored in UTF-8, which has no encoding for a surrogate code
    point (U+D800 to U+DFFF). *)
Definition surrogate (c : N) : bool := ((55296 <=? c) && (c <=? 57343))%N.

Definition encodable (text : pystr) : bool := forallb (λ c, negb (surrogate c)) text.

(** Django prepares the value of a primary-key lookup with the field's
    [get_prep_value].  An integer is taken as it is; what Django makes of a
    value of another type (the key it coerces to, or the exception that
    the preparation raises) is left to the instance, and so is what it
    makes of the value of an [id__in] lookup that is not a list of
    integers. *)
Class FieldPrep := {
  prep_value : json → exn + Z;
  prep_iterable : json → exn + list Z
}.

(** The key of an [id=...] lookup. *)
Definition pk_exact `{FieldPrep} (v : json) : exn + Z :=
  match v with
  | JInt z => inr z
  | _ => prep_value v
  end.

(** The keys of an [id__in=...] lookup.  The integers of the list are
    handed to the database as they are, and one that does not fit 64 bits
    makes the query raise [OverflowError]. *)
Definition pk_in `{FieldPrep} (v : json) : exn + list Z :=
  match as_int_list v with
  | Some ids =>
      if bool_decide (Forall in_int64 ids) then inr ids else inl OverflowError
  | None => prep_iterable v
  end.

(** ** The store ([app/models.py]) *)

Record User := {
  username : pystr;
  is_online : bool
}.

Record Conversation := {
  user1 : Z;
  user2 : Z;
  created_at : Z
}.

Record Message := {
  conversation : Z;
  sender : Z;
  content : pystr;
  timestamp : Z;
  is_read : bool
}.

Record db := {
  users : gmap Z User;
  conversations : gmap Z Conversation;
  messages : gmap Z Message;
  conversation_seq : Z;
  message_seq : Z
}.

Definition set_users (f : gmap Z User → gmap Z User) (d : db) : db :=
  {| users := f (users d); conversations := conversations d;
     messages := messages d; conversation_seq := conversation_seq d;
     message_seq := message_seq d |}.

Definition set_messages (f : gmap Z Message → gmap Z Message) (d : db) : db :=
  {| users := users d; conversations := conversations d;
     messages := f (messages d); conversation_seq := conversation_seq d;
     message_seq := message_seq d |}.

(** A row inserted under the key the table's sequence gave, which moves
    the sequence on. *)
Definition insert_conversation (pk : Z) (row : Conversation) (d : db) : db :=
  {| users := users d; conversations := <[pk := row]> (conversations d);
     messages := messages d; conversation_seq := pk + 1;
     message_seq := message_seq d |}.

Definition insert_message (pk : Z) (row : Message) (d : db) : db :=
  {| users := users d; conversations := conversations d;
     messages := <[pk := row]> (messages d);
     conversation_seq := conversation_seq d; message_seq := pk + 1 |}.

Definition set_online (status : bool) (u : User) : User :=
  {| username := username u; is_online := status |}.

Definition set_read (m : Message) : Message :=
  {| conversation := conversation m; sender := sender m;
     content := content m; timestamp := timestamp m; is_read := true |}.

(** The identity that the authentication middleware puts in the scope:
    [AnonymousUser] has [id = None] and an empty [username]. *)
Inductive identity :=
| Anonymous
| Authenticated (id : Z) (name : pystr).

Definition is_anonymous (u : identity) : bool :=
  match u with
  | Anonymous => true
  | Authenticated _ _ => false
  end.

Definition id_of (u : identity) : option Z :=
  match u with
  | Anonymous => None
  | Authenticated id _ => Some id
  end.

Definition username_of (u : identity) : pystr :=
  match u with
  | Anonymous => []
  | Authenticated _ name => name
  end.

(** ** Effects *)

(** Events put on a channel-layer group, one constructor per ["type"]. *)
Inductive event :=
| user_presence_ev (uid : option Z) (name : pystr) (online : bool)
| user_status_ev (uid : option Z) (online : bool)
| chat_message_ev (message_id : Z) (message : pystr) (sender_id : option Z)
    (sender_name : pystr) (time : pystr)
| message_read_ev (message_ids : json)
| typing_ev (uid : option Z)
| stop_typing_ev (uid : option Z)
| deleted_ev (message_id : json).

Inductive effect :=
| Close
| Accept
| GroupAdd (group channel : string)
| GroupDiscard (group channel : string)
| GroupSend (group : string) (e : event)
| Send (frame : gmap pystr json)
| Print (msg : string) (e : exn).

(** ** Handlers: state, effects and exceptions *)

Definition prog (A : Type) : Type := db → (exn + A) * db * list effect.

Definition ret {A} (a : A) : prog A := λ d, (inr a, d, []).

Definition bind {A B} (m : prog A) (k : A → prog B) : prog B :=
  λ d, match m d with
       | (inr a, d1, t1) =>
           match k a d1 with
           | (r, d2, t2) => (r, d2, t1 ++ t2)
           end
       | (inl e, d1, t1) => (inl e, d1, t1)
       end.

Notation "'do' x <- m ; k" := (bind m (λ x, k))
  (at level 10, x pattern, m at level 100, k at level 200,
   format "'[v' 'do'  x  <-  m ; '/' k ']'").
Notation "m ;; k" := (bind m (λ _, k))
  (at level 100, k at level 200, right associativity).

Definition raise {A} (e : exn) : prog A := λ d, (inl e, d, []).

Definition emit (f : effect) : prog unit := λ d, (inr (), d, [f]).

Definition get_db : prog db := λ d, (inr d, d, []).

Definition modify (f : db → db) : prog unit := λ d, (inr (), f d, []).

(** [try: body except Exception as e: handler(e)]: what the body wrote and
    did before it raised stays. *)
Definition try_except {A} (body : prog A) (handler : exn → prog A) : prog A :=
  λ d, match body d with
       | (inl e, d1, t1) =>
           match handler e d1 with
           | (r, d2, t2) => (r, d2, t1 ++ t2)
           end
       | r => r
       end.

Definition outcome {A} (r : (exn + A) * db * list effect) : exn + A := r.1.1.
Definition store {A} (r : (exn + A) * db * list effect) : db := r.1.2.
Definition trace {A} (r : (exn + A) * db * list effect) : list effect := r.2.

(** The group sends of a trace. *)
Definition broadcasts (t : list effect) : list (string * event) :=
  omap (λ f, match f with GroupSend g e => Some (g, e) | _ => None end) t.

Definition group_joins (t : list effect) : list (string * string) :=
  omap (λ f, match f with GroupAdd g c => Some (g, c) | _ => None end) t.

(** ** ORM calls *)

(** [User.objects.get(id=...)]; no row has a null key. *)
Definition User_get (id : option Z) : prog (Z * User) :=
  do d <- get_db;
  match id with
  | Some i =>
      match users d !! i with
      | Some u => ret (i, u)
      | None => raise DoesNotExist
      end
  | None => raise DoesNotExist
  end.

(** [user.is_online = status; user.save(update_fields=["is_online"])] *)
Definition User_save_is_online (pk : Z) (status : bool) : prog unit :=
  modify (set_users (alter (set_online status) pk)).

Definition same_pair (u1 u2 : Z) (kv : Z * Conversation) : Prop :=
  user1 kv.2 = u1 ∧ user2 kv.2 = u2.

#[global] Instance same_pair_dec u1 u2 kv : Decision (same_pair u1 u2 kv).
Proof. unfold same_pair. apply _. Defined.

(** [Conversation.objects.get_or_create(user1=u1, user2=u2)]: the row with
    that pair if there is one (an error if there are several), else a new
    row, whose two foreign keys must name existing users. *)
Definition Conversation_get_or_create (now u1 u2 : Z)
  : prog (Z * Conversation * bool) :=
  do d <- get_db;
  match map_to_list (filter (same_pair u1 u2) (conversations d)) with
  | [] =>
      if bool_decide (is_Some (users d !! u1) ∧ is_Some (users d !! u2)) then
        let pk := conversation_seq d in
        let row := {| user1 := u1; user2 := u2; created_at := now |} in
        modify (insert_conversation pk row);;
        ret (pk, row, true)
      else raise IntegrityError
  | [kv] => ret (kv, false)
  | _ => raise MultipleObjectsReturned
  end.

(** [Message.objects.create(conversation=..., sender=..., content=...)];
    [is_read] takes its default and [timestamp] the clock.  A text that
    cannot be encoded is refused with [UnicodeEncodeError] when the row is
    handed to the database. *)
Definition Message_create (now conv : Z) (sender_id : option Z) (text : pystr)
  : prog (Z * Message) :=
  do d <- get_db;
  match sender_id with
  | Some uid =>
      if negb (encodable text) then raise UnicodeEncodeError
      else if bool_decide (is_Some (conversations d !! conv)
                           ∧ is_Some (users d !! uid)) then
        let pk := message_seq d in
        let row := {| conversation := conv; sender := uid; content := text;
                      timestamp := now; is_read := false |} in
        modify (insert_message pk row);;
        ret (pk, row)
      else raise IntegrityError
  | None => raise IntegrityError
  end.

(** The rows of
    [Message.objects.filter(id__in=ids, is_read=False).exclude(sender_id=reader)]. *)
Definition unread_from_others (ids : list Z) (reader : option Z)
    (pk : Z) (m : Message) : Prop :=
  pk ∈ ids ∧ is_read m = false ∧ Some (sender m) ≠ reader.

#[global] Instance unread_from_others_dec ids reader pk m :
  Decision (unread_from_others ids reader pk m).
Proof. unfold unread_from_others. apply _. Defined.

(** [....update(is_read=True)] on those rows. *)
Definition Message_update_read (ids : list Z) (reader : option Z) : prog unit :=
  modify (set_messages (map_imap (λ pk m,
    Some (if bool_decide (unread_from_others ids reader pk m)
          then set_read m else m)))).

(** The rows of [Message.objects.filter(id=pk, sender_id=owner)]. *)
Definition sent_by (pk : Z) (owner : option Z) (kv : Z * Message) : Prop :=
  kv.1 = pk ∧ Some (sender kv.2) = owner.

#[global] Instance sent_by_dec pk owner kv : Decision (sent_by pk owner kv).
Proof. unfold sent_by. apply _. Defined.

(** [....delete()], which returns the number of rows it removed. *)
Definition Message_delete (pk : Z) (owner : option Z) : prog nat :=
  do d <- get_db;
  modify (set_messages (filter (λ kv, ¬ sent_by pk owner kv)));;
  ret (size (filter (sent_by pk owner) (messages d))).

(** [message.timestamp.strftime("%H:%M")], the timestamp in seconds. *)
Definition two_digits (n : Z) : pystr :=
  lit (pretty (n `div` 10) +:+ pretty (n `mod` 10)).

Definition strftime_HM (t : Z) : pystr :=
  two_digits ((t `div` 3600) `mod` 24) ++ lit ":" ++ two_digits ((t `div` 60) `mod` 60).

(** [sorted([a, b])] on two keys: the second goes first only when it is
    smaller. *)
Definition sorted2 (a b : Z) : Z * Z :=
  if b <? a then (b, a) else (a, b).

(** [min(a, b, key=...)] and [max(a, b, key=...)] on the keys: the first
    argument wins a tie. *)
Definition min2 (a b : Z) : Z := if b <? a then b else a.
Definition max2 (a b : Z) : Z := if a <? b then b else a.

Definition json_of_id (i : option Z) : json :=
  match i with
  | Some z => JInt z
  | None => JNull
  end.

(** ** [PresenceConsumer] *)

Module PresenceConsumer.

(** The attributes of the consumer object; [presence_group] is unset until
    [connect] gets past the anonymous check. *)
Record session := {
  user : identity;
  presence_group : option string;
  channel_name : string
}.

Definition update_user_status (self : session) (status : bool) : prog unit :=
  try_except
    (do u <- User_get (id_of (user self));
     User_save_is_online u.1 status)
    (λ e, emit (Print "Status update error:" e)).

Definition connect (scope_user : identity) (channel : string) : prog session :=
  let self := {| user := scope_user; presence_group := None;
                 channel_name := channel |} in
  if is_anonymous (user self) then
    emit Close;;
    ret self
  else
    let self := {| user := scope_user; presence_group := Some "presence"%string;
                   channel_name := channel |} in
    emit (GroupAdd "presence" (channel_name self));;
    update_user_status self true;;
    emit (GroupSend "presence"
            (user_presence_ev (id_of (user self)) (username_of (user self)) true));;
    emit Accept;;
    ret self.

Definition disconnect (self : session) : prog unit :=
  match presence_group self with
  | Some group =>
      update_user_status self false;;
      emit (GroupSend group
              (user_presence_ev (id_of (user self)) (username_of (user self)) false));;
      emit (GroupDiscard group (channel_name self))
  | None => ret ()
  end.

(** The handler of a group event, found by the event's type. *)
Definition dispatch (self : session) (ev : event) : prog unit :=
  match ev with
  | user_presence_ev uid name online =>
      emit (Send (list_to_map
        [(lit "type", JStr (lit "presence"));
         (lit "user_id", json_of_id uid);
         (lit "username", JStr name);
         (lit "is_online", JBool online)]))
  | _ => raise ValueError
  end.

End PresenceConsumer.

(** ** [ChatConsumer] *)

Module ChatConsumer.

(** The attributes of the consumer object; [room_group_name] is unset until
    [connect] gets past the anonymous check.  The route's [user_id] is
    taken as the integer it denotes. *)
Record session := {
  user : identity;
  other_user_id : Z;
  room_group_name : option string;
  channel_name : string
}.

(** Reading [self.room_group_name]. *)
Definition room_of (self : session) : prog string :=
  match room_group_name self with
  | Some room => ret room
  | None => raise AttributeError
  end.

Definition update_user_status (self : session) (status : bool) : prog unit :=
  try_except
    (do u <- User_get (id_of (user self));
     User_save_is_online u.1 status)
    (λ e, emit (Print "Status update error:" e)).

Definition room_name (a b : Z) : string :=
  let ids := sorted2 a b in
  "chat_" +:+ pretty ids.1 +:+ "_" +:+ pretty ids.2.

Definition connect (scope_user : identity) (route_user_id : Z) (channel : string)
  : prog session :=
  let self := {| user := scope_user; other_user_id := route_user_id;
                 room_group_name := None; channel_name := channel |} in
  match scope_user with
  | Anonymous =>
      emit Close;;
      ret self
  | Authenticated uid _ =>
      let room := room_name uid route_user_id in
      let self := {| user := scope_user; other_user_id := route_user_id;
                     room_group_name := Some room; channel_name := channel |} in
      emit (GroupAdd room (channel_name self));;
      update_user_status self true;;
      emit (GroupSend room (user_status_ev (id_of (user self)) true));;
      emit Accept;;
      ret self
  end.

Definition disconnect (self : session) : prog unit :=
  match room_group_name self with
  | Some room => emit (GroupDiscard room (channel_name self))
  | None => ret ()
  end;;
  update_user_status self false;;
  match room_group_name self with
  | Some room => emit (GroupSend room (user_status_ev (id_of (user self)) false))
  | None => ret ()
  end.

(** [save_message] returns the new row, or [None] after an error. *)
Definition save_message (self : session) (now : Z) (text : pystr)
  : prog (option (Z * Message)) :=
  try_except
    (do other_user <- User_get (Some (other_user_id self));
     match id_of (user self) with
     | Some uid =>
         let pair := sorted2 uid other_user.1 in
         do c <- Conversation_get_or_create now pair.1 pair.2;
         do message <- Message_create now c.1.1 (id_of (user self)) text;
         ret (Some message)
     | None => raise TypeError
     end)
    (λ e, emit (Print "Message save error:" e);; ret None).

Definition mark_messages_read `{FieldPrep} (message_ids : json)
    (reader_id : option Z) : prog unit :=
  try_except
    (match pk_in message_ids with
     | inr ids => Message_update_read ids reader_id
     | inl e => raise e
     end)
    (λ e, emit (Print "Mark read error:" e)).

(** [delete_message] has no [return]: the count that [delete()] yields is
    dropped and the caller gets [None]. *)
Definition delete_message `{FieldPrep} (message_id : json) (uid : option Z)
  : prog (option nat) :=
  try_except
    (match pk_exact message_id with
     | inr pk =>
         do _ <- Message_delete pk uid;
         ret None
     | inl e => raise e
     end)
    (λ e, emit (Print "Delete message error:" e);; ret None).

(** [data.get("type", "message")] *)
Definition msg_type_of (data : gmap pystr json) : json :=
  dict_get data "type" (JStr (lit "message")).

Definition receive `{FieldPrep} (self : session) (now : Z)
    (text_data : option json) : prog unit :=
  match text_data with
  | None => raise JSONDecodeError
  | Some (JObj data) =>
      let msg_type := msg_type_of data in
      if eq_str msg_type "message" then
        match dict_get data "message" (JStr []) with
        | JStr text =>
            let message_text := strip text in
            if bool_decide (message_text = []) then ret ()
            else
              do message <- save_message self now message_text;
              match message with
              | None => ret ()
              | Some (pk, row) =>
                  do room <- room_of self;
                  emit (GroupSend room
                          (chat_message_ev pk (content row) (id_of (user self))
                             (username_of (user self))
                             (strftime_HM (timestamp row))))
              end
        | _ => raise AttributeError
        end
      else if eq_str msg_type "mark_as_read" then
        let message_ids := dict_get data "message_ids" (JArr []) in
        if truthy message_ids then
          mark_messages_read message_ids (id_of (user self));;
          do room <- room_of self;
          emit (GroupSend room (message_read_ev message_ids))
        else ret ()
      else if eq_str msg_type "typing" then
        do room <- room_of self;
        emit (GroupSend room (typing_ev (id_of (user self))))
      else if eq_str msg_type "stop_typing" then
        do room <- room_of self;
        emit (GroupSend room (stop_typing_ev (id_of (user self))))
      else if eq_str msg_type "delete_message" then
        let message_id := dict_get data "message_id" JNull in
        if truthy message_id then
          delete_message message_id (id_of (user self));;
          do room <- room_of self;
          emit (GroupSend room (deleted_ev message_id))
        else ret ()
      else ret ()
  | Some _ => raise AttributeError
  end.

(** The handler of a group event, found by the event's type. *)
Definition dispatch (self : session) (ev : event) : prog unit :=
  match ev with
  | chat_message_ev message_id message sender_id sender_name time =>
      emit (Send (list_to_map
        [(lit "type", JStr (lit "message"));
         (lit "message_id", JInt message_id);
         (lit "message", JStr message);
         (lit "sender_id", json_of_id sender_id);
         (lit "sender_name", JStr sender_name);
         (lit "timestamp", JStr time)]))
  | message_read_ev message_ids =>
      emit (Send (list_to_map
        [(lit "type", JStr (lit "read"));
         (lit "message_ids", message_ids)]))
  | typing_ev uid =>
      if bool_decide (uid ≠ id_of (user self)) then
        emit (Send (list_to_map
          [(lit "type", JStr (lit "typing"));
           (lit "user_id", json_of_id uid)]))
      else ret ()
  | stop_typing_ev uid =>
      if bool_decide (uid ≠ id_of (user self)) then
        emit (Send (list_to_map
          [(lit "type", JStr (lit "stop_typing"));
           (lit "user_id", json_of_id uid)]))
      else ret ()
  | deleted_ev message_id =>
      emit (Send (list_to_map
        [(lit "type", JStr (lit "deleted"));
         (lit "message_id", message_id)]))
  | user_status_ev uid online =>
      emit (Send (list_to_map
        [(lit "type", JStr (lit "status"));
         (lit "user_id", json_of_id uid);
         (lit "is_online", JBool online)]))
  | user_presence_ev _ _ _ => raise ValueError
  end.

End ChatConsumer.

(** ** [chat_view] of [app/views.py] *)

Module views.

Inductive response :=
| Redirect
| Render (template : string) (other_user : Z) (conversation_id : Z).

(** [login_required] redirects an anonymous request; [get_object_or_404]
    raises [Http404].  The page shows the messages of the conversation it
    is rendered with. *)
Definition chat_view (request_user : identity) (user_id : Z) (now : Z)
  : prog response :=
  match request_user with
  | Anonymous => ret Redirect
  | Authenticated uid _ =>
      do other_user <- try_except (User_get (Some user_id)) (λ _, raise Http404);
      do c <- Conversation_get_or_create now
                (min2 uid other_user.1) (max2 uid other_user.1);
      ret (Render "chat.html" other_user.1 c.1.1)
  end.

(** What [user_list] and [get_unread_counts] answer: the redirect of
    [login_required], the user page with the rows it lists, or the JSON
    body, a dict from user id to count. *)
Inductive reply :=
| ToLogin
| UserList (template : string) (listed : gmap Z User)
| Json (body : gmap Z nat).

(** [User.objects.exclude(id=request.user.id)] *)
Definition user_list (request_user : identity) : prog reply :=
  match request_user with
  | Anonymous => ret ToLogin
  | Authenticated uid _ =>
      do d <- get_db;
      ret (UserList "user_list.html" (filter (λ kv, kv.1 ≠ uid) (users d)))
  end.

(** The rows of
    [Message.objects.filter(conversation=conv, sender=other_user, is_read=False)]. *)
Definition unread_from (conv other_user : Z) (kv : Z * Message) : Prop :=
  conversation kv.2 = conv ∧ sender kv.2 = other_user ∧ is_read kv.2 = false.

#[global] Instance unread_from_dec conv other_user kv :
  Decision (unread_from conv other_user kv).
Proof. unfold unread_from. apply _. Defined.

(** The rows of
    [Conversation.objects.filter(Q(user1=request.user) | Q(user2=request.user))]. *)
Definition involves (uid : Z) (kv : Z * Conversation) : Prop :=
  user1 kv.2 = uid ∨ user2 kv.2 = uid.

#[global] Instance involves_dec uid kv : Decision (involves uid kv).
Proof. unfold involves. apply _. Defined.

(** The body of the [for conv in conversations] loop, over the rows that
    are left.  Reading [conv.user1] or [conv.user2] fetches the user row. *)
Fixpoint unread_loop (uid : Z) (convs : list (Z * Conversation))
    (unread_counts : gmap Z nat) : prog (gmap Z nat) :=
  match convs with
  | [] => ret unread_counts
  | (pk, conv) :: rest =>
      do first <- User_get (Some (user1 conv));
      do other_user <- (if bool_decide (first.1 = uid)
                        then User_get (Some (user2 conv)) else ret first);
      do d <- get_db;
      let unread := size (filter (unread_from pk other_user.1) (messages d)) in
      unread_loop uid rest
        (if bool_decide (0 < unread)%nat
         then <[other_user.1 := unread]> unread_counts else unread_counts)
  end.

(** The conversations are visited in the order of the table's listing. *)
Definition get_unread_counts (request_user : identity) : prog reply :=
  match request_user with
  | Anonymous => ret ToLogin
  | Authenticated uid _ =>
      do d <- get_db;
      do unread_counts <-
        unread_loop uid (map_to_list (filter (involves uid) (conversations d))) ∅;
      ret (Json unread_counts)
  end.

End views.

(** ** Notions used in the statements *)

(** An object lacks a required field when the key that the handler of its
    type reads is absent. *)
Definition missing_required (data : gmap pystr json) : bool :=
  let msg_type := ChatConsumer.msg_type_of data in
  if eq_str msg_type "message" then bool_decide (data !! lit "message" = None)
  else if eq_str msg_type "mark_as_read" then
    bool_decide (data !! lit "message_ids" = None)
  else if eq_str msg_type "delete_message" then
    bool_decide (data !! lit "message_id" = None)
  else false.

(** A frame is malformed when [json.loads] rejects it, when what it
    decodes to is not an object, or when the object lacks a required
    field. *)
Definition malformed (text_data : option json) : bool :=
  match text_data with
  | None => true
  | Some (JObj data) => missing_required data
  | Some _ => true
  end.

(** Message keys come from the sequence, which starts at one. *)
Definition message_keys_ok (d : db) : Prop :=
  0 < message_seq d ∧ map_Forall (λ pk _, 0 < pk) (messages d).

(** The conversation that a saved message was put in, with its row. *)
Definition conversation_of_save (r : (exn + option (Z * Message)) * db * list effect)
  : option (Z * Conversation) :=
  match outcome r with
  | inr (Some (_, m)) =>
      (λ c, (conversation m, c)) <$> conversations (store r) !! conversation m
  | _ => None
  end.

(** The conversation that the chat page was rendered with, with its row. *)
Definition conversation_of_view (r : (exn + views.response) * db * list effect)
  : option (Z * Conversation) :=
  match outcome r with
  | inr (views.Render _ _ pk) => (λ c, (pk, c)) <$> conversations (store r) !! pk
  | _ => None
  end.

(** The conversation that [get_or_create] returned, with its row. *)
Definition conversation_got (r : (exn + Z * Conversation * bool) * db * list effect)
  : option (Z * Conversation) :=
  match outcome r with
  | inr (pk, row, _) => Some (pk, row)
  | inl _ => None
  end.

(** The [unique_together] constraint of [Conversation]. *)
Definition unique_together (d : db) : Prop :=
  ∀ k1 k2 c1 c2,
    conversations d !! k1 = Some c1 → conversations d !! k2 = Some c2 →
    user1 c1 = user1 c2 → user2 c1 = user2 c2 → k1 = k2.

(** The operations that touch the store. *)
Inductive operation :=
| presence_connect (u : identity) (channel : string)
| presence_disconnect (s : PresenceConsumer.session)
| chat_connect (u : identity) (peer : Z) (channel : string)
| chat_disconnect (s : ChatConsumer.session)
| chat_receive (s : ChatConsumer.session) (now : Z) (text_data : option json)
| chat_page (u : identity) (peer : Z) (now : Z).

Definition store_after `{FieldPrep} (o : operation) (d : db) : db :=
  match o with
  | presence_connect u channel => store (PresenceConsumer.connect u channel d)
  | presence_disconnect s => store (PresenceConsumer.disconnect s d)
  | chat_connect u peer channel => store (ChatConsumer.connect u peer channel d)
  | chat_disconnect s => store (ChatConsumer.disconnect s d)
  | chat_receive s now text_data => store (ChatConsumer.receive s now text_data d)
  | chat_page u peer now => store (views.chat_view u peer now d)
  end.

(** The two users an operation gets or creates a conversation for. *)
Definition parties (o : operation) : option (Z * Z) :=
  match o with
  | chat_receive s _ _ =>
      (λ uid, (uid, ChatConsumer.other_user_id s)) <$> id_of (ChatConsumer.user s)
  | chat_page u peer _ => (λ uid, (uid, peer)) <$> id_of u
  | _ => None
  end.

(** One write to the store: the steps that the operations are made of. *)
Inductive store_step : db → db → Prop :=
| step_online (uid : Z) (status : bool) (d : db) :
    store_step d (set_users (alter (set_online status) uid) d)
| step_conversation (row : Conversation) (d : db) :
    filter (same_pair (user1 row) (user2 row)) (conversations d) = ∅ →
    is_Some (users d !! user1 row) → is_Some (users d !! user2 row) →
    store_step d (insert_conversation (conversation_seq d) row d)
| step_message (row : Message) (d : db) :
    is_Some (conversations d !! conversation row) →
    is_Some (users d !! sender row) →
    is_read row = false →
    store_step d (insert_message (message_seq d) row d)
| step_read (ids : list Z) (reader : option Z) (d : db) :
    store_step d (store (Message_update_read ids reader d))
| step_delete (pk : Z) (owner : option Z) (d : db) :
    store_step d (set_messages (filter (λ kv, ¬ sent_by pk owner kv)) d).

(** Every foreign key names a row. *)
Definition references_ok (d : db) : Prop :=
  map_Forall (λ _ c, is_Some (users d !! user1 c) ∧ is_Some (users d !! user2 c))
    (conversations d) ∧
  map_Forall (λ _ m, is_Some (conversations d !! conversation m)
                     ∧ is_Some (users d !! sender m))
    (messages d).

(** Every key was given by its table's sequence. *)
Definition keys_from_sequences (d : db) : Prop :=
  0 < conversation_seq d ∧ 0 < message_seq d ∧
  map_Forall (λ pk _, 0 < pk < conversation_seq d) (conversations d) ∧
  map_Forall (λ pk _, 0 < pk < message_seq d) (messages d).

(** Every conversation has its two users in ascending order. *)
Definition pairs_sorted (d : db) : Prop :=
  map_Forall (λ _ c, user1 c ≤ user2 c) (conversations d).

(** The number of unread messages that [other] sent in conversation [conv]. *)
Definition unread_count (d : db) (conv other : Z) : nat :=
  size (filter (views.unread_from conv other) (messages d)).

(** The other side of a conversation, as [get_unread_counts] picks it. *)
Definition other_side (uid : Z) (c : Conversation) : Z :=
  if bool_decide (user1 c = uid) then user2 c else user1 c.

(** One turn of the loop of [get_unread_counts], on a store where the
    two users of the conversation have rows. *)
Definition count_entry (d : db) (uid : Z) (counts : gmap Z nat)
    (kv : Z * Conversation) : gmap Z nat :=
  let other := other_side uid kv.2 in
  if bool_decide (0 < unread_count d kv.1 other)%nat
  then <[other := unread_count d kv.1 other]> counts else counts.

(** A string without the separator of the room names. *)
Fixpoint no_underscore (s : string) : Prop :=
  match s with
  | EmptyString => True
  | String a s' => a ≠ "_"%char ∧ no_underscore s'
  end.

(** ** A sample store *)

(** A sample preparation, which refuses whatever is not an integer: as a
    key, a string with [ValueError] and anything else with [TypeError]; as
    the value of [id__in], a string or a container with [ValueError] and
    anything else with [TypeError]. *)
Definition strict_prep : FieldPrep :=
  {| prep_value := λ v, inl (match v with JStr _ => ValueError | _ => TypeError end);
     prep_iterable :=
       λ v, inl (match v with
                 | JStr _ | JArr _ | JObj _ => ValueError
                 | _ => TypeError
                 end) |}.

Definition sample_users : gmap Z User :=
  list_to_map
    [(5, {| username := lit "ann"; is_online := false |});
     (7, {| username := lit "cy"; is_online := false |});
     (9, {| username := lit "bob"; is_online := false |})].

(** Users 5, 7 and 9 and nothing else. *)
Definition fresh_db : db :=
  {| users := sample_users; conversations := ∅; messages := ∅;
     conversation_seq := 1; message_seq := 1 |}.

(** Message 1, from 5 in the conversation of 5 and 9, and message 2, from 7
    in the conversation of 7 and 9. *)
Definition sample_db : db :=
  {| users := sample_users;
     conversations :=
       list_to_map
         [(1, {| user1 := 5; user2 := 9; created_at := 100 |});
          (2, {| user1 := 7; user2 := 9; created_at := 200 |})];
     messages :=
       list_to_map
         [(1, {| conversation := 1; sender := 5; content := lit "hi";
                 timestamp := 110; is_read := false |});
          (2, {| conversation := 2; sender := 7; content := lit "yo";
                 timestamp := 210; is_read := false |})];
     conversation_seq := 3; message_seq := 3 |}.

Definition ann_session : ChatConsumer.session :=
  {| ChatConsumer.user := Authenticated 5 (lit "ann");
     ChatConsumer.other_user_id := 9;
     ChatConsumer.room_group_name := Some "chat_5_9"%string;
     ChatConsumer.channel_name := "ann-1" |}.

Definition bob_session : ChatConsumer.session :=
  {| ChatConsumer.user := Authenticated 9 (lit "bob");
     ChatConsumer.other_user_id := 5;
     ChatConsumer.room_group_name := Some "chat_5_9"%string;
     ChatConsumer.channel_name := "bob-1" |}.

(** The session object that an anonymous [connect] leaves behind. *)
Definition anonymous_session : ChatConsumer.session :=
  {| ChatConsumer.user := Anonymous;
     ChatConsumer.other_user_id := 9;
     ChatConsumer.room_group_name := None;
     ChatConsumer.channel_name := "anon-1" |}.

Definition frame_of (fields : list (string * json)) : gmap pystr json :=
  list_to_map (prod_map lit id <$> fields).

(** * Properties *)

(** ** Lookups and the store calls *)

Lemma as_int_list_ints (ids : list Z) : as_int_list (JArr (JInt <$> ids)) = Some ids.
Proof. simpl. by apply mapM_fmap_Some. Qed.

(** A list of integers is looked up as it is when every one of them fits
    64 bits, and refused otherwise. *)
Lemma pk_in_ints `{FieldPrep} (ids : list Z) :
  Forall in_int64 ids → pk_in (JArr (JInt <$> ids)) = inr ids.
Proof.
  intros Hfit. unfold pk_in. rewrite as_int_list_ints.
  by rewrite bool_decide_eq_true_2.
Qed.

Lemma pk_in_overflow `{FieldPrep} (ids : list Z) :
  ¬ Forall in_int64 ids → pk_in (JArr (JInt <$> ids)) = inl OverflowError.
Proof.
  intros Hfit. unfold pk_in. rewrite as_int_list_ints.
  by rewrite bool_decide_eq_false_2.
Qed.

(** What the bulk update leaves under each key. *)
Lemma update_read_lookup (ids : list Z) (reader : option Z) (d : db) (pk : Z) :
  messages (store (Message_update_read ids reader d)) !! pk =
  (λ m, if bool_decide (unread_from_others ids reader pk m) then set_read m else m)
    <$> messages d !! pk.
Proof.
  unfold Message_update_read, modify, store. simpl.
  rewrite map_lookup_imap. by destruct (messages d !! pk).
Qed.

Lemma db_eq (d1 d2 : db) :
  users d1 = users d2 → conversations d1 = conversations d2 →
  messages d1 = messages d2 → conversation_seq d1 = conversation_seq d2 →
  message_seq d1 = message_seq d2 → d1 = d2.
Proof. destruct d1, d2; simpl; intros; by subst. Qed.

(** Deleting the rows with key [pk] sent by [uid] deletes the row at [pk]
    when [uid] sent it, and nothing otherwise. *)
Lemma filter_not_sent_by (pk uid : Z) (ms : gmap Z Message) :
  filter (λ kv, ¬ sent_by pk (Some uid) kv) ms =
  if bool_decide (sender <$> ms !! pk = Some uid) then delete pk ms else ms.
Proof.
  apply map_eq; intros k. rewrite map_lookup_filter.
  case_bool_decide as Hs.
  - destruct (decide (k = pk)) as [->|Hk].
    + rewrite lookup_delete_eq. destruct (ms !! pk) as [m|] eqn:Hm; [|done].
      simpl in *. rewrite option_guard_False; [done|].
      unfold sent_by; simpl. intros Hn; apply Hn. split; [done|congruence].
    + rewrite lookup_delete_ne by done. destruct (ms !! k) as [m|]; [|done].
      simpl. rewrite option_guard_True; [done|]. unfold sent_by; simpl. tauto.
  - destruct (ms !! k) as [m|] eqn:Hm; [|done]. simpl.
    rewrite option_guard_True; [done|]. unfold sent_by; simpl.
    intros [-> Hsend]. apply Hs. rewrite Hm. simpl. congruence.
Qed.

(** The rows with key [pk] sent by [uid]: one at most. *)
Lemma size_filter_sent_by (pk uid : Z) (ms : gmap Z Message) :
  size (filter (sent_by pk (Some uid)) ms) =
  if bool_decide (sender <$> ms !! pk = Some uid) then 1%nat else 0%nat.
Proof.
  case_bool_decide as Hs.
  - destruct (ms !! pk) as [m|] eqn:Hm; [|done]. simpl in Hs.
    assert (filter (sent_by pk (Some uid)) ms = {[pk := m]}) as ->;
      [|apply map_size_singleton].
    apply map_eq; intros k. rewrite map_lookup_filter.
    destruct (decide (k = pk)) as [->|Hk].
    + rewrite Hm, lookup_singleton_eq. simpl. rewrite option_guard_True; [done|].
      split; [done|]. simpl. congruence.
    + rewrite lookup_singleton_ne by done.
      destruct (ms !! k) as [m'|]; [|done]. simpl.
      rewrite option_guard_False; [done|]. by intros [? _].
  - apply map_size_empty_iff, map_empty; intros k. rewrite map_lookup_filter.
    destruct (ms !! k) as [m'|] eqn:Hm'; [|done]. simpl.
    rewrite option_guard_False; [done|]. intros [Hk Hsend]; simpl in *; subst k.
    apply Hs. rewrite Hm'. simpl. congruence.
Qed.

(** ** The claims *)

(** C2.  [mark_messages_read] on a list of message ids, each within the
    64 bits of a key, and a reader id returns without an error and without
    touching users or conversations; it keeps every message row and all
    its fields but [is_read], and changes [is_read] (to true) exactly for
    the messages whose id is in the list, whose sender is not the reader
    and which were unread.  In particular a message sent by the reader
    keeps its [is_read], and the store is unchanged when no message
    matches, as with an empty list. *)
Theorem mark_messages_read_exact `{FieldPrep} (ids : list Z) (reader : Z) (d : db) :
  Forall in_int64 ids →
  let r := ChatConsumer.mark_messages_read (JArr (JInt <$> ids)) (Some reader) d in
  outcome r = inr () ∧ trace r = [] ∧
  users (store r) = users d ∧ conversations (store r) = conversations d ∧
  (∀ pk, messages d !! pk = None → messages (store r) !! pk = None) ∧
  (∀ pk m, messages d !! pk = Some m →
     ∃ m', messages (store r) !! pk = Some m' ∧
       conversation m' = conversation m ∧ sender m' = sender m ∧
       content m' = content m ∧ timestamp m' = timestamp m ∧
       (is_read m' = true ↔
          is_read m = true ∨ (pk ∈ ids ∧ sender m ≠ reader)) ∧
       (is_read m' ≠ is_read m ↔
          pk ∈ ids ∧ sender m ≠ reader ∧ is_read m = false) ∧
       (sender m = reader → is_read m' = is_read m)) ∧
  ((∀ pk m, messages d !! pk = Some m →
      ¬ (pk ∈ ids ∧ sender m ≠ reader ∧ is_read m = false)) → store r = d) ∧
  (ids = [] → store r = d).
Proof.
  intros Hfit r.
  assert (Hr : r = Message_update_read ids (Some reader) d).
  { unfold r, ChatConsumer.mark_messages_read, try_except.
    rewrite pk_in_ints by done. reflexivity. }
  assert (Hlook := update_read_lookup ids (Some reader) d). rewrite <- Hr in Hlook.
  assert (Hnomatch : (∀ pk m, messages d !! pk = Some m →
      ¬ (pk ∈ ids ∧ sender m ≠ reader ∧ is_read m = false)) → store r = d).
  { intros Hno. apply db_eq; try (rewrite Hr; reflexivity).
    apply map_eq; intros pk. rewrite Hlook.
    destruct (messages d !! pk) as [m|] eqn:Hm; [|done]. simpl.
    rewrite bool_decide_eq_false_2; [done|].
    unfold unread_from_others. intros (Hin & Hrd & Hs).
    apply (Hno pk m Hm). repeat split; [done| |done]. congruence. }
  split; [by rewrite Hr|]. split; [by rewrite Hr|].
  split; [by rewrite Hr|]. split; [by rewrite Hr|].
  split; [intros pk Hn; by rewrite Hlook, Hn|].
  split; [|split; [exact Hnomatch|]].
  - intros pk m Hm. rewrite Hlook, Hm. simpl. eexists; split; [reflexivity|].
    unfold unread_from_others. case_bool_decide as Hd.
    + destruct Hd as (Hin & Hrd & Hs).
      assert (sender m ≠ reader) by congruence.
      simpl. rewrite Hrd. repeat split; try done; try tauto.
    + repeat split; try done.
      * intros Ht. by left.
      * intros [Ht|[Hin Hs]]; [done|].
        destruct (is_read m) eqn:Hrd; [done|]. exfalso. apply Hd.
        repeat split; [done|]. congruence.
      * intros (Hin & Hs & Hrd). exfalso. apply Hd.
        repeat split; [done|done|]. congruence.
  - intros ->. apply Hnomatch. intros pk m _ (Hin & _). by apply elem_of_nil in Hin.
Qed.

(** C5 (amended).  [delete_message] on a message id and a requester id
    removes the row with that id exactly when the row exists and the
    requester sent it: one row is then affected, and none when the
    message is missing or was sent by someone else, in which cases nothing
    is raised or printed.  Users and conversations are untouched, and the
    caller gets [None], not the count that [delete()] yields. *)
Theorem delete_message_only_by_sender `{FieldPrep} (pk uid : Z) (d : db) :
  let r := ChatConsumer.delete_message (JInt pk) (Some uid) d in
  let authorised := bool_decide (sender <$> messages d !! pk = Some uid) in
  outcome r = inr None ∧ trace r = [] ∧
  messages (store r) = (if authorised then delete pk (messages d) else messages d) ∧
  size (messages d) =
    (size (messages (store r)) + (if authorised then 1 else 0))%nat ∧
  outcome (Message_delete pk (Some uid) d) = inr (if authorised then 1 else 0)%nat ∧
  users (store r) = users d ∧ conversations (store r) = conversations d.
Proof.
  intros r authorised.
  assert (Hcount : outcome (Message_delete pk (Some uid) d)
                   = inr (if authorised then 1 else 0)%nat).
  { unfold Message_delete, bind, get_db, modify, ret, outcome. simpl.
    by rewrite size_filter_sent_by. }
  assert (Hm : messages (store r) =
               if authorised then delete pk (messages d) else messages d).
  { unfold r, ChatConsumer.delete_message, try_except, store. simpl.
    apply filter_not_sent_by. }
  split; [done|]. split; [done|]. split; [exact Hm|].
  split; [|by split]. rewrite Hm. unfold authorised.
  case_bool_decide as Hs; [|lia].
  destruct (messages d !! pk) as [m|] eqn:Hl; [|done].
  rewrite map_size_delete, Hl.
  assert (size (messages d) ≠ 0%nat); [|simpl; lia].
  apply map_size_non_empty_iff. intros He. by rewrite He in Hl.
Qed.

(** The status update never raises: it writes the flag when the user's
    row is there and prints the error otherwise. *)
Lemma chat_update_user_status_run (self : ChatConsumer.session) (status : bool) (d : db) :
  ChatConsumer.update_user_status self status d =
  match id_of (ChatConsumer.user self) with
  | Some uid =>
      match users d !! uid with
      | Some _ => (inr (), set_users (alter (set_online status) uid) d, [])
      | None => (inr (), d, [Print "Status update error:" DoesNotExist])
      end
  | None => (inr (), d, [Print "Status update error:" DoesNotExist])
  end.
Proof.
  unfold ChatConsumer.update_user_status, try_except, User_get, bind, get_db.
  destruct (id_of (ChatConsumer.user self)) as [uid|]; [|reflexivity].
  destruct (users d !! uid); reflexivity.
Qed.

Lemma presence_update_user_status_run (self : PresenceConsumer.session)
    (status : bool) (d : db) :
  PresenceConsumer.update_user_status self status d =
  match id_of (PresenceConsumer.user self) with
  | Some uid =>
      match users d !! uid with
      | Some _ => (inr (), set_users (alter (set_online status) uid) d, [])
      | None => (inr (), d, [Print "Status update error:" DoesNotExist])
      end
  | None => (inr (), d, [Print "Status update error:" DoesNotExist])
  end.
Proof.
  unfold PresenceConsumer.update_user_status, try_except, User_get, bind, get_db.
  destruct (id_of (PresenceConsumer.user self)) as [uid|]; [|reflexivity].
  destruct (users d !! uid); reflexivity.
Qed.

(** C6.  An anonymous connection to the presence endpoint or to the chat
    endpoint is closed by [connect], which does nothing else; over the
    whole of [connect] followed by [disconnect] no group is joined,
    nothing is broadcast, the connection is never accepted and the store
    is left as it was. *)
Theorem anonymous_connection_no_effect (peer : Z) (channel : string) (d : db) :
  let presence :=
    bind (PresenceConsumer.connect Anonymous channel) PresenceConsumer.disconnect d in
  let chat :=
    bind (ChatConsumer.connect Anonymous peer channel) ChatConsumer.disconnect d in
  trace (PresenceConsumer.connect Anonymous channel d) = [Close] ∧
  trace (ChatConsumer.connect Anonymous peer channel d) = [Close] ∧
  (outcome presence = inr () ∧ store presence = d ∧
   head (trace presence) = Some Close ∧ (Accept ∉ trace presence) ∧
   group_joins (trace presence) = [] ∧ broadcasts (trace presence) = []) ∧
  (outcome chat = inr () ∧ store chat = d ∧
   head (trace chat) = Some Close ∧ (Accept ∉ trace chat) ∧
   group_joins (trace chat) = [] ∧ broadcasts (trace chat) = []).
Proof.
  simpl. repeat split; try reflexivity.
  - intros Hin. apply list_elem_of_singleton in Hin. discriminate.
  - intros Hin. apply elem_of_cons in Hin as [Hin|Hin]; [discriminate|].
    apply list_elem_of_singleton in Hin. discriminate.
Qed.

(** C9 (amended).  A chat-session disconnect always returns and touches
    only the user table, where it sets the user's online flag to false if
    the user has a row.  If the room name was set by [connect] it leaves
    the room group first and broadcasts the offline status to the room
    last; if the room name was never set (the join was skipped) it neither
    leaves a group nor broadcasts. *)
Theorem chat_disconnect_guarded (self : ChatConsumer.session) (d : db) :
  let r := ChatConsumer.disconnect self d in
  outcome r = inr () ∧
  conversations (store r) = conversations d ∧ messages (store r) = messages d ∧
  users (store r) =
    match id_of (ChatConsumer.user self) with
    | Some uid => alter (set_online false) uid (users d)
    | None => users d
    end ∧
  match ChatConsumer.room_group_name self with
  | Some room =>
      ∃ log,
        trace r = GroupDiscard room (ChatConsumer.channel_name self) :: log ++
                  [GroupSend room (user_status_ev (id_of (ChatConsumer.user self)) false)]
        ∧ (log = [] ∨ log = [Print "Status update error:" DoesNotExist])
  | None =>
      broadcasts (trace r) = [] ∧ ∀ g c, GroupDiscard g c ∉ trace r
  end.
Proof.
  unfold ChatConsumer.disconnect, bind, emit, ret.
  destruct (ChatConsumer.room_group_name self) as [room|];
    rewrite chat_update_user_status_run;
    destruct (id_of (ChatConsumer.user self)) as [uid|];
    try destruct (users d !! uid) eqn:Hu; simpl;
    repeat split; try reflexivity;
    try (by rewrite alter_id');
    try (by exists []; auto);
    try (by exists [Print "Status update error:" DoesNotExist]; auto);
    try (intros g c Hin; apply list_elem_of_singleton in Hin; discriminate);
    try (intros g c Hin; by apply elem_of_nil in Hin).
Qed.

(** ** Runs of the store operations of the chat consumer *)

Lemma map_to_list_filter_elem {A} (P : Z * A → Prop) `{!∀ kv, Decision (P kv)}
    (m : gmap Z A) (kv : Z * A) :
  kv ∈ map_to_list (filter P m) → m !! kv.1 = Some kv.2 ∧ P kv.
Proof.
  destruct kv as [k v]. rewrite elem_of_map_to_list.
  intros Hf. by apply map_lookup_filter_Some in Hf.
Qed.

(** [get_or_create] writes nothing when it raises or finds the row, and
    otherwise adds one row, under the next key, with the pair it was
    asked for. *)
Lemma get_or_create_run (now u1 u2 : Z) (d : db) :
  match Conversation_get_or_create now u1 u2 d with
  | (inr (pk, row, created), d1, log) =>
      log = [] ∧ user1 row = u1 ∧ user2 row = u2 ∧
      conversations d1 !! pk = Some row ∧
      users d1 = users d ∧ messages d1 = messages d ∧
      message_seq d1 = message_seq d ∧
      if created then
        conversations d1 = <[pk := row]> (conversations d) ∧
        filter (same_pair u1 u2) (conversations d) = ∅ ∧
        is_Some (users d !! u1) ∧ is_Some (users d !! u2)
      else d1 = d
  | (inl e, d1, log) => d1 = d ∧ log = []
  end.
Proof.
  unfold Conversation_get_or_create, bind, get_db.
  destruct (map_to_list (filter (same_pair u1 u2) (conversations d)))
    as [|kv [|kv' l]] eqn:Hl; simpl.
  - case_bool_decide as Hfk; simpl; [|done].
    apply map_to_list_empty_iff in Hl.
    repeat split; try done; try tauto. by rewrite lookup_insert_eq.
  - destruct kv as [pk row].
    assert (Hin : (pk, row) ∈ map_to_list (filter (same_pair u1 u2) (conversations d)))
      by (rewrite Hl; apply list_elem_of_singleton; done).
    apply map_to_list_filter_elem in Hin as [Hlook [Hu1 Hu2]]. simpl in *.
    repeat split; done.
  - done.
Qed.

(** Once a row for the pair has been returned, any later call for the
    pair returns that row and writes nothing, whatever else happened to
    the other tables. *)
Lemma get_or_create_again (now now' u1 u2 : Z) (d d1 d2 : db)
    (pk : Z) (row : Conversation) (created : bool) (log : list effect) :
  Conversation_get_or_create now u1 u2 d = (inr (pk, row, created), d1, log) →
  conversations d2 = conversations d1 →
  Conversation_get_or_create now' u1 u2 d2 = (inr (pk, row, false), d2, []).
Proof.
  intros Hrun Hconv.
  assert (Hl : map_to_list (filter (same_pair u1 u2) (conversations d2)) = [(pk, row)]).
  { rewrite Hconv. revert Hrun.
    unfold Conversation_get_or_create, bind, get_db.
    destruct (map_to_list (filter (same_pair u1 u2) (conversations d)))
      as [|kv [|kv' l]] eqn:Hl; simpl.
    - case_bool_decide; simpl; [|done]. intros [= <- <- <- <- <-]. simpl.
      apply map_to_list_empty_iff in Hl.
      rewrite map_filter_insert_True by done.
      rewrite Hl, insert_empty. apply map_to_list_singleton.
    - intros [= -> <- <- <-]. done.
    - done. }
  unfold Conversation_get_or_create, bind, get_db. by rewrite Hl.
Qed.

Lemma sorted2_min_max (a b : Z) : sorted2 a b = (Z.min a b, Z.max a b).
Proof. unfold sorted2. destruct (Z.ltb_spec b a); f_equal; lia. Qed.

Lemma min2_max2_min_max (a b : Z) : (min2 a b, max2 a b) = (Z.min a b, Z.max a b).
Proof.
  unfold min2, max2.
  destruct (Z.ltb_spec b a), (Z.ltb_spec a b); f_equal; lia.
Qed.

(** [save_message] never raises.  It returns a row when the peer and the
    sender have rows, the conversation could be got or created and the
    text can be encoded, and [None], after printing the error, otherwise. *)
Lemma save_message_run (self : ChatConsumer.session) (now : Z) (text : pystr) (d : db) :
  ChatConsumer.save_message self now text d =
  let peer := ChatConsumer.other_user_id self in
  match users d !! peer with
  | None => (inr None, d, [Print "Message save error:" DoesNotExist])
  | Some _ =>
      match id_of (ChatConsumer.user self) with
      | None => (inr None, d, [Print "Message save error:" TypeError])
      | Some uid =>
          match Conversation_get_or_create now (Z.min uid peer) (Z.max uid peer) d with
          | (inl e, d1, log) => (inr None, d1, [Print "Message save error:" e])
          | (inr (cpk, crow, created), d1, log) =>
              if negb (encodable text) then
                (inr None, d1, [Print "Message save error:" UnicodeEncodeError])
              else if bool_decide (is_Some (users d1 !! uid)) then
                let row := {| conversation := cpk; sender := uid; content := text;
                              timestamp := now; is_read := false |} in
                (inr (Some (message_seq d1, row)),
                 insert_message (message_seq d1) row d1, [])
              else (inr None, d1, [Print "Message save error:" IntegrityError])
          end
      end
  end.
Proof.
  unfold ChatConsumer.save_message, try_except, User_get, bind, get_db, ret, raise.
  simpl.
  destruct (users d !! ChatConsumer.other_user_id self) as [u|]; [|reflexivity].
  simpl. destruct (id_of (ChatConsumer.user self)) as [uid|] eqn:Hid; [|reflexivity].
  rewrite sorted2_min_max. simpl.
  pose proof (get_or_create_run now (Z.min uid (ChatConsumer.other_user_id self))
                (Z.max uid (ChatConsumer.other_user_id self)) d) as Hrun.
  destruct (Conversation_get_or_create now _ _ d) as [[[e|[[cpk crow] created]] d1] log].
  - destruct Hrun as [-> ->]. reflexivity.
  - destruct Hrun as (-> & _ & _ & Hc & _). simpl.
    unfold Message_create, bind, get_db, modify, ret, raise. simpl.
    destruct (encodable text); [simpl|reflexivity].
    destruct (decide (is_Some (users d1 !! uid))) as [Hu|Hu].
    + rewrite !bool_decide_eq_true_2; [reflexivity|done|]. split; [by eexists|done].
    + rewrite !bool_decide_eq_false_2; [reflexivity|done|]. tauto.
Qed.

Lemma mark_messages_read_run `{FieldPrep} (v : json) (reader : option Z) (d : db) :
  ChatConsumer.mark_messages_read v reader d =
  match pk_in v with
  | inr ids => (inr (), store (Message_update_read ids reader d), [])
  | inl e => (inr (), d, [Print "Mark read error:" e])
  end.
Proof.
  unfold ChatConsumer.mark_messages_read, try_except.
  destruct (pk_in v); reflexivity.
Qed.

Lemma delete_message_run `{FieldPrep} (v : json) (uid : option Z) (d : db) :
  ChatConsumer.delete_message v uid d =
  match pk_exact v with
  | inr pk => (inr None, set_messages (filter (λ kv, ¬ sent_by pk uid kv)) d, [])
  | inl e => (inr None, d, [Print "Delete message error:" e])
  end.
Proof.
  unfold ChatConsumer.delete_message, try_except.
  destruct (pk_exact v); reflexivity.
Qed.

(** ** Runs of [receive] *)

(** A frame of type ["message"] in a session that has its room. *)
Lemma receive_message_run `{FieldPrep} (self : ChatConsumer.session) (room : string)
    (now : Z) (data : gmap pystr json) (d : db) :
  ChatConsumer.room_group_name self = Some room →
  eq_str (ChatConsumer.msg_type_of data) "message" = true →
  ChatConsumer.receive self now (Some (JObj data)) d =
  match dict_get data "message" (JStr []) with
  | JStr text =>
      if bool_decide (strip text = []) then (inr (), d, [])
      else
        match ChatConsumer.save_message self now (strip text) d with
        | (inr (Some (pk, row)), d1, log) =>
            (inr (), d1,
             log ++ [GroupSend room
                       (chat_message_ev pk (content row)
                          (id_of (ChatConsumer.user self))
                          (username_of (ChatConsumer.user self))
                          (strftime_HM (timestamp row)))])
        | (inr None, d1, log) => (inr (), d1, log ++ [])
        | (inl e, d1, log) => (inl e, d1, log)
        end
  | _ => (inl AttributeError, d, [])
  end.
Proof.
  intros Hroom Hty. unfold ChatConsumer.receive. rewrite Hty.
  destruct (dict_get data "message" (JStr [])); try reflexivity.
  case_bool_decide; [reflexivity|].
  unfold bind, ChatConsumer.room_of. rewrite Hroom.
  destruct (ChatConsumer.save_message self now (strip s) d)
    as [[[e|[[pk row]|]] d1] log]; reflexivity.
Qed.

(** A frame of any other type in a session that has its room. *)
Lemma receive_other_run `{FieldPrep} (self : ChatConsumer.session) (room : string)
    (now : Z) (data : gmap pystr json) (d : db) :
  ChatConsumer.room_group_name self = Some room →
  eq_str (ChatConsumer.msg_type_of data) "message" = false →
  let msg_type := ChatConsumer.msg_type_of data in
  let uid := id_of (ChatConsumer.user self) in
  ChatConsumer.receive self now (Some (JObj data)) d =
  if eq_str msg_type "mark_as_read" then
    let message_ids := dict_get data "message_ids" (JArr []) in
    if truthy message_ids then
      (inr (), store (ChatConsumer.mark_messages_read message_ids uid d),
       trace (ChatConsumer.mark_messages_read message_ids uid d)
       ++ [GroupSend room (message_read_ev message_ids)])
    else (inr (), d, [])
  else if eq_str msg_type "typing" then
    (inr (), d, [GroupSend room (typing_ev uid)])
  else if eq_str msg_type "stop_typing" then
    (inr (), d, [GroupSend room (stop_typing_ev uid)])
  else if eq_str msg_type "delete_message" then
    let message_id := dict_get data "message_id" JNull in
    if truthy message_id then
      (inr (), store (ChatConsumer.delete_message message_id uid d),
       trace (ChatConsumer.delete_message message_id uid d)
       ++ [GroupSend room (deleted_ev message_id)])
    else (inr (), d, [])
  else (inr (), d, []).
Proof.
  intros Hroom Hty msg_type uid. unfold ChatConsumer.receive. rewrite Hty.
  fold msg_type. fold uid.
  unfold bind, ChatConsumer.room_of. rewrite Hroom.
  destruct (eq_str msg_type "mark_as_read").
  { destruct (truthy _); [|reflexivity].
    rewrite mark_messages_read_run. destruct (pk_in _); reflexivity. }
  destruct (eq_str msg_type "typing"); [reflexivity|].
  destruct (eq_str msg_type "stop_typing"); [reflexivity|].
  destruct (eq_str msg_type "delete_message"); [|reflexivity].
  destruct (truthy _); [|reflexivity].
  rewrite delete_message_run. destruct (pk_exact _); reflexivity.
Qed.

Lemma broadcasts_app (t1 t2 : list effect) :
  broadcasts (t1 ++ t2) = broadcasts t1 ++ broadcasts t2.
Proof. unfold broadcasts. apply omap_app. Qed.

Lemma mark_messages_read_silent `{FieldPrep} (v : json) (reader : option Z) (d : db) :
  broadcasts (trace (ChatConsumer.mark_messages_read v reader d)) = [].
Proof. rewrite mark_messages_read_run. destruct (pk_in v); reflexivity. Qed.

Lemma delete_message_silent `{FieldPrep} (v : json) (uid : option Z) (d : db) :
  broadcasts (trace (ChatConsumer.delete_message v uid d)) = [].
Proof. rewrite delete_message_run. destruct (pk_exact v); reflexivity. Qed.

Lemma save_message_silent (self : ChatConsumer.session) (now : Z) (text : pystr) (d : db) :
  broadcasts (trace (ChatConsumer.save_message self now text d)) = [] ∧
  ∃ res, outcome (ChatConsumer.save_message self now text d) = inr res.
Proof.
  rewrite save_message_run. simpl.
  destruct (users d !! _); [|by eauto].
  destruct (id_of _); [|by eauto].
  destruct (Conversation_get_or_create _ _ _ _) as [[[e|[[cpk crow] created]] d1] log];
    [by eauto|].
  destruct (encodable text); simpl; [|by eauto].
  case_bool_decide; by eauto.
Qed.

(** What a successful [save_message] returns and leaves behind. *)
Lemma save_message_some (self : ChatConsumer.session) (now : Z) (text : pystr)
    (d : db) (pk : Z) (row : Message) :
  let r := ChatConsumer.save_message self now text d in
  outcome r = inr (Some (pk, row)) →
  trace r = [] ∧ messages (store r) !! pk = Some row ∧
  content row = text ∧ timestamp row = now ∧ is_read row = false ∧
  Some (sender row) = id_of (ChatConsumer.user self) ∧
  users (store r) = users d ∧
  is_Some (users d !! ChatConsumer.other_user_id self) ∧
  ∃ crow, conversations (store r) !! conversation row = Some crow ∧
    user1 crow = Z.min (sender row) (ChatConsumer.other_user_id self) ∧
    user2 crow = Z.max (sender row) (ChatConsumer.other_user_id self) ∧
    ∀ k c, conversations (store r) !! k = Some c →
      conversations d !! k = Some c ∨ (k = conversation row ∧ c = crow).
Proof.
  intros r. unfold r. rewrite save_message_run. simpl.
  destruct (users d !! _) as [u|]; [|done].
  destruct (id_of _) as [uid|]; [|done].
  pose proof (get_or_create_run now (Z.min uid (ChatConsumer.other_user_id self))
                (Z.max uid (ChatConsumer.other_user_id self)) d) as Hrun.
  destruct (Conversation_get_or_create _ _ _ _) as [[[e|[[cpk crow] created]] d1] log];
    [done|].
  destruct (encodable text); simpl; [|done].
  case_bool_decide; [|done]. unfold outcome, store, trace. simpl.
  intros [= <- <-]. simpl.
  destruct Hrun as (_ & Hu1 & Hu2 & Hc & Hus & _ & _ & Hcr).
  repeat split; try done.
  - by rewrite lookup_insert_eq.
  - exists crow. repeat split; try done.
    intros k c Hk. destruct created.
    + destruct Hcr as (Hins & _). rewrite Hins in Hk.
      destruct (decide (k = cpk)) as [->|Hne].
      * rewrite lookup_insert_eq in Hk. injection Hk as <-. by right.
      * rewrite lookup_insert_ne in Hk by done. by left.
    + subst d1. by left.
Qed.

(** A failed [save_message] prints the error and creates no message. *)
Lemma save_message_none (self : ChatConsumer.session) (now : Z) (text : pystr) (d : db) :
  let r := ChatConsumer.save_message self now text d in
  outcome r = inr None →
  messages (store r) = messages d ∧ users (store r) = users d ∧
  ∃ e, trace r = [Print "Message save error:" e].
Proof.
  intros r. unfold r. rewrite save_message_run. simpl.
  destruct (users d !! _) as [u|]; [|by eauto].
  destruct (id_of _) as [uid|]; [|by eauto].
  pose proof (get_or_create_run now (Z.min uid (ChatConsumer.other_user_id self))
                (Z.max uid (ChatConsumer.other_user_id self)) d) as Hrun.
  destruct (Conversation_get_or_create _ _ _ _) as [[[e|[[cpk crow] created]] d1] log].
  - destruct Hrun as [-> _]. by eauto.
  - destruct Hrun as (_ & _ & _ & _ & Hus & Hms & _).
    destruct (encodable text); simpl; [|unfold store, trace; simpl; by eauto].
    case_bool_decide; [done|]. unfold store, trace; simpl. by eauto.
Qed.


Lemma eq_str_true (v : json) (s : string) : eq_str v s = true → v = JStr (lit s).
Proof.
  destruct v; simpl; try discriminate. intros Hb.
  apply bool_decide_eq_true_1 in Hb. by subst.
Qed.

(** The type of a frame decides which branch of [receive] runs. *)
Lemma msg_type_delete (data : gmap pystr json) :
  eq_str (ChatConsumer.msg_type_of data) "delete_message" = true →
  eq_str (ChatConsumer.msg_type_of data) "message" = false ∧
  eq_str (ChatConsumer.msg_type_of data) "mark_as_read" = false ∧
  eq_str (ChatConsumer.msg_type_of data) "typing" = false ∧
  eq_str (ChatConsumer.msg_type_of data) "stop_typing" = false.
Proof. intros Ht. apply eq_str_true in Ht. rewrite Ht. by vm_compute. Qed.

Lemma msg_type_mark_as_read (data : gmap pystr json) :
  eq_str (ChatConsumer.msg_type_of data) "mark_as_read" = true →
  eq_str (ChatConsumer.msg_type_of data) "message" = false.
Proof. intros Ht. apply eq_str_true in Ht. rewrite Ht. by vm_compute. Qed.

(** C4.  In a session that has its room, a [delete_message] request for a
    message that the requester did not send leaves the store as it was and
    still sends the deletion notice to the room; the effects are the same
    whatever the store holds, so also when the requester did send the
    message and the row goes. *)
Theorem delete_by_non_sender_still_notifies `{FieldPrep} (self : ChatConsumer.session)
    (room : string) (uid now pk : Z) (data : gmap pystr json) (m : Message) (d : db) :
  ChatConsumer.room_group_name self = Some room →
  id_of (ChatConsumer.user self) = Some uid →
  eq_str (ChatConsumer.msg_type_of data) "delete_message" = true →
  dict_get data "message_id" JNull = JInt pk →
  message_keys_ok d →
  messages d !! pk = Some m →
  sender m ≠ uid →
  let r := ChatConsumer.receive self now (Some (JObj data)) d in
  outcome r = inr () ∧ store r = d ∧
  trace r = [GroupSend room (deleted_ev (JInt pk))] ∧
  (∀ d', trace (ChatConsumer.receive self now (Some (JObj data)) d') = trace r) ∧
  (∀ d' m', messages d' !! pk = Some m' → sender m' = uid →
     messages (store (ChatConsumer.receive self now (Some (JObj data)) d')) !! pk
       = None).
Proof.
  intros Hroom Huid Hty Hid [_ Hkeys] Hm Hs r.
  destruct (msg_type_delete data Hty) as (Hn1 & Hn2 & Hn3 & Hn4).
  assert (Hpk : truthy (JInt pk) = true).
  { simpl. apply negb_true_iff, Z.eqb_neq. specialize (Hkeys pk m Hm). simpl in Hkeys. lia. }
  assert (Hrun : ∀ d', ChatConsumer.receive self now (Some (JObj data)) d' =
            (inr (), set_messages (filter (λ kv, ¬ sent_by pk (Some uid) kv)) d',
             [GroupSend room (deleted_ev (JInt pk))])).
  { intros d'. rewrite (receive_other_run self room) by done. simpl.
    rewrite Hn2, Hn3, Hn4, Hty, Hid, Hpk, Huid.
    rewrite delete_message_run. reflexivity. }
  unfold r. split; [by rewrite Hrun|]. split; [|split; [by rewrite Hrun|split]].
  - rewrite Hrun. unfold store; simpl. apply db_eq; try reflexivity. simpl.
    rewrite filter_not_sent_by. rewrite bool_decide_eq_false_2; [done|].
    rewrite Hm. simpl. congruence.
  - intros d'. by rewrite !Hrun.
  - intros d' m' Hm' Hs'. rewrite Hrun. unfold store; simpl.
    rewrite filter_not_sent_by. rewrite bool_decide_eq_true_2.
    + apply lookup_delete_eq.
    + rewrite Hm'. simpl. congruence.
Qed.

(** C10.  In a session that has its room, a [mark_as_read] request with a
    non-empty list of ids, each within the 64 bits of a key, returns,
    marks as read every message of the store whose id is listed and which
    the reader did not send, whatever conversation the message belongs to,
    and sends the list it was given to the room; this broadcast is the
    only effect and is the same whatever the store holds, so whether or
    not any message was updated. *)
Theorem mark_as_read_reaches_any_conversation `{FieldPrep} (self : ChatConsumer.session)
    (room : string) (uid now : Z) (ids : list Z) (data : gmap pystr json) (d : db) :
  ChatConsumer.room_group_name self = Some room →
  id_of (ChatConsumer.user self) = Some uid →
  eq_str (ChatConsumer.msg_type_of data) "mark_as_read" = true →
  dict_get data "message_ids" (JArr []) = JArr (JInt <$> ids) →
  ids ≠ [] → Forall in_int64 ids →
  let r := ChatConsumer.receive self now (Some (JObj data)) d in
  outcome r = inr () ∧
  trace r = [GroupSend room (message_read_ev (JArr (JInt <$> ids)))] ∧
  store r = store (ChatConsumer.mark_messages_read (JArr (JInt <$> ids)) (Some uid) d) ∧
  (∀ pk m, messages d !! pk = Some m → pk ∈ ids → sender m ≠ uid →
     ∃ m', messages (store r) !! pk = Some m' ∧ is_read m' = true ∧
           conversation m' = conversation m) ∧
  (∀ d', trace (ChatConsumer.receive self now (Some (JObj data)) d') = trace r).
Proof.
  intros Hroom Huid Hty Hids Hne Hfit r.
  pose proof (msg_type_mark_as_read data Hty) as Hn1.
  assert (Htr : truthy (JArr (JInt <$> ids)) = true).
  { simpl. apply negb_true_iff, bool_decide_eq_false_2.
    intros He. by apply fmap_nil_inv in He. }
  assert (Hrun : ∀ d', ChatConsumer.receive self now (Some (JObj data)) d' =
            (inr (), store (Message_update_read ids (Some uid) d'),
             [GroupSend room (message_read_ev (JArr (JInt <$> ids)))])).
  { intros d'. rewrite (receive_other_run self room) by done. simpl.
    rewrite Hty, Hids, Htr, Huid. rewrite mark_messages_read_run, pk_in_ints by done.
    reflexivity. }
  unfold r. rewrite !Hrun. split; [done|]. split; [done|].
  split; [by rewrite mark_messages_read_run, pk_in_ints|].
  split; [|intros d'; by rewrite Hrun].
  intros pk m Hm Hin Hs.
  match goal with
  | |- context [store (inr (), ?x, ?t)] => change (store (inr (), x, t)) with x
  end.
  rewrite update_read_lookup, Hm. simpl. eexists; split; [reflexivity|].
  case_bool_decide as Hd; [done|].
  destruct (is_read m) eqn:Hrd; [done|]. exfalso. apply Hd.
  unfold unread_from_others. repeat split; [done|done|congruence].
Qed.

(** C7 (amended).  A malformed frame causes no store write, no broadcast
    and no frame to the client, whatever the session.  When the frame
    decodes to an object that lacks a required field, [receive] returns;
    when [json.loads] rejects it, or it decodes to something else than an
    object, [receive] does not return: the exception escapes it. *)
Theorem malformed_frame_no_effect `{FieldPrep} (self : ChatConsumer.session) (now : Z)
    (text_data : option json) (d : db) :
  malformed text_data = true →
  let r := ChatConsumer.receive self now text_data d in
  store r = d ∧ trace r = [] ∧
  outcome r = match text_data with
              | None => inl JSONDecodeError
              | Some (JObj _) => inr ()
              | Some _ => inl AttributeError
              end.
Proof.
  intros Hmal r. unfold r.
  destruct text_data as [[| | | | |data]|]; try (by repeat split).
  simpl in Hmal. unfold missing_required in Hmal.
  unfold ChatConsumer.receive, dict_get.
  destruct (eq_str (ChatConsumer.msg_type_of data) "message").
  { apply bool_decide_eq_true_1 in Hmal. by rewrite Hmal. }
  destruct (eq_str (ChatConsumer.msg_type_of data) "mark_as_read").
  { apply bool_decide_eq_true_1 in Hmal. by rewrite Hmal. }
  destruct (eq_str (ChatConsumer.msg_type_of data) "typing") eqn:Ht.
  { destruct (eq_str _ "delete_message") eqn:Hd; [|discriminate].
    apply eq_str_true in Hd. rewrite Hd in Ht. by vm_compute in Ht. }
  destruct (eq_str (ChatConsumer.msg_type_of data) "stop_typing") eqn:Hst.
  { destruct (eq_str _ "delete_message") eqn:Hd; [|discriminate].
    apply eq_str_true in Hd. rewrite Hd in Hst. by vm_compute in Hst. }
  destruct (eq_str (ChatConsumer.msg_type_of data) "delete_message"); [|discriminate].
  apply bool_decide_eq_true_1 in Hmal. by rewrite Hmal.
Qed.

(** ** The conversation of a pair *)

(** Under the uniqueness constraint and with both users present,
    [get_or_create] returns a row. *)
Lemma get_or_create_ok (now u1 u2 : Z) (d : db) :
  unique_together d → is_Some (users d !! u1) → is_Some (users d !! u2) →
  ∃ pk row, conversation_got (Conversation_get_or_create now u1 u2 d) = Some (pk, row).
Proof.
  intros Huniq H1 H2. unfold conversation_got, Conversation_get_or_create, bind, get_db.
  destruct (map_to_list (filter (same_pair u1 u2) (conversations d)))
    as [|kv [|kv' l]] eqn:Hl; simpl.
  - rewrite bool_decide_eq_true_2 by done. simpl. by eauto.
  - destruct kv as [pk row]. by eauto.
  - exfalso.
    pose proof (NoDup_fst_map_to_list (filter (same_pair u1 u2) (conversations d))) as Hnd.
    rewrite Hl in Hnd. simpl in Hnd.
    assert (Hin1 : kv ∈ map_to_list (filter (same_pair u1 u2) (conversations d)))
      by (rewrite Hl; apply elem_of_cons; by left).
    assert (Hin2 : kv' ∈ map_to_list (filter (same_pair u1 u2) (conversations d)))
      by (rewrite Hl; apply elem_of_cons; right; apply elem_of_cons; by left).
    apply map_to_list_filter_elem in Hin1 as [Hk1 [Ha1 Hb1]].
    apply map_to_list_filter_elem in Hin2 as [Hk2 [Ha2 Hb2]].
    assert (kv.1 = kv'.1) as Heq by (eapply Huniq; eauto; congruence).
    apply NoDup_cons in Hnd as [Hnot _]. apply Hnot.
    rewrite Heq. apply elem_of_cons. by left.
Qed.

(** The message-save path leaves the conversation table as
    [get_or_create] left it for the sorted pair, whether or not the
    message is then stored; it puts the message in the conversation that
    [get_or_create] returned when the text can be encoded, and saves no
    message otherwise. *)
Lemma save_message_conversation (self : ChatConsumer.session) (now uid : Z)
    (text : pystr) (d : db) :
  id_of (ChatConsumer.user self) = Some uid →
  is_Some (users d !! uid) → is_Some (users d !! ChatConsumer.other_user_id self) →
  let peer := ChatConsumer.other_user_id self in
  let g := Conversation_get_or_create now (Z.min uid peer) (Z.max uid peer) d in
  let r := ChatConsumer.save_message self now text d in
  conversation_of_save r
    = (if encodable text then conversation_got g else None) ∧
  conversations (store r) = conversations (store g) ∧ users (store r) = users d.
Proof.
  intros Hid [u Hu] [v Hv] peer g r. unfold r, g, peer.
  rewrite save_message_run. simpl. rewrite Hv, Hid.
  pose proof (get_or_create_run now (Z.min uid (ChatConsumer.other_user_id self))
                (Z.max uid (ChatConsumer.other_user_id self)) d) as Hrun.
  destruct (Conversation_get_or_create _ _ _ _) as [[[e|[[cpk crow] created]] d1] log].
  - destruct Hrun as [-> _]. by destruct (encodable text).
  - destruct Hrun as (_ & _ & _ & Hc & Hus & _).
    destruct (encodable text); simpl; [|done].
    rewrite bool_decide_eq_true_2 by (rewrite Hus; by eexists).
    unfold conversation_of_save, conversation_got, outcome, store. simpl.
    by rewrite Hc.
Qed.

(** So does the chat-view path, for the pair ordered by [min] and [max]. *)
Lemma chat_view_conversation (uid peer now : Z) (name : pystr) (d : db) :
  is_Some (users d !! peer) →
  let g := Conversation_get_or_create now (Z.min uid peer) (Z.max uid peer) d in
  let r := views.chat_view (Authenticated uid name) peer now d in
  conversation_of_view r = conversation_got g ∧ store r = store g.
Proof.
  intros [v Hv] g r. unfold r, g, views.chat_view, try_except, User_get, bind, get_db.
  simpl. rewrite Hv. simpl.
  pose proof (min2_max2_min_max uid peer) as Hmm. injection Hmm as -> ->.
  pose proof (get_or_create_run now (Z.min uid peer) (Z.max uid peer) d) as Hrun.
  destruct (Conversation_get_or_create _ _ _ _) as [[[e|[[cpk crow] created]] d1] log].
  - done.
  - destruct Hrun as (_ & _ & _ & Hc & _).
    unfold conversation_of_view, conversation_got, outcome, store. simpl.
    by rewrite Hc.
Qed.

(** Once [get_or_create] has returned a row for the pair, the four ways
    of reaching the conversation of two users return that row from any
    store with the same users and the conversation table it left, for a
    text that can be encoded. *)
Lemma conversation_settled (sA sB : ChatConsumer.session) (A B now now' : Z)
    (nameA nameB text : pystr) (d d1 d' : db) (pk : Z) (row : Conversation)
    (created : bool) (log : list effect) :
  ChatConsumer.user sA = Authenticated A nameA → ChatConsumer.other_user_id sA = B →
  ChatConsumer.user sB = Authenticated B nameB → ChatConsumer.other_user_id sB = A →
  is_Some (users d' !! A) → is_Some (users d' !! B) →
  encodable text = true →
  Conversation_get_or_create now (Z.min A B) (Z.max A B) d
    = (inr (pk, row, created), d1, log) →
  conversations d' = conversations d1 →
  conversation_of_save (ChatConsumer.save_message sA now' text d') = Some (pk, row) ∧
  conversation_of_save (ChatConsumer.save_message sB now' text d') = Some (pk, row) ∧
  conversation_of_view (views.chat_view (Authenticated A nameA) B now' d')
    = Some (pk, row) ∧
  conversation_of_view (views.chat_view (Authenticated B nameB) A now' d')
    = Some (pk, row).
Proof.
  intros HuA HpA HuB HpB HA HB Henc Hg Hconv.
  pose proof (get_or_create_again now now' _ _ d d1 d' pk row created log Hg Hconv) as Hag.
  assert (HidA : id_of (ChatConsumer.user sA) = Some A) by (by rewrite HuA).
  assert (HidB : id_of (ChatConsumer.user sB) = Some B) by (by rewrite HuB).
  destruct (save_message_conversation sA now' A text d' HidA) as (-> & _);
    [done|by rewrite HpA|].
  destruct (save_message_conversation sB now' B text d' HidB) as (-> & _);
    [done|by rewrite HpB|].
  destruct (chat_view_conversation A B now' nameA d' HB) as (-> & _).
  destruct (chat_view_conversation B A now' nameB d' HA) as (-> & _).
  rewrite Henc, HpA, HpB, (Z.min_comm B A), (Z.max_comm B A), Hag.
  by repeat split.
Qed.

(** C1.  For two distinct users with rows in the user table, the
    message-save path and the chat-view path, each taken from either
    side, reach the same conversation row.  From one store the two saves
    give the same result, the two views give the same result, the four
    leave the same conversation table, and a save of a text that the
    store can encode gives what the view gives; the row they give has the
    smaller id as [user1] and the larger as [user2]; after either path has
    run from one side, each path from either side gives that same row
    again; and a row is given, for a text that can be encoded, whenever
    the table satisfies its uniqueness constraint. *)
Theorem conversation_same_for_both_orders (sA sB : ChatConsumer.session)
    (A B now : Z) (nameA nameB text : pystr) (uA uB : User) (d : db) :
  A ≠ B →
  ChatConsumer.user sA = Authenticated A nameA → ChatConsumer.other_user_id sA = B →
  ChatConsumer.user sB = Authenticated B nameB → ChatConsumer.other_user_id sB = A →
  users d !! A = Some uA → users d !! B = Some uB →
  let save_AB := ChatConsumer.save_message sA now text in
  let save_BA := ChatConsumer.save_message sB now text in
  let view_AB := views.chat_view (Authenticated A nameA) B now in
  let view_BA := views.chat_view (Authenticated B nameB) A now in
  conversation_of_save (save_AB d) = conversation_of_save (save_BA d) ∧
  conversation_of_view (view_AB d) = conversation_of_view (view_BA d) ∧
  (conversations (store (save_AB d)) = conversations (store (view_AB d)) ∧
   conversations (store (save_BA d)) = conversations (store (view_AB d)) ∧
   conversations (store (view_BA d)) = conversations (store (view_AB d))) ∧
  (encodable text = true →
   conversation_of_save (save_AB d) = conversation_of_view (view_AB d)) ∧
  (∀ pk row, conversation_of_save (save_AB d) = Some (pk, row) →
     user1 row = Z.min A B ∧ user2 row = Z.max A B ∧ user1 row < user2 row ∧
     let same_on d' :=
       conversation_of_save (save_AB d') = Some (pk, row) ∧
       conversation_of_save (save_BA d') = Some (pk, row) ∧
       conversation_of_view (view_AB d') = Some (pk, row) ∧
       conversation_of_view (view_BA d') = Some (pk, row) in
     same_on (store (save_AB d)) ∧ same_on (store (save_BA d)) ∧
     same_on (store (view_AB d)) ∧ same_on (store (view_BA d))) ∧
  (unique_together d → encodable text = true →
   ∃ pk row, conversation_of_save (save_AB d) = Some (pk, row)).
Proof.
  intros Hne HuA HpA HuB HpB HA HB save_AB save_BA view_AB view_BA.
  assert (HidA : id_of (ChatConsumer.user sA) = Some A) by (by rewrite HuA).
  assert (HidB : id_of (ChatConsumer.user sB) = Some B) by (by rewrite HuB).
  assert (HsA : is_Some (users d !! A)) by eauto.
  assert (HsB : is_Some (users d !! B)) by eauto.
  destruct (save_message_conversation sA now A text d HidA) as (EsA & CsA & UsA);
    [done|by rewrite HpA|].
  destruct (save_message_conversation sB now B text d HidB) as (EsB & CsB & UsB);
    [done|by rewrite HpB|].
  destruct (chat_view_conversation A B now nameA d HsB) as (EvA & SvA).
  destruct (chat_view_conversation B A now nameB d HsA) as (EvB & SvB).
  rewrite HpA in EsA, CsA. rewrite HpB in EsB, CsB.
  rewrite (Z.min_comm B A), (Z.max_comm B A) in EsB, CsB, EvB, SvB.
  fold save_AB in EsA, CsA, UsA. fold save_BA in EsB, CsB, UsB.
  fold view_AB in EvA, SvA. fold view_BA in EvB, SvB.
  split; [congruence|]. split; [congruence|].
  split; [rewrite SvA, SvB; by repeat split|].
  split; [intros Henc; rewrite Henc in EsA; congruence|]. split.
  - intros pk row Hsave. rewrite EsA in Hsave.
    destruct (encodable text) eqn:Henc; [|discriminate].
    pose proof (get_or_create_run now (Z.min A B) (Z.max A B) d) as Hrun.
    destruct (Conversation_get_or_create now (Z.min A B) (Z.max A B) d)
      as [[[e|[[cpk crow] created]] d1] log] eqn:Hg; [discriminate|].
    unfold conversation_got, outcome in Hsave. simpl in Hsave.
    injection Hsave as -> ->.
    destruct Hrun as (_ & Hu1 & Hu2 & _ & Hus & _).
    unfold store in CsA, CsB, SvA, SvB. simpl in CsA, CsB, SvA, SvB.
    split; [done|]. split; [done|]. split; [lia|].
    assert (Hall : ∀ d', users d' = users d → conversations d' = conversations d1 →
              conversation_of_save (save_AB d') = Some (pk, row) ∧
              conversation_of_save (save_BA d') = Some (pk, row) ∧
              conversation_of_view (view_AB d') = Some (pk, row) ∧
              conversation_of_view (view_BA d') = Some (pk, row)).
    { intros d' Hud Hcd.
      apply (conversation_settled sA sB A B now now nameA nameB text d d1 d'
               pk row created log); try done; by rewrite Hud. }
    split; [by apply Hall|]. split; [by apply Hall|].
    split; apply Hall; unfold store; rewrite ?SvA, ?SvB;
      first [assumption|reflexivity].
  - intros Huniq Henc. rewrite EsA, Henc. apply get_or_create_ok; [done| |].
    + destruct (Z.min_spec A B) as [[_ ->]|[_ ->]]; done.
    + destruct (Z.max_spec A B) as [[_ ->]|[_ ->]]; done.
Qed.

(** ** Where conversation rows come from *)

Lemma bind_store {A B} (m : prog A) (k : A → prog B) (d : db) :
  (∀ a d', store (k a d') = d') → store (bind m k d) = store (m d).
Proof.
  intros Hk. unfold bind.
  destruct (m d) as [[[e|a] d1] t1]; [reflexivity|].
  specialize (Hk a d1). destruct (k a d1) as [[r d2] t2]. exact Hk.
Qed.

Lemma room_send_store (self : ChatConsumer.session) (f : string → effect) (d : db) :
  store (bind (ChatConsumer.room_of self) (λ room, emit (f room)) d) = d.
Proof.
  unfold bind, ChatConsumer.room_of.
  destruct (ChatConsumer.room_group_name self); reflexivity.
Qed.

(** A row that [get_or_create] adds has the pair it was asked for. *)
Lemma get_or_create_rows (now u1 u2 : Z) (d : db) (k : Z) (c : Conversation) :
  conversations (store (Conversation_get_or_create now u1 u2 d)) !! k = Some c →
  conversations d !! k = Some c ∨ (user1 c = u1 ∧ user2 c = u2).
Proof.
  pose proof (get_or_create_run now u1 u2 d) as Hrun.
  destruct (Conversation_get_or_create now u1 u2 d)
    as [[[e|[[pk row] created]] d1] log]; unfold store; simpl.
  - destruct Hrun as [-> _]. by left.
  - destruct Hrun as (_ & Hu1 & Hu2 & _ & _ & _ & _ & Hcr). destruct created.
    + destruct Hcr as (-> & _). intros Hk.
      destruct (decide (k = pk)) as [->|Hne].
      * rewrite lookup_insert_eq in Hk. injection Hk as <-. by right.
      * rewrite lookup_insert_ne in Hk by done. by left.
    + subst d1. by left.
Qed.

(** A row that [save_message] adds, whether or not the message is then
    saved, has the sorted pair of the session's user and its peer. *)
Lemma save_message_rows (self : ChatConsumer.session) (now : Z) (text : pystr)
    (d : db) (k : Z) (c : Conversation) :
  conversations (store (ChatConsumer.save_message self now text d)) !! k = Some c →
  conversations d !! k = Some c ∨
  ∃ uid, id_of (ChatConsumer.user self) = Some uid ∧
    user1 c = Z.min uid (ChatConsumer.other_user_id self) ∧
    user2 c = Z.max uid (ChatConsumer.other_user_id self).
Proof.
  rewrite save_message_run. simpl.
  destruct (users d !! _); [|by left].
  destruct (id_of _) as [uid|]; [|by left].
  pose proof (get_or_create_rows now (Z.min uid (ChatConsumer.other_user_id self))
                (Z.max uid (ChatConsumer.other_user_id self)) d k c) as Hrows.
  destruct (Conversation_get_or_create _ _ _ _) as [[[e|[[cpk crow] created]] d1] log];
    unfold store in *; simpl in *.
  - intros Hk. destruct (Hrows Hk); [by left|right; by eauto].
  - destruct (encodable text); simpl; [case_bool_decide; simpl|]; intros Hk;
      (destruct (Hrows Hk); [by left|right; by eauto]).
Qed.

Lemma receive_rows `{FieldPrep} (self : ChatConsumer.session) (now : Z)
    (text_data : option json) (d : db) (k : Z) (c : Conversation) :
  conversations (store (ChatConsumer.receive self now text_data d)) !! k = Some c →
  conversations d !! k = Some c ∨
  ∃ uid, id_of (ChatConsumer.user self) = Some uid ∧
    user1 c = Z.min uid (ChatConsumer.other_user_id self) ∧
    user2 c = Z.max uid (ChatConsumer.other_user_id self).
Proof.
  unfold ChatConsumer.receive.
  destruct text_data as [[| | | | |data]|]; try (by left).
  destruct (eq_str _ "message").
  { destruct (dict_get data "message" (JStr [])); try (by left).
    case_bool_decide; [by left|].
    rewrite bind_store.
    - apply save_message_rows.
    - intros [[pk row]|] d'; [|reflexivity]. apply room_send_store. }
  destruct (eq_str _ "mark_as_read").
  { destruct (truthy _); [|by left].
    rewrite bind_store by (intros; apply room_send_store).
    rewrite mark_messages_read_run. destruct (pk_in _); by left. }
  destruct (eq_str _ "typing"); [rewrite room_send_store; by left|].
  destruct (eq_str _ "stop_typing"); [rewrite room_send_store; by left|].
  destruct (eq_str _ "delete_message"); [|by left].
  destruct (truthy _); [|by left].
  rewrite bind_store by (intros; apply room_send_store).
  rewrite delete_message_run. destruct (pk_exact _); by left.
Qed.

Lemma chat_view_rows (u : identity) (peer now : Z) (d : db) (k : Z) (c : Conversation) :
  conversations (store (views.chat_view u peer now d)) !! k = Some c →
  conversations d !! k = Some c ∨
  ∃ uid, id_of u = Some uid ∧ user1 c = Z.min uid peer ∧ user2 c = Z.max uid peer.
Proof.
  destruct u as [|uid name]; [by left|].
  unfold views.chat_view, try_except, User_get, bind, get_db. simpl.
  destruct (users d !! peer) as [v|]; [|by left]. simpl.
  pose proof (min2_max2_min_max uid peer) as Hmm. injection Hmm as -> ->.
  pose proof (get_or_create_rows now (Z.min uid peer) (Z.max uid peer) d k c) as Hrows.
  destruct (Conversation_get_or_create _ _ _ _) as [[[e|[[cpk crow] created]] d1] log];
    unfold store in *; simpl in *; intros Hk;
    (destruct (Hrows Hk); [by left|right; by eauto]).
Qed.

(** C8 (amended).  A conversation row that an operation of the program
    adds to the store has as [user1] the smaller and as [user2] the larger
    of the ids of the two users the operation was called for; so
    [user1 ≤ user2], strictly when the two users are distinct. *)
Theorem created_conversation_ordered `{FieldPrep} (o : operation) (d : db)
    (pk : Z) (row : Conversation) :
  conversations (store_after o d) !! pk = Some row →
  conversations d !! pk ≠ Some row →
  ∃ a b, parties o = Some (a, b) ∧
    user1 row = Z.min a b ∧ user2 row = Z.max a b ∧
    user1 row ≤ user2 row ∧ (a ≠ b → user1 row < user2 row).
Proof.
  intros Hnew Hold.
  assert (Hparty : ∃ a b, parties o = Some (a, b) ∧
            user1 row = Z.min a b ∧ user2 row = Z.max a b).
  { destruct o as [u ch|s|u peer ch|s|s now td|u peer now]; simpl in *.
    - exfalso. apply Hold. revert Hnew.
      unfold PresenceConsumer.connect, bind, emit, ret.
      destruct u as [|uid name]; simpl; [done|].
      rewrite presence_update_user_status_run. simpl.
      destruct (users d !! uid); done.
    - exfalso. apply Hold. revert Hnew.
      unfold PresenceConsumer.disconnect, bind, emit, ret.
      destruct (PresenceConsumer.presence_group s); [|done].
      rewrite presence_update_user_status_run.
      destruct (id_of _) as [uid|]; [destruct (users d !! uid)|]; done.
    - exfalso. apply Hold. revert Hnew.
      unfold ChatConsumer.connect, bind, emit, ret.
      destruct u as [|uid name]; simpl; [done|].
      rewrite chat_update_user_status_run. simpl.
      destruct (users d !! uid); done.
    - exfalso. apply Hold. revert Hnew.
      unfold ChatConsumer.disconnect, bind, emit, ret.
      destruct (ChatConsumer.room_group_name s);
        rewrite chat_update_user_status_run;
        (destruct (id_of _) as [uid|]; [destruct (users d !! uid)|]); done.
    - destruct (receive_rows s now td d pk row Hnew) as [|(uid & Hid & Hu1 & Hu2)];
        [done|]. exists uid, (ChatConsumer.other_user_id s). by rewrite Hid.
    - destruct (chat_view_rows u peer now d pk row Hnew) as [|(uid & Hid & Hu1 & Hu2)];
        [done|]. exists uid, peer. by rewrite Hid. }
  destruct Hparty as (a & b & Hp & Hu1 & Hu2).
  exists a, b. repeat split; try done; lia.
Qed.

(** ** Message keys *)

Lemma message_keys_ok_fresh : message_keys_ok fresh_db.
Proof. split; [done|]. apply map_Forall_empty. Qed.

Lemma message_keys_ok_same (d d' : db) :
  messages d' = messages d → message_seq d' = message_seq d →
  message_keys_ok d → message_keys_ok d'.
Proof. unfold message_keys_ok. by intros -> ->. Qed.

Lemma message_keys_ok_update_read (ids : list Z) (reader : option Z) (d : db) :
  message_keys_ok d → message_keys_ok (store (Message_update_read ids reader d)).
Proof.
  intros [Hseq Hkeys]. split; [done|]. intros pk m Hm. simpl.
  rewrite update_read_lookup in Hm.
  destruct (messages d !! pk) as [m0|] eqn:Hm0; [|done]. by apply (Hkeys pk m0).
Qed.

Lemma message_keys_ok_filter (P : Z * Message → Prop) `{!∀ kv, Decision (P kv)} (d : db) :
  message_keys_ok d → message_keys_ok (set_messages (filter P) d).
Proof.
  intros [Hseq Hkeys]. split; [done|]. intros pk m Hm. simpl in *.
  apply map_lookup_filter_Some in Hm as [Hm _]. by apply (Hkeys pk m).
Qed.

Lemma message_keys_ok_save (self : ChatConsumer.session) (now : Z) (text : pystr) (d : db) :
  message_keys_ok d → message_keys_ok (store (ChatConsumer.save_message self now text d)).
Proof.
  intros Hok. rewrite save_message_run. simpl.
  destruct (users d !! _); [|done].
  destruct (id_of _) as [uid|]; [|done].
  pose proof (get_or_create_run now (Z.min uid (ChatConsumer.other_user_id self))
                (Z.max uid (ChatConsumer.other_user_id self)) d) as Hrun.
  destruct (Conversation_get_or_create _ _ _ _) as [[[e|[[cpk crow] created]] d1] log].
  - by destruct Hrun as [-> _].
  - destruct Hrun as (_ & _ & _ & _ & _ & Hms & Hsq & _).
    assert (Hok1 : message_keys_ok d1) by (by apply (message_keys_ok_same d)).
    destruct (encodable text); simpl; [|done].
    case_bool_decide; [|done]. destruct Hok1 as [Hseq Hkeys].
    split; simpl; [lia|]. by apply map_Forall_insert_2.
Qed.

(** Every operation keeps the message keys positive. *)
Lemma message_keys_ok_preserved `{FieldPrep} (o : operation) (d : db) :
  message_keys_ok d → message_keys_ok (store_after o d).
Proof.
  intros Hok. destruct o as [u ch|s|u peer ch|s|s now td|u peer now]; simpl.
  - unfold PresenceConsumer.connect, bind, emit, ret.
    destruct u as [|uid name]; simpl; [done|].
    rewrite presence_update_user_status_run. simpl.
    destruct (users d !! uid); done.
  - unfold PresenceConsumer.disconnect, bind, emit, ret.
    destruct (PresenceConsumer.presence_group s); [|done].
    rewrite presence_update_user_status_run.
    destruct (id_of _) as [uid|]; [destruct (users d !! uid)|]; done.
  - unfold ChatConsumer.connect, bind, emit, ret.
    destruct u as [|uid name]; simpl; [done|].
    rewrite chat_update_user_status_run. simpl.
    destruct (users d !! uid); done.
  - unfold ChatConsumer.disconnect, bind, emit, ret.
    destruct (ChatConsumer.room_group_name s);
      rewrite chat_update_user_status_run;
      (destruct (id_of _) as [uid|]; [destruct (users d !! uid)|]); done.
  - unfold ChatConsumer.receive.
    destruct td as [[| | | | |data]|]; try done.
    destruct (eq_str _ "message").
    { destruct (dict_get data "message" (JStr [])); try done.
      case_bool_decide; [done|].
      rewrite bind_store.
      - by apply message_keys_ok_save.
      - intros [[pk row]|] d'; [|reflexivity]. apply room_send_store. }
    destruct (eq_str _ "mark_as_read").
    { destruct (truthy _); [|done].
      rewrite bind_store by (intros; apply room_send_store).
      rewrite mark_messages_read_run. destruct (pk_in _); [done|].
      by apply message_keys_ok_update_read. }
    destruct (eq_str _ "typing"); [by rewrite room_send_store|].
    destruct (eq_str _ "stop_typing"); [by rewrite room_send_store|].
    destruct (eq_str _ "delete_message"); [|done].
    destruct (truthy _); [|done].
    rewrite bind_store by (intros; apply room_send_store).
    rewrite delete_message_run. destruct (pk_exact _); [done|].
    by apply message_keys_ok_filter.
  - destruct u as [|uid name]; [done|].
    unfold views.chat_view, try_except, User_get, bind, get_db. simpl.
    destruct (users d !! peer) as [v|]; [|done]. simpl.
    pose proof (get_or_create_run now (min2 uid peer) (max2 uid peer) d) as Hrun.
    destruct (Conversation_get_or_create _ _ _ _) as [[[e|[[cpk crow] created]] d1] log].
    + by destruct Hrun as [-> _].
    + destruct Hrun as (_ & _ & _ & _ & _ & Hms & Hsq & _).
      by apply (message_keys_ok_same d).
Qed.

(** ** The claims on the sample store *)

Lemma message_keys_ok_sample : message_keys_ok sample_db.
Proof.
  split; [done|]. unfold sample_db; simpl.
  apply map_Forall_insert_2; [done|].
  apply map_Forall_insert_2; [done|]. apply map_Forall_empty.
Qed.

(** User 9 marks messages 1 and 2 of the sample store, which users 5 and 7
    sent: both are read afterwards. *)
Lemma mark_messages_read_exact_witness :
  Forall in_int64 [1; 2] ∧
  let r := @ChatConsumer.mark_messages_read strict_prep (JArr (JInt <$> [1; 2]))
             (Some 9) sample_db in
  outcome r = inr () ∧ trace r = [] ∧
  (∃ m, messages (store r) !! 1 = Some m ∧ is_read m = true) ∧
  (∃ m, messages (store r) !! 2 = Some m ∧ is_read m = true).
Proof.
  assert (Hfit : Forall in_int64 [1; 2]) by (by repeat constructor).
  split; [exact Hfit|].
  destruct (@mark_messages_read_exact strict_prep [1; 2] 9 sample_db Hfit)
    as (Hout & Htrace & _ & _ & _ & Hrows & _).
  split; [exact Hout|]. split; [exact Htrace|]. split.
  - destruct (Hrows 1 {| conversation := 1; sender := 5; content := lit "hi";
                         timestamp := 110; is_read := false |} eq_refl)
      as (m & Hm & _ & _ & _ & _ & Hread & _).
    exists m. split; [exact Hm|]. apply Hread. right.
    split; [apply elem_of_cons; by left|simpl; lia].
  - destruct (Hrows 2 {| conversation := 2; sender := 7; content := lit "yo";
                         timestamp := 210; is_read := false |} eq_refl)
      as (m & Hm & _ & _ & _ & _ & Hread & _).
    exists m. split; [exact Hm|]. apply Hread. right.
    split; [apply elem_of_cons; right; apply elem_of_cons; by left|simpl; lia].
Defined.

(** Users 5 and 9: the first message that 5 saves for 9 and the page that
    9 opens on 5 use the same conversation. *)
Lemma conversation_same_for_both_orders_witness :
  5 ≠ 9 ∧
  users fresh_db !! 5 = Some {| username := lit "ann"; is_online := false |} ∧
  users fresh_db !! 9 = Some {| username := lit "bob"; is_online := false |} ∧
  encodable (lit "hi") = true ∧
  conversation_of_save (ChatConsumer.save_message ann_session 50 (lit "hi") fresh_db)
  = conversation_of_view (views.chat_view (Authenticated 9 (lit "bob")) 5 50 fresh_db).
Proof.
  split; [lia|]. split; [reflexivity|]. split; [reflexivity|]. split; [reflexivity|].
  destruct (conversation_same_for_both_orders ann_session bob_session 5 9 50
              (lit "ann") (lit "bob") (lit "hi")
              {| username := lit "ann"; is_online := false |}
              {| username := lit "bob"; is_online := false |} fresh_db)
    as (H1 & H2 & _ & H3 & _); [lia|reflexivity..|].
  exact (eq_trans (H3 eq_refl) H2).
Defined.


(** User 9 asks to delete message 1, which user 5 sent: the store stays
    as it was and the notice goes out. *)
Lemma delete_by_non_sender_still_notifies_witness :
  ChatConsumer.room_group_name bob_session = Some "chat_5_9"%string ∧
  message_keys_ok sample_db ∧
  sender <$> messages sample_db !! 1 = Some 5 ∧ 5 ≠ 9 ∧
  let r := @ChatConsumer.receive strict_prep bob_session 300
             (Some (JObj (frame_of [("type", JStr (lit "delete_message"));
                                    ("message_id", JInt 1)]%string)))
             sample_db in
  store r = sample_db ∧ trace r = [GroupSend "chat_5_9" (deleted_ev (JInt 1))].
Proof.
  split; [reflexivity|]. split; [exact message_keys_ok_sample|].
  split; [reflexivity|]. split; [lia|].
  destruct (@delete_by_non_sender_still_notifies strict_prep bob_session "chat_5_9"
              9 300 1
              (frame_of [("type", JStr (lit "delete_message"));
                         ("message_id", JInt 1)]%string)
              {| conversation := 1; sender := 5; content := lit "hi";
                 timestamp := 110; is_read := false |}
              sample_db eq_refl eq_refl eq_refl eq_refl message_keys_ok_sample eq_refl)
    as (_ & Hstore & Htrace & _); [simpl; lia|].
  split; [exact Hstore|exact Htrace].
Defined.

(** User 5, in the room of 5 and 9, marks message 2 as read: it belongs
    to the conversation of 7 and 9 and is marked all the same. *)
Lemma mark_as_read_reaches_any_conversation_witness :
  ChatConsumer.room_group_name ann_session = Some "chat_5_9"%string ∧
  [2] ≠ @nil Z ∧ Forall in_int64 [2] ∧
  conversation <$> messages sample_db !! 2 = Some 2 ∧
  conversations sample_db !! 2 = Some {| user1 := 7; user2 := 9; created_at := 200 |} ∧
  let r := @ChatConsumer.receive strict_prep ann_session 300
             (Some (JObj (frame_of [("type", JStr (lit "mark_as_read"));
                                    ("message_ids", JArr [JInt 2])]%string)))
             sample_db in
  trace r = [GroupSend "chat_5_9" (message_read_ev (JArr [JInt 2]))] ∧
  ∃ m', messages (store r) !! 2 = Some m' ∧ is_read m' = true ∧ conversation m' = 2.
Proof.
  assert (Hfit : Forall in_int64 [2]) by (by repeat constructor).
  split; [reflexivity|]. split; [discriminate|]. split; [exact Hfit|].
  split; [reflexivity|]. split; [reflexivity|].
  destruct (@mark_as_read_reaches_any_conversation strict_prep ann_session "chat_5_9"
              5 300 [2]
              (frame_of [("type", JStr (lit "mark_as_read"));
                         ("message_ids", JArr [JInt 2])]%string)
              sample_db eq_refl eq_refl eq_refl eq_refl)
    as (_ & Htrace & _ & Hmarked & _); [discriminate|exact Hfit|].
  split; [exact Htrace|].
  refine (Hmarked 2 {| conversation := 2; sender := 7; content := lit "yo";
                       timestamp := 210; is_read := false |} eq_refl _ _).
  - apply list_elem_of_singleton. reflexivity.
  - simpl. lia.
Defined.

(** A [delete_message] frame without a [message_id] is dropped. *)
Lemma malformed_frame_no_effect_witness :
  let frame := Some (JObj (frame_of [("type", JStr (lit "delete_message"))]%string)) in
  malformed frame = true ∧
  let r := @ChatConsumer.receive strict_prep ann_session 300 frame sample_db in
  store r = sample_db ∧ trace r = [] ∧ outcome r = inr ().
Proof.
  split; [reflexivity|].
  exact (@malformed_frame_no_effect strict_prep ann_session 300
           (Some (JObj (frame_of [("type", JStr (lit "delete_message"))]%string)))
           sample_db eq_refl).
Defined.

(** User 5 opens the page of user 9 on the fresh store: the row created
    is (5, 9). *)
Lemma created_conversation_ordered_witness :
  let row := {| user1 := 5; user2 := 9; created_at := 50 |} in
  conversations
    (@store_after strict_prep (chat_page (Authenticated 5 (lit "ann")) 9 50) fresh_db)
    !! 1 = Some row ∧
  conversations fresh_db !! 1 ≠ Some row ∧
  user1 row < user2 row.
Proof.
  split; [reflexivity|]. split; [discriminate|].
  destruct (@created_conversation_ordered strict_prep
              (chat_page (Authenticated 5 (lit "ann")) 9 50) fresh_db 1
              {| user1 := 5; user2 := 9; created_at := 50 |} eq_refl)
    as (a & b & Hp & _ & _ & _ & Hlt); [discriminate|].
  injection Hp as <- <-. apply Hlt. lia.
Defined.

(** C5, as stated, fails: user 5 deletes message 1, which is theirs; one
    row goes, and the caller gets [None], not the count 1. *)
Lemma delete_message_returns_no_count :
  let r := @ChatConsumer.delete_message strict_prep (JInt 1) (Some 5) sample_db in
  (size (messages sample_db) - size (messages (store r)) = 1)%nat ∧
  outcome r = inr None ∧ outcome r ≠ inr (Some 1%nat).
Proof. vm_compute. repeat split; discriminate. Qed.

(** C7, as stated, fails: on a frame that [json.loads] rejects, [receive]
    does not return; the decoding error escapes the handler. *)
Lemma unparsable_frame_raises :
  malformed None = true ∧
  outcome (@ChatConsumer.receive strict_prep ann_session 300 None sample_db)
  = inl JSONDecodeError ∧
  outcome (@ChatConsumer.receive strict_prep ann_session 300 None sample_db) ≠ inr ().
Proof. repeat split; discriminate. Qed.

(** C8, as stated, fails: user 5 opens the chat page on their own id; the
    row created has [user1 = user2]. *)
Lemma self_conversation_not_strict :
  let d := @store_after strict_prep (chat_page (Authenticated 5 (lit "ann")) 5 50)
             fresh_db in
  conversations fresh_db !! 1 = None ∧
  ∃ row, conversations d !! 1 = Some row ∧ ¬ (user1 row < user2 row).
Proof.
  split; [reflexivity|].
  exists {| user1 := 5; user2 := 5; created_at := 50 |}.
  split; [reflexivity|]. simpl. lia.
Qed.

(** C9, as stated, fails: an anonymous [connect] skips the group join and
    leaves the session without a room; its [disconnect] then broadcasts
    nothing. *)
Lemma anonymous_disconnect_sends_nothing :
  outcome (ChatConsumer.connect Anonymous 9 "anon-1" sample_db) = inr anonymous_session ∧
  group_joins (trace (ChatConsumer.connect Anonymous 9 "anon-1" sample_db)) = [] ∧
  ¬ ∃ room ev, GroupSend room ev ∈ trace (ChatConsumer.disconnect anonymous_session sample_db).
Proof.
  split; [reflexivity|]. split; [reflexivity|].
  intros (room & ev & Hin). vm_compute in Hin.
  apply list_elem_of_singleton in Hin. discriminate.
Qed.

(** * Further properties *)

(** ** Every operation is a sequence of store steps *)

Lemma chat_status_steps (self : ChatConsumer.session) (status : bool) (d : db) :
  rtc store_step d (store (ChatConsumer.update_user_status self status d)).
Proof.
  rewrite chat_update_user_status_run.
  destruct (id_of _) as [uid|]; [|done].
  destruct (users d !! uid); [|done]. apply rtc_once. constructor.
Qed.

Lemma presence_status_steps (self : PresenceConsumer.session) (status : bool) (d : db) :
  rtc store_step d (store (PresenceConsumer.update_user_status self status d)).
Proof.
  rewrite presence_update_user_status_run.
  destruct (id_of _) as [uid|]; [|done].
  destruct (users d !! uid); [|done]. apply rtc_once. constructor.
Qed.

Lemma get_or_create_steps (now u1 u2 : Z) (d : db) :
  rtc store_step d (store (Conversation_get_or_create now u1 u2 d)).
Proof.
  unfold Conversation_get_or_create, bind, get_db, store.
  destruct (map_to_list (filter (same_pair u1 u2) (conversations d)))
    as [|kv [|kv' l]] eqn:Hl; simpl; [|done..].
  case_bool_decide as Hfk; simpl; [|done].
  apply rtc_once.
  apply (step_conversation {| user1 := u1; user2 := u2; created_at := now |}); simpl;
    [by apply map_to_list_empty_iff|tauto..].
Qed.

Lemma save_message_steps (self : ChatConsumer.session) (now : Z) (text : pystr) (d : db) :
  rtc store_step d (store (ChatConsumer.save_message self now text d)).
Proof.
  rewrite save_message_run. simpl.
  destruct (users d !! _); [|done].
  destruct (id_of _) as [uid|]; [|done].
  pose proof (get_or_create_steps now (Z.min uid (ChatConsumer.other_user_id self))
                (Z.max uid (ChatConsumer.other_user_id self)) d) as Hsteps.
  pose proof (get_or_create_run now (Z.min uid (ChatConsumer.other_user_id self))
                (Z.max uid (ChatConsumer.other_user_id self)) d) as Hrun.
  destruct (Conversation_get_or_create _ _ _ _) as [[[e|[[cpk crow] created]] d1] log];
    unfold store in *; simpl in *; [done|].
  destruct Hrun as (_ & _ & _ & Hc & _).
  destruct (encodable text); simpl; [|done].
  case_bool_decide; simpl; [|done].
  etrans; [exact Hsteps|]. apply rtc_once.
  apply (step_message {| conversation := cpk; sender := uid; content := text;
                         timestamp := now; is_read := false |}); simpl; by eauto.
Qed.

Lemma receive_steps `{FieldPrep} (self : ChatConsumer.session) (now : Z)
    (text_data : option json) (d : db) :
  rtc store_step d (store (ChatConsumer.receive self now text_data d)).
Proof.
  unfold ChatConsumer.receive.
  destruct text_data as [[| | | | |data]|]; try done.
  destruct (eq_str _ "message").
  { destruct (dict_get data "message" (JStr [])); try done.
    case_bool_decide; [done|].
    rewrite bind_store.
    - apply save_message_steps.
    - intros [[pk row]|] d'; [|reflexivity]. apply room_send_store. }
  destruct (eq_str _ "mark_as_read").
  { destruct (truthy _); [|done].
    rewrite bind_store by (intros; apply room_send_store).
    rewrite mark_messages_read_run. destruct (pk_in _); [done|].
    apply rtc_once. constructor. }
  destruct (eq_str _ "typing"); [by rewrite room_send_store|].
  destruct (eq_str _ "stop_typing"); [by rewrite room_send_store|].
  destruct (eq_str _ "delete_message"); [|done].
  destruct (truthy _); [|done].
  rewrite bind_store by (intros; apply room_send_store).
  rewrite delete_message_run. destruct (pk_exact _); [done|].
  apply rtc_once. constructor.
Qed.

Lemma store_after_steps `{FieldPrep} (o : operation) (d : db) :
  rtc store_step d (store_after o d).
Proof.
  destruct o as [u ch|s|u peer ch|s|s now td|u peer now]; simpl.
  - unfold PresenceConsumer.connect, bind, emit, ret.
    destruct u as [|uid name]; simpl; [done|].
    pose proof (presence_status_steps
                  {| PresenceConsumer.user := Authenticated uid name;
                     PresenceConsumer.presence_group := Some "presence"%string;
                     PresenceConsumer.channel_name := ch |} true d) as Hs.
    destruct (PresenceConsumer.update_user_status _ _ _) as [[[e|[]] d1] t1]; exact Hs.
  - unfold PresenceConsumer.disconnect, bind, emit, ret.
    destruct (PresenceConsumer.presence_group s); [|done].
    pose proof (presence_status_steps s false d) as Hs.
    destruct (PresenceConsumer.update_user_status _ _ _) as [[[e|[]] d1] t1]; exact Hs.
  - unfold ChatConsumer.connect, bind, emit, ret.
    destruct u as [|uid name]; simpl; [done|].
    pose proof (chat_status_steps
                  {| ChatConsumer.user := Authenticated uid name;
                     ChatConsumer.other_user_id := peer;
                     ChatConsumer.room_group_name :=
                       Some (ChatConsumer.room_name uid peer);
                     ChatConsumer.channel_name := ch |} true d) as Hs.
    destruct (ChatConsumer.update_user_status _ _ _) as [[[e|[]] d1] t1]; exact Hs.
  - unfold ChatConsumer.disconnect, bind, emit, ret.
    pose proof (chat_status_steps s false d) as Hs.
    destruct (ChatConsumer.room_group_name s);
      destruct (ChatConsumer.update_user_status _ _ _) as [[[e|[]] d1] t1]; exact Hs.
  - apply receive_steps.
  - destruct u as [|uid name]; [done|].
    unfold views.chat_view, try_except, User_get, bind, get_db. simpl.
    destruct (users d !! peer) as [v|]; [|done]. simpl.
    pose proof (get_or_create_steps now (min2 uid peer) (max2 uid peer) d) as Hs.
    destruct (Conversation_get_or_create _ _ _ _) as [[[e|[[cpk crow] created]] d1] log];
      exact Hs.
Qed.

Lemma steps_invariant (P : db → Prop) :
  (∀ d d', store_step d d' → P d → P d') →
  ∀ d d', rtc store_step d d' → P d → P d'.
Proof. intros Hstep d d' Hrtc. induction Hrtc; eauto. Qed.

(** ** Invariants of the store *)

Lemma unique_together_step (d d' : db) :
  store_step d d' → unique_together d → unique_together d'.
Proof.
  intros Hstep Hu. destruct Hstep as [uid st d|row d Hnone _ _|row d _ _ _|ids r d|pk o d];
    try exact Hu.
  intros k1 k2 c1 c2 H1 H2 Ha Hb. simpl in H1, H2.
  assert (Hno : ∀ k c, conversations d !! k = Some c →
            ¬ (user1 c = user1 row ∧ user2 c = user2 row)).
  { intros k c Hk Hpair.
    assert (filter (same_pair (user1 row) (user2 row)) (conversations d) !! k = Some c)
      as Hin by (by apply map_lookup_filter_Some).
    by rewrite Hnone, lookup_empty in Hin. }
  destruct (decide (k1 = conversation_seq d)) as [->|Hn1];
    destruct (decide (k2 = conversation_seq d)) as [->|Hn2]; [done| | |].
  - rewrite lookup_insert_eq in H1. rewrite lookup_insert_ne in H2 by done.
    injection H1 as <-. exfalso. by apply (Hno k2 c2 H2).
  - rewrite lookup_insert_eq in H2. rewrite lookup_insert_ne in H1 by done.
    injection H2 as <-. exfalso. by apply (Hno k1 c1 H1).
  - rewrite lookup_insert_ne in H1, H2 by done. by apply (Hu k1 k2 c1 c2).
Qed.

Lemma references_ok_step (d d' : db) :
  store_step d d' → references_ok d → references_ok d'.
Proof.
  intros Hstep [Hc Hm].
  destruct Hstep as [uid st d|row d _ Hr1 Hr2|row d Hrc Hrs _|ids r d|pk o d].
  - split; intros k x Hk; simpl.
    + destruct (Hc k x Hk) as [H1 H2].
      split; apply lookup_alter_is_Some; done.
    + destruct (Hm k x Hk) as [H1 H2].
      split; [done|]. by apply lookup_alter_is_Some.
  - split; intros k x Hk; simpl in *.
    + apply lookup_insert_Some in Hk as [[_ <-]|[_ Hk]]; [done|]. by apply (Hc k).
    + destruct (Hm k x Hk) as [H1 H2]. split; [|done].
      apply lookup_insert_is_Some'. by right.
  - split; intros k x Hk; simpl in *.
    + by apply (Hc k).
    + apply lookup_insert_Some in Hk as [[_ <-]|[_ Hk]]; [done|]. by apply (Hm k).
  - split; intros k x Hk.
    + by apply (Hc k).
    + rewrite update_read_lookup in Hk.
      destruct (messages d !! k) as [m|] eqn:Hmk; [|done]. simpl in Hk.
      injection Hk as <-. destruct (Hm k m Hmk). by case_bool_decide.
  - split; intros k x Hk; simpl in *.
    + by apply (Hc k).
    + apply map_lookup_filter_Some in Hk as [Hk _]. by apply (Hm k).
Qed.

(** A step keeps every key below its sequence, and no sequence goes back. *)
Lemma keys_from_sequences_step (d d' : db) :
  store_step d d' → keys_from_sequences d →
  keys_from_sequences d' ∧
  conversation_seq d ≤ conversation_seq d' ∧ message_seq d ≤ message_seq d'.
Proof.
  intros Hstep (Hcs & Hms & Hc & Hm).
  destruct Hstep as [uid st d|row d _ _ _|row d _ _ _|ids r d|pk o d];
    (split; [|simpl; lia]); unfold keys_from_sequences.
  - done.
  - simpl. split; [lia|]. split; [done|]. split; [|done].
    intros k x Hk. simpl.
    apply lookup_insert_Some in Hk as [[<- _]|[Hne Hk]]; [lia|].
    specialize (Hc k x Hk). simpl in Hc. lia.
  - simpl. split; [done|]. split; [lia|]. split; [done|].
    intros k x Hk. simpl.
    apply lookup_insert_Some in Hk as [[<- _]|[Hne Hk]]; [lia|].
    specialize (Hm k x Hk). simpl in Hm. lia.
  - split; [done|]. split; [done|]. split; [done|].
    intros k x Hk. rewrite update_read_lookup in Hk.
    destruct (messages d !! k) as [m|] eqn:Hmk; [|done]. by apply (Hm k m).
  - simpl. split; [done|]. split; [done|]. split; [done|].
    intros k x Hk. apply map_lookup_filter_Some in Hk as [Hk _]. by apply (Hm k x).
Qed.

(** Over a sequence of steps from a store with keys from the sequences, a
    conversation row stays as it is and a message that is still there
    keeps its fields, except that it may have become read. *)
Lemma rows_kept_steps (d d' : db) :
  rtc store_step d d' → keys_from_sequences d →
  keys_from_sequences d' ∧
  conversation_seq d ≤ conversation_seq d' ∧ message_seq d ≤ message_seq d' ∧
  (∀ pk c, conversations d !! pk = Some c → conversations d' !! pk = Some c) ∧
  (∀ pk m m', messages d !! pk = Some m → messages d' !! pk = Some m' →
     conversation m' = conversation m ∧ sender m' = sender m ∧
     content m' = content m ∧ timestamp m' = timestamp m ∧
     (is_read m = true → is_read m' = true)).
Proof.
  intros Hrtc Hkeys. revert d' Hrtc. apply rtc_ind_r.
  { split; [exact Hkeys|]. split; [lia|]. split; [lia|]. split; [done|].
    intros pk m m' H1 H2. rewrite H1 in H2. injection H2 as <-. done. }
  intros d1 d2 Hrtc Hstep IH.
  destruct IH as ((Hcs1 & Hms1 & Hc1 & Hm1) & Hcseq & Hmseq & Hconv & Hmsg).
  destruct (keys_from_sequences_step d1 d2 Hstep) as (Hk2 & Hc12 & Hm12); [done|].
  split; [done|]. split; [lia|]. split; [lia|].
  destruct Hkeys as (_ & _ & Hc0 & Hm0).
  destruct Hstep as [uid st d1|row d1 _ _ _|row d1 _ _ _|ids r d1|pk0 o d1].
  - split; [exact Hconv|exact Hmsg].
  - split; [|exact Hmsg]. intros pk c Hpk. simpl.
    rewrite lookup_insert_ne; [by apply Hconv|].
    specialize (Hc0 pk c Hpk). simpl in Hc0. lia.
  - split; [exact Hconv|]. intros pk m m' Hpk Hpk'. simpl in Hpk'.
    rewrite lookup_insert_ne in Hpk'; [by apply (Hmsg pk)|].
    specialize (Hm0 pk m Hpk). simpl in Hm0. lia.
  - split; [exact Hconv|]. intros pk m m' Hpk Hpk'.
    rewrite update_read_lookup in Hpk'.
    destruct (messages d1 !! pk) as [m1|] eqn:Hm1k; [|done]. simpl in Hpk'.
    destruct (Hmsg pk m m1 Hpk Hm1k) as (? & ? & ? & ? & Hrd).
    injection Hpk' as <-. case_bool_decide; simpl; repeat split; try done.
  - split; [exact Hconv|]. intros pk m m' Hpk Hpk'. simpl in Hpk'.
    apply map_lookup_filter_Some in Hpk' as [Hpk' _]. by apply (Hmsg pk).
Qed.

Lemma users_kept_steps (d d' : db) :
  rtc store_step d d' →
  ∀ uid, username <$> users d' !! uid = username <$> users d !! uid.
Proof.
  intros Hrtc uid. induction Hrtc as [d|d d1 d2 Hstep Hrtc IH]; [done|].
  rewrite IH. clear IH Hrtc.
  destruct Hstep as [u st d|row d _ _ _|row d _ _ _|ids r d|pk0 o d]; try done.
  simpl. destruct (decide (u = uid)) as [->|Hne].
  - rewrite lookup_alter_eq. by destruct (users d !! uid).
  - by rewrite lookup_alter_ne.
Qed.

Lemma keys_from_sequences_fresh : keys_from_sequences fresh_db.
Proof. repeat split; try done; apply map_Forall_empty. Qed.

Lemma keys_from_sequences_sample : keys_from_sequences sample_db.
Proof.
  unfold keys_from_sequences, sample_db; simpl.
  split; [done|]. split; [done|].
  split; repeat (apply map_Forall_insert_2; [simpl; lia|]); apply map_Forall_empty.
Qed.

Lemma unique_together_fresh : unique_together fresh_db.
Proof. intros k1 k2 c1 c2 H1. simpl in H1. by rewrite lookup_empty in H1. Qed.

Lemma references_ok_fresh : references_ok fresh_db.
Proof. split; apply map_Forall_empty. Qed.

Lemma references_ok_sample : references_ok sample_db.
Proof.
  unfold references_ok, sample_db; simpl.
  split; repeat (apply map_Forall_insert_2; [simpl; split; by eexists|]);
    apply map_Forall_empty.
Qed.

Lemma pairs_sorted_sample : pairs_sorted sample_db.
Proof.
  unfold pairs_sorted, sample_db; simpl.
  repeat (apply map_Forall_insert_2; [simpl; lia|]). apply map_Forall_empty.
Qed.

Lemma unique_together_sample : unique_together sample_db.
Proof.
  intros k1 k2 c1 c2 H1 H2. unfold sample_db in H1, H2; simpl in H1, H2.
  apply lookup_insert_Some in H1 as [[<- <-]|[? H1]];
    [|apply lookup_insert_Some in H1 as [[<- <-]|[? H1]];
      [|by rewrite lookup_empty in H1]];
    (apply lookup_insert_Some in H2 as [[<- <-]|[? H2]];
     [|apply lookup_insert_Some in H2 as [[<- <-]|[? H2]];
       [|by rewrite lookup_empty in H2]]); simpl; intros; try done; lia.
Qed.

(** X1.  No operation breaks the uniqueness of the user pair of a
    conversation: from a store with at most one row per (user1, user2),
    every connect, disconnect, inbound frame and chat page leaves a store
    with at most one row per pair. *)
Theorem unique_pairs_kept `{FieldPrep} (o : operation) (d : db) :
  unique_together d → unique_together (store_after o d).
Proof.
  intros Hu. revert Hu. apply steps_invariant; [|apply store_after_steps].
  apply unique_together_step.
Qed.

(** The sample store has the conversation of 7 and 9: user 9 sends user 7
    a message, and the pairs are still unique. *)
Lemma unique_pairs_kept_witness :
  let send := chat_receive
                {| ChatConsumer.user := Authenticated 9 (lit "bob");
                   ChatConsumer.other_user_id := 7;
                   ChatConsumer.room_group_name := Some "chat_7_9"%string;
                   ChatConsumer.channel_name := "bob-2" |}
                300 (Some (JObj (frame_of [("message", JStr (lit "hey"))]%string))) in
  unique_together sample_db ∧
  conversations sample_db !! 2 = Some {| user1 := 7; user2 := 9; created_at := 200 |} ∧
  conversation <$> messages (@store_after strict_prep send sample_db) !! 3 = Some 2 ∧
  unique_together (@store_after strict_prep send sample_db).
Proof.
  intros send. split; [exact unique_together_sample|].
  split; [reflexivity|]. split; [reflexivity|].
  exact (@unique_pairs_kept strict_prep send sample_db unique_together_sample).
Defined.

(** X2.  No operation leaves a dangling reference: if every conversation
    names two existing users and every message an existing conversation
    and an existing sender, the same holds after any connect, disconnect,
    inbound frame or chat page. *)
Theorem references_kept `{FieldPrep} (o : operation) (d : db) :
  references_ok d → references_ok (store_after o d).
Proof.
  intros Hr. revert Hr. apply steps_invariant; [|apply store_after_steps].
  apply references_ok_step.
Qed.

Lemma references_kept_witness :
  references_ok fresh_db ∧
  references_ok
    (@store_after strict_prep
       (chat_receive ann_session 50
          (Some (JObj (frame_of [("message", JStr (lit "hi"))]%string))))
       fresh_db).
Proof.
  split; [exact references_ok_fresh|].
  exact (@references_kept strict_prep
           (chat_receive ann_session 50
              (Some (JObj (frame_of [("message", JStr (lit "hi"))]%string))))
           fresh_db references_ok_fresh).
Defined.

(** X3.  Keys are never reused: from a store whose keys all lie below
    their table's sequence, any operation leaves such a store, and neither
    sequence goes back. *)
Theorem keys_never_reused `{FieldPrep} (o : operation) (d : db) :
  keys_from_sequences d →
  keys_from_sequences (store_after o d) ∧
  conversation_seq d ≤ conversation_seq (store_after o d) ∧
  message_seq d ≤ message_seq (store_after o d).
Proof.
  intros Hk.
  destruct (rows_kept_steps d (store_after o d) (store_after_steps o d) Hk)
    as (? & ? & ? & _). done.
Qed.

Lemma keys_never_reused_witness :
  keys_from_sequences sample_db ∧
  message_seq sample_db ≤
  message_seq
    (@store_after strict_prep
       (chat_receive ann_session 50
          (Some (JObj (frame_of [("message", JStr (lit "hi"))]%string))))
       sample_db).
Proof.
  split; [exact keys_from_sequences_sample|].
  exact (proj2 (proj2 (@keys_never_reused strict_prep
           (chat_receive ann_session 50
              (Some (JObj (frame_of [("message", JStr (lit "hi"))]%string))))
           sample_db keys_from_sequences_sample))).
Defined.

(** X4.  Rows are not rewritten: in a store with keys from the sequences,
    any operation leaves every conversation row as it was, and a message
    that is still in the store afterwards has the conversation, sender,
    content and timestamp it had; if it was read it is still read. *)
Theorem rows_not_rewritten `{FieldPrep} (o : operation) (d : db) :
  keys_from_sequences d →
  (∀ pk c, conversations d !! pk = Some c →
     conversations (store_after o d) !! pk = Some c) ∧
  (∀ pk m m', messages d !! pk = Some m →
     messages (store_after o d) !! pk = Some m' →
     conversation m' = conversation m ∧ sender m' = sender m ∧
     content m' = content m ∧ timestamp m' = timestamp m ∧
     (is_read m = true → is_read m' = true)).
Proof.
  intros Hk.
  destruct (rows_kept_steps d (store_after o d) (store_after_steps o d) Hk)
    as (_ & _ & _ & ? & ?). done.
Qed.

Lemma rows_not_rewritten_witness :
  keys_from_sequences sample_db ∧
  conversations
    (@store_after strict_prep
       (chat_receive ann_session 50
          (Some (JObj (frame_of [("message", JStr (lit "hi"))]%string))))
       sample_db) !! 2
  = Some {| user1 := 7; user2 := 9; created_at := 200 |}.
Proof.
  split; [exact keys_from_sequences_sample|].
  exact (proj1 (@rows_not_rewritten strict_prep
           (chat_receive ann_session 50
              (Some (JObj (frame_of [("message", JStr (lit "hi"))]%string))))
           sample_db keys_from_sequences_sample) 2 _ eq_refl).
Defined.

(** X5.  No operation creates, removes or renames a user: after any
    connect, disconnect, inbound frame or chat page, each id has a row
    exactly when it had one, with the username it had. *)
Theorem users_never_created_or_renamed `{FieldPrep} (o : operation) (d : db) (uid : Z) :
  username <$> users (store_after o d) !! uid = username <$> users d !! uid.
Proof. apply users_kept_steps, store_after_steps. Qed.

(** ** Room names *)

Lemma pretty_N_char_no_underscore (x : N) : pretty_N_char x ≠ "_"%char.
Proof. unfold pretty_N_char. by repeat case_match. Qed.

Lemma pretty_N_go_no_underscore (x : N) (s : string) :
  no_underscore s → no_underscore (pretty_N_go x s).
Proof.
  revert s. induction (N.lt_wf_0 x) as [x _ IH]; intros s Hs.
  destruct (decide (x = 0)%N) as [->|Hx]; [by rewrite pretty_N_go_0|].
  rewrite pretty_N_go_step by lia. apply IH.
  - apply N.div_lt; lia.
  - split; [apply pretty_N_char_no_underscore|done].
Qed.

Lemma pretty_Z_no_underscore (z : Z) : no_underscore (pretty z).
Proof.
  assert (HN : ∀ n : N, no_underscore (pretty n)).
  { intros n. unfold pretty, pretty_N. case_decide; [done|].
    by apply pretty_N_go_no_underscore. }
  destruct z as [|p|p]; [done|apply HN|]. split; [done|apply HN].
Qed.

(** Two strings cut at their first underscore agree part by part. *)
Lemma split_at_underscore (a c b e : string) :
  no_underscore a → no_underscore c →
  a +:+ String "_" b = c +:+ String "_" e → a = c ∧ b = e.
Proof.
  revert c. induction a as [|x a IH]; intros [|y c] Ha Hc Heq.
  - by injection Heq as ->.
  - injection Heq as <- _. by destruct Hc.
  - injection Heq as -> _. by destruct Ha.
  - injection Heq as -> Heq. destruct Ha as [_ Ha], Hc as [_ Hc].
    destruct (IH c Ha Hc Heq) as [-> ->]. done.
Qed.

Lemma room_name_unfold (a b : Z) :
  ChatConsumer.room_name a b =
  String "c" (String "h" (String "a" (String "t" (String "_"
    (pretty (sorted2 a b).1 +:+ String "_" (pretty (sorted2 a b).2)))))).
Proof. reflexivity. Qed.

Lemma room_name_inj (a b c e : Z) :
  ChatConsumer.room_name a b = ChatConsumer.room_name c e → sorted2 a b = sorted2 c e.
Proof.
  rewrite !room_name_unfold. intros [= Heq].
  apply split_at_underscore in Heq as [H1 H2]; try apply pretty_Z_no_underscore.
  apply (inj pretty) in H1. apply (inj pretty) in H2.
  destruct (sorted2 a b), (sorted2 c e). simpl in *. by subst.
Qed.

Lemma connect_room (A B : Z) (name : pystr) (ch : string) (d : db)
    (s : ChatConsumer.session) :
  outcome (ChatConsumer.connect (Authenticated A name) B ch d) = inr s →
  ChatConsumer.room_group_name s = Some (ChatConsumer.room_name A B).
Proof.
  unfold ChatConsumer.connect, bind, emit, ret.
  rewrite chat_update_user_status_run.
  destruct (id_of _) as [uid|]; [destruct (users d !! uid)|];
    intros [= <-]; reflexivity.
Qed.

Lemma sorted2_eq_iff (a b c e : Z) :
  sorted2 a b = sorted2 c e ↔ (a = c ∧ b = e) ∨ (a = e ∧ b = c).
Proof.
  rewrite !sorted2_min_max. split.
  - intros [= Hmin Hmax]. lia.
  - intros [[-> ->]|[-> ->]]; [done|]. f_equal; lia.
Qed.

(** X6.  Two authenticated chat sessions are put in the same room exactly
    when they are between the same two users: the room that [connect]
    names for user A with peer B is the room it names for user C with peer
    D if and only if (A, B) is (C, D) or (D, C). *)
Theorem same_room_iff_same_pair (A B C D : Z) (nameA nameC : pystr)
    (chA chC : string) (d d' : db) (sA sC : ChatConsumer.session) :
  outcome (ChatConsumer.connect (Authenticated A nameA) B chA d) = inr sA →
  outcome (ChatConsumer.connect (Authenticated C nameC) D chC d') = inr sC →
  is_Some (ChatConsumer.room_group_name sA) ∧
  (ChatConsumer.room_group_name sA = ChatConsumer.room_group_name sC ↔
   (A = C ∧ B = D) ∨ (A = D ∧ B = C)).
Proof.
  intros HA HC. apply connect_room in HA, HC. rewrite HA, HC.
  split; [by eexists|]. rewrite <- sorted2_eq_iff. split.
  - intros Heq. apply room_name_inj. congruence.
  - intros Heq. by rewrite !room_name_unfold, Heq.
Qed.

Lemma same_room_iff_same_pair_witness :
  outcome (ChatConsumer.connect (Authenticated 5 (lit "ann")) 9 "ann-1" fresh_db)
    = inr ann_session ∧
  outcome (ChatConsumer.connect (Authenticated 9 (lit "bob")) 5 "bob-1" fresh_db)
    = inr bob_session ∧
  ChatConsumer.room_group_name ann_session = ChatConsumer.room_group_name bob_session.
Proof.
  split; [reflexivity|]. split; [reflexivity|].
  exact (proj2 (proj2 (same_room_iff_same_pair 5 9 9 5 (lit "ann") (lit "bob")
                         "ann-1" "bob-1" fresh_db fresh_db ann_session bob_session
                         eq_refl eq_refl))
           (or_intror (conj eq_refl eq_refl))).
Defined.

(** ** Session lifecycles *)

Lemma set_online_twice (b b' : bool) (uid : Z) (u : User) (us : gmap Z User) :
  us !! uid = Some u →
  alter (set_online b') uid (alter (set_online b) uid us) = <[uid := set_online b' u]> us.
Proof.
  intros Hu. apply map_eq; intros k. destruct (decide (k = uid)) as [->|Hne].
  - by rewrite !lookup_alter_eq, Hu, lookup_insert_eq.
  - by rewrite !lookup_alter_ne, lookup_insert_ne.
Qed.

Lemma chat_lifecycle_users (uid peer : Z) (name : pystr) (channel : string)
    (u : User) (d : db) :
  users d !! uid = Some u →
  users (store (bind (ChatConsumer.connect (Authenticated uid name) peer channel)
                  ChatConsumer.disconnect d))
  = <[uid := set_online false u]> (users d).
Proof.
  intros Hu.
  unfold ChatConsumer.connect, ChatConsumer.disconnect, bind, emit, ret.
  simpl. rewrite !chat_update_user_status_run. simpl. rewrite Hu. simpl.
  rewrite chat_update_user_status_run. simpl.
  rewrite lookup_alter_eq, Hu. simpl. by apply set_online_twice.
Qed.

(** X7.  The whole life of an authenticated chat session whose user has a
    row: [connect] joins the room of the pair, announces the user online
    and accepts; [disconnect] leaves the room and then announces the user
    offline to it.  The user is online in between and offline at the end,
    and nothing else in the store changes. *)
Theorem chat_session_lifecycle (uid peer : Z) (name : pystr) (channel : string)
    (u : User) (d : db) :
  users d !! uid = Some u →
  let room := ChatConsumer.room_name uid peer in
  let opened := ChatConsumer.connect (Authenticated uid name) peer channel d in
  let closed :=
    bind (ChatConsumer.connect (Authenticated uid name) peer channel)
      ChatConsumer.disconnect d in
  outcome closed = inr () ∧
  trace closed =
    [GroupAdd room channel; GroupSend room (user_status_ev (Some uid) true); Accept;
     GroupDiscard room channel; GroupSend room (user_status_ev (Some uid) false)] ∧
  users (store opened) = <[uid := set_online true u]> (users d) ∧
  users (store closed) = <[uid := set_online false u]> (users d) ∧
  conversations (store closed) = conversations d ∧
  messages (store closed) = messages d.
Proof.
  intros Hu room opened closed.
  unfold closed, opened, ChatConsumer.connect, ChatConsumer.disconnect, bind, emit, ret.
  simpl. rewrite !chat_update_user_status_run. simpl. rewrite Hu. simpl.
  rewrite chat_update_user_status_run. simpl.
  rewrite lookup_alter_eq, Hu. simpl.
  repeat split; try reflexivity.
  - apply map_eq; intros k. destruct (decide (k = uid)) as [->|Hne].
    + by rewrite lookup_alter_eq, Hu, lookup_insert_eq.
    + by rewrite lookup_alter_ne, lookup_insert_ne.
  - by apply set_online_twice.
Qed.

Lemma chat_session_lifecycle_witness :
  users fresh_db !! 5 = Some {| username := lit "ann"; is_online := false |} ∧
  is_online <$>
    users (store (bind (ChatConsumer.connect (Authenticated 5 (lit "ann")) 9 "ann-1")
                    ChatConsumer.disconnect fresh_db)) !! 5 = Some false.
Proof.
  split; [reflexivity|].
  destruct (chat_session_lifecycle 5 9 (lit "ann") "ann-1"
              {| username := lit "ann"; is_online := false |} fresh_db eq_refl)
    as (_ & _ & _ & Hus & _).
  rewrite Hus. by rewrite lookup_insert_eq.
Defined.

(** X8.  The whole life of an authenticated presence session whose user
    has a row: [connect] joins the presence group, announces the user
    online and accepts; [disconnect] announces the user offline while
    still in the group, and leaves it last.  The user is offline at the
    end and nothing else in the store changes. *)
Theorem presence_session_lifecycle (uid : Z) (name : pystr) (channel : string)
    (u : User) (d : db) :
  users d !! uid = Some u →
  let closed :=
    bind (PresenceConsumer.connect (Authenticated uid name) channel)
      PresenceConsumer.disconnect d in
  outcome closed = inr () ∧
  trace closed =
    [GroupAdd "presence" channel;
     GroupSend "presence" (user_presence_ev (Some uid) name true); Accept;
     GroupSend "presence" (user_presence_ev (Some uid) name false);
     GroupDiscard "presence" channel] ∧
  users (store closed) = <[uid := set_online false u]> (users d) ∧
  conversations (store closed) = conversations d ∧
  messages (store closed) = messages d.
Proof.
  intros Hu closed.
  unfold closed, PresenceConsumer.connect, PresenceConsumer.disconnect, bind, emit, ret.
  simpl. rewrite !presence_update_user_status_run. simpl. rewrite Hu. simpl.
  rewrite presence_update_user_status_run. simpl.
  rewrite lookup_alter_eq, Hu. simpl.
  repeat split; try reflexivity. by apply set_online_twice.
Qed.

Lemma presence_session_lifecycle_witness :
  users fresh_db !! 5 = Some {| username := lit "ann"; is_online := false |} ∧
  is_online <$>
    users (store (bind (PresenceConsumer.connect (Authenticated 5 (lit "ann")) "ann-0")
                    PresenceConsumer.disconnect fresh_db)) !! 5 = Some false.
Proof.
  split; [reflexivity|].
  destruct (presence_session_lifecycle 5 (lit "ann") "ann-0"
              {| username := lit "ann"; is_online := false |} fresh_db eq_refl)
    as (_ & _ & Hus & _).
  rewrite Hus. by rewrite lookup_insert_eq.
Defined.

(** X9.  The online flag is written by whichever session acted last: a
    user whose presence session is connected, and stays so, is marked
    offline as soon as a chat session of theirs disconnects. *)
Theorem chat_disconnect_overrides_presence (uid peer : Z) (name : pystr)
    (presence_channel chat_channel : string) (u : User) (d : db) :
  users d !! uid = Some u →
  let d1 := store (PresenceConsumer.connect (Authenticated uid name)
                     presence_channel d) in
  let d2 := store (bind (ChatConsumer.connect (Authenticated uid name) peer chat_channel)
                     ChatConsumer.disconnect d1) in
  is_online <$> users d1 !! uid = Some true ∧
  is_online <$> users d2 !! uid = Some false.
Proof.
  intros Hu d1 d2.
  assert (Hd1 : users d1 = alter (set_online true) uid (users d)).
  { unfold d1, PresenceConsumer.connect, bind, emit, ret. simpl.
    rewrite presence_update_user_status_run. simpl. by rewrite Hu. }
  assert (Hu1 : users d1 !! uid = Some (set_online true u))
    by (by rewrite Hd1, lookup_alter_eq, Hu).
  split; [by rewrite Hu1|].
  unfold d2.
  by rewrite (chat_lifecycle_users uid peer name chat_channel (set_online true u) d1 Hu1),
    lookup_insert_eq.
Qed.

Lemma chat_disconnect_overrides_presence_witness :
  users fresh_db !! 5 = Some {| username := lit "ann"; is_online := false |} ∧
  let d1 := store (PresenceConsumer.connect (Authenticated 5 (lit "ann")) "ann-0"
                     fresh_db) in
  is_online <$>
    users (store (bind (ChatConsumer.connect (Authenticated 5 (lit "ann")) 9 "ann-1")
                    ChatConsumer.disconnect d1)) !! 5 = Some false.
Proof.
  split; [reflexivity|].
  exact (proj2 (chat_disconnect_overrides_presence 5 9 (lit "ann") "ann-0" "ann-1"
                  {| username := lit "ann"; is_online := false |} fresh_db eq_refl)).
Defined.

(** ** From an inbound frame to the frames sent to the clients *)

(** X10.  Typing indicators are not echoed to their author.  In a session
    that has its room, a [typing] or [stop_typing] frame writes nothing
    and puts one event on the room; the author's own session sends
    nothing to its client for that event, while the session of any other
    user sends one frame, of the same type, that carries the author's id. *)
Theorem typing_not_echoed_to_author `{FieldPrep} (self other : ChatConsumer.session)
    (room : string) (now : Z) (data : gmap pystr json) (d d' : db) :
  ChatConsumer.room_group_name self = Some room →
  eq_str (ChatConsumer.msg_type_of data) "typing" = true
  ∨ eq_str (ChatConsumer.msg_type_of data) "stop_typing" = true →
  let r := ChatConsumer.receive self now (Some (JObj data)) d in
  ∃ ev, outcome r = inr () ∧ store r = d ∧ trace r = [GroupSend room ev] ∧
    ChatConsumer.dispatch self ev d' = (inr (), d', []) ∧
    (id_of (ChatConsumer.user other) ≠ id_of (ChatConsumer.user self) →
     ∃ frame, ChatConsumer.dispatch other ev d' = (inr (), d', [Send frame]) ∧
       frame !! lit "type" = Some (ChatConsumer.msg_type_of data) ∧
       frame !! lit "user_id" = Some (json_of_id (id_of (ChatConsumer.user self)))).
Proof.
  intros Hroom [Hty|Hty] r; apply eq_str_true in Hty as Hmt.
  - exists (typing_ev (id_of (ChatConsumer.user self))).
    unfold r. rewrite (receive_other_run self room); [|done|by rewrite Hmt].
    simpl. rewrite Hmt.
    change (eq_str (JStr (lit "typing")) "mark_as_read") with false.
    change (eq_str (JStr (lit "typing")) "typing") with true. simpl.
    split; [done|]. split; [done|]. split; [done|].
    rewrite bool_decide_eq_false_2 by (intros Hn; by apply Hn).
    split; [done|]. intros Hother.
    rewrite bool_decide_eq_true_2 by (intros Hn; by apply Hother).
    eexists. split; [reflexivity|]. split; reflexivity.
  - exists (stop_typing_ev (id_of (ChatConsumer.user self))).
    unfold r. rewrite (receive_other_run self room); [|done|by rewrite Hmt].
    simpl. rewrite Hmt.
    change (eq_str (JStr (lit "stop_typing")) "mark_as_read") with false.
    change (eq_str (JStr (lit "stop_typing")) "typing") with false.
    change (eq_str (JStr (lit "stop_typing")) "stop_typing") with true. simpl.
    split; [done|]. split; [done|]. split; [done|].
    rewrite bool_decide_eq_false_2 by (intros Hn; by apply Hn).
    split; [done|]. intros Hother.
    rewrite bool_decide_eq_true_2 by (intros Hn; by apply Hother).
    eexists. split; [reflexivity|]. split; reflexivity.
Qed.

Lemma typing_not_echoed_to_author_witness :
  ChatConsumer.room_group_name ann_session = Some "chat_5_9"%string ∧
  eq_str (ChatConsumer.msg_type_of (frame_of [("type", JStr (lit "typing"))]%string))
    "typing" = true ∧
  ∃ ev,
    trace (@ChatConsumer.receive strict_prep ann_session 300
             (Some (JObj (frame_of [("type", JStr (lit "typing"))]%string))) sample_db)
    = [GroupSend "chat_5_9" ev] ∧
    ChatConsumer.dispatch ann_session ev sample_db = (inr (), sample_db, []).
Proof.
  split; [reflexivity|]. split; [reflexivity|].
  destruct (@typing_not_echoed_to_author strict_prep ann_session bob_session "chat_5_9"
              300 (frame_of [("type", JStr (lit "typing"))]%string) sample_db sample_db
              eq_refl (or_introl eq_refl))
    as (ev & _ & _ & Htrace & Hself & _).
  exists ev. split; [exact Htrace|exact Hself].
Defined.

(** X11.  A chat message reaches every client of the room, its author's
    included.  When a frame of type ["message"] has been saved, the event
    put on the room makes any chat session send one frame of type
    ["message"] to its client, with the key of the new row, the trimmed
    text, the author's id and name and the time of saving as HH:MM. *)
Theorem message_reaches_every_client `{FieldPrep} (self any : ChatConsumer.session)
    (room : string) (now pk : Z) (data : gmap pystr json) (text : pystr)
    (row : Message) (d d' : db) :
  ChatConsumer.room_group_name self = Some room →
  eq_str (ChatConsumer.msg_type_of data) "message" = true →
  dict_get data "message" (JStr []) = JStr text →
  strip text ≠ [] →
  outcome (ChatConsumer.save_message self now (strip text) d) = inr (Some (pk, row)) →
  ∃ ev frame,
    trace (ChatConsumer.receive self now (Some (JObj data)) d) = [GroupSend room ev] ∧
    ChatConsumer.dispatch any ev d' = (inr (), d', [Send frame]) ∧
    frame !! lit "type" = Some (JStr (lit "message")) ∧
    frame !! lit "message_id" = Some (JInt pk) ∧
    frame !! lit "message" = Some (JStr (strip text)) ∧
    frame !! lit "sender_id" = Some (json_of_id (id_of (ChatConsumer.user self))) ∧
    frame !! lit "sender_name" = Some (JStr (username_of (ChatConsumer.user self))) ∧
    frame !! lit "timestamp" = Some (JStr (strftime_HM now)).
Proof.
  intros Hroom Hty Hget Hne Hsave.
  destruct (save_message_some self now (strip text) d pk row Hsave)
    as (Hlog & _ & Hc & Hts & _).
  rewrite (receive_message_run self room) by done. rewrite Hget.
  rewrite bool_decide_eq_false_2 by done.
  destruct (ChatConsumer.save_message self now (strip text) d)
    as [[[e|[[pk' row']|]] d1] log]; unfold outcome, trace in *; simpl in *;
    try discriminate.
  injection Hsave as -> ->. subst log. rewrite Hc, Hts.
  eexists _, _. split; [reflexivity|]. split; [reflexivity|].
  repeat split; reflexivity.
Qed.

Lemma message_reaches_every_client_witness :
  ChatConsumer.room_group_name ann_session = Some "chat_5_9"%string ∧
  strip (lit "  hi ") ≠ [] ∧
  ∃ ev frame,
    trace (@ChatConsumer.receive strict_prep ann_session 3725
             (Some (JObj (frame_of [("message", JStr (lit "  hi "))]%string))) fresh_db)
    = [GroupSend "chat_5_9" ev] ∧
    ChatConsumer.dispatch bob_session ev fresh_db = (inr (), fresh_db, [Send frame]) ∧
    frame !! lit "message" = Some (JStr (lit "hi")).
Proof.
  split; [reflexivity|]. split; [vm_compute; discriminate|].
  destruct (@message_reaches_every_client strict_prep ann_session bob_session "chat_5_9"
              3725 1 (frame_of [("message", JStr (lit "  hi "))]%string) (lit "  hi ")
              {| conversation := 1; sender := 5; content := lit "hi";
                 timestamp := 3725; is_read := false |} fresh_db fresh_db
              eq_refl eq_refl eq_refl)
    as (ev & frame & Htrace & Hdisp & _ & _ & Hmsg & _).
  - vm_compute. discriminate.
  - vm_compute. reflexivity.
  - exists ev, frame. split; [exact Htrace|]. split; [exact Hdisp|exact Hmsg].
Defined.

(** X12.  Read receipts and deletion notices are forwarded as they came.
    In a session that has its room, a [mark_as_read] frame with a true
    [message_ids] value, or a [delete_message] frame with a true
    [message_id] value, puts one event on the room, and any chat session,
    the author's included, turns that event into one frame of type
    ["read"] or ["deleted"] that carries the very value the client sent. *)
Theorem receipts_forwarded_verbatim `{FieldPrep} (self any : ChatConsumer.session)
    (room : string) (now : Z) (data : gmap pystr json) (d d' : db) :
  ChatConsumer.room_group_name self = Some room →
  let r := ChatConsumer.receive self now (Some (JObj data)) d in
  (eq_str (ChatConsumer.msg_type_of data) "mark_as_read" = true →
   truthy (dict_get data "message_ids" (JArr [])) = true →
   ∃ ev frame, broadcasts (trace r) = [(room, ev)] ∧
     ChatConsumer.dispatch any ev d' = (inr (), d', [Send frame]) ∧
     frame !! lit "type" = Some (JStr (lit "read")) ∧
     frame !! lit "message_ids" = Some (dict_get data "message_ids" (JArr []))) ∧
  (eq_str (ChatConsumer.msg_type_of data) "delete_message" = true →
   truthy (dict_get data "message_id" JNull) = true →
   ∃ ev frame, broadcasts (trace r) = [(room, ev)] ∧
     ChatConsumer.dispatch any ev d' = (inr (), d', [Send frame]) ∧
     frame !! lit "type" = Some (JStr (lit "deleted")) ∧
     frame !! lit "message_id" = Some (dict_get data "message_id" JNull)).
Proof.
  intros Hroom r. split; intros Hty Htrue.
  - pose proof (msg_type_mark_as_read data Hty) as Hn.
    unfold r. rewrite (receive_other_run self room) by done. simpl.
    rewrite Hty, Htrue. unfold trace at 1. simpl.
    rewrite broadcasts_app, mark_messages_read_silent. simpl.
    eexists _, _. split; [reflexivity|]. split; [reflexivity|].
    split; reflexivity.
  - destruct (msg_type_delete data Hty) as (Hn1 & Hn2 & Hn3 & Hn4).
    unfold r. rewrite (receive_other_run self room) by done. simpl.
    rewrite Hn2, Hn3, Hn4, Hty, Htrue. unfold trace at 1. simpl.
    rewrite broadcasts_app, delete_message_silent. simpl.
    eexists _, _. split; [reflexivity|]. split; [reflexivity|].
    split; reflexivity.
Qed.

Lemma receipts_forwarded_verbatim_witness :
  ChatConsumer.room_group_name bob_session = Some "chat_5_9"%string ∧
  ∃ ev frame,
    broadcasts
      (trace (@ChatConsumer.receive strict_prep bob_session 300
                (Some (JObj (frame_of [("type", JStr (lit "mark_as_read"));
                                       ("message_ids", JArr [JInt 1])]%string)))
                sample_db))
    = [("chat_5_9"%string, ev)] ∧
    ChatConsumer.dispatch bob_session ev sample_db = (inr (), sample_db, [Send frame]) ∧
    frame !! lit "message_ids" = Some (JArr [JInt 1]).
Proof.
  split; [reflexivity|].
  destruct (proj1 (@receipts_forwarded_verbatim strict_prep bob_session bob_session
              "chat_5_9" 300
              (frame_of [("type", JStr (lit "mark_as_read"));
                         ("message_ids", JArr [JInt 1])]%string)
              sample_db sample_db eq_refl) eq_refl eq_refl)
    as (ev & frame & Hb & Hd & _ & Hids).
  exists ev, frame. split; [exact Hb|]. split; [exact Hd|exact Hids].
Defined.

(** ** Frames at the edges of [receive] *)

(** X13.  A frame whose type is none of the five that [receive] knows is
    ignored: the handler returns with no write and no effect.  A frame of
    type ["message"] whose text is not a string is not dropped: the
    [AttributeError] of [strip] escapes the handler, before any write or
    effect. *)
Theorem unhandled_frames `{FieldPrep} (self : ChatConsumer.session) (now : Z)
    (data : gmap pystr json) (d : db) :
  let msg_type := ChatConsumer.msg_type_of data in
  let r := ChatConsumer.receive self now (Some (JObj data)) d in
  (eq_str msg_type "message" = false ∧ eq_str msg_type "mark_as_read" = false ∧
   eq_str msg_type "typing" = false ∧ eq_str msg_type "stop_typing" = false ∧
   eq_str msg_type "delete_message" = false →
   r = (inr (), d, [])) ∧
  (eq_str msg_type "message" = true →
   (∀ text, dict_get data "message" (JStr []) ≠ JStr text) →
   r = (inl AttributeError, d, [])).
Proof.
  intros msg_type r. unfold r, ChatConsumer.receive. fold msg_type. split.
  - intros (-> & -> & -> & -> & ->). reflexivity.
  - intros -> Hnot.
    destruct (dict_get data "message" (JStr [])) as [| | |text| |]; try reflexivity.
    by destruct (Hnot text).
Qed.

Lemma unhandled_frames_witness :
  @ChatConsumer.receive strict_prep ann_session 70
     (Some (JObj (frame_of [("type"%string, JStr (lit "ping"))]))) sample_db
  = (inr (), sample_db, []) ∧
  @ChatConsumer.receive strict_prep ann_session 70
     (Some (JObj (frame_of [("message"%string, JInt 5)]))) sample_db
  = (inl AttributeError, sample_db, []).
Proof.
  split.
  - apply (proj1 (@unhandled_frames strict_prep ann_session 70
                    (frame_of [("type"%string, JStr (lit "ping"))]) sample_db)).
    by vm_compute.
  - apply (proj2 (@unhandled_frames strict_prep ann_session 70
                    (frame_of [("message"%string, JInt 5)]) sample_db)).
    + by vm_compute.
    + intros text Heq. vm_compute in Heq. discriminate Heq.
Defined.

(** X14.  A store error in [mark_as_read] or [delete_message] is printed
    and does not stop the broadcast.  In a session that has its room, when
    the value of [message_ids] (or of [message_id]) is true but is refused
    by the lookup, the store is left as it was, the exception that the
    lookup raised is printed, and the event with that same value is still
    put on the room. *)
Theorem rejected_ids_still_broadcast `{FieldPrep} (self : ChatConsumer.session)
    (room : string) (now : Z) (data : gmap pystr json) (d : db) :
  ChatConsumer.room_group_name self = Some room →
  let r := ChatConsumer.receive self now (Some (JObj data)) d in
  (eq_str (ChatConsumer.msg_type_of data) "mark_as_read" = true →
   truthy (dict_get data "message_ids" (JArr [])) = true →
   ∀ e, pk_in (dict_get data "message_ids" (JArr [])) = inl e →
   r = (inr (), d,
        [Print "Mark read error:" e;
         GroupSend room (message_read_ev (dict_get data "message_ids" (JArr [])))])) ∧
  (eq_str (ChatConsumer.msg_type_of data) "delete_message" = true →
   truthy (dict_get data "message_id" JNull) = true →
   ∀ e, pk_exact (dict_get data "message_id" JNull) = inl e →
   r = (inr (), d,
        [Print "Delete message error:" e;
         GroupSend room (deleted_ev (dict_get data "message_id" JNull))])).
Proof.
  intros Hroom r. split; intros Hty Htrue e Hrej.
  - pose proof (msg_type_mark_as_read data Hty) as Hn.
    unfold r. rewrite (receive_other_run self room) by done. simpl.
    rewrite Hty, Htrue, mark_messages_read_run, Hrej. reflexivity.
  - destruct (msg_type_delete data Hty) as (Hn1 & Hn2 & Hn3 & Hn4).
    unfold r. rewrite (receive_other_run self room) by done. simpl.
    rewrite Hn2, Hn3, Hn4, Hty, Htrue, delete_message_run, Hrej. reflexivity.
Qed.

(** User 9 marks message 2 together with an id of more than 64 bits: the
    lookup overflows, message 2 stays unread and the list still goes to
    the room. *)
Lemma rejected_ids_still_broadcast_witness :
  ChatConsumer.room_group_name bob_session = Some "chat_5_9"%string ∧
  @ChatConsumer.receive strict_prep bob_session 300
    (Some (JObj (frame_of [("type", JStr (lit "mark_as_read"));
                           ("message_ids", JArr [JInt 2; JInt (2 ^ 70)])]%string)))
    sample_db
  = (inr (), sample_db,
     [Print "Mark read error:" OverflowError;
      GroupSend "chat_5_9" (message_read_ev (JArr [JInt 2; JInt (2 ^ 70)]))]).
Proof.
  split; [reflexivity|].
  exact (proj1 (@rejected_ids_still_broadcast strict_prep bob_session "chat_5_9" 300
                  (frame_of [("type", JStr (lit "mark_as_read"));
                             ("message_ids", JArr [JInt 2; JInt (2 ^ 70)])]%string)
                  sample_db eq_refl) eq_refl eq_refl OverflowError eq_refl).
Defined.

(** X20.  A message for a user who has no row is dropped: in a session
    that has its room, a non-blank message frame whose peer is missing
    leaves the store as it was, prints the lookup error and broadcasts
    nothing, and the handler returns. *)
Theorem message_to_missing_peer_dropped `{FieldPrep} (self : ChatConsumer.session)
    (room : string) (now : Z) (data : gmap pystr json) (text : pystr) (d : db) :
  ChatConsumer.room_group_name self = Some room →
  eq_str (ChatConsumer.msg_type_of data) "message" = true →
  dict_get data "message" (JStr []) = JStr text →
  strip text ≠ [] →
  users d !! ChatConsumer.other_user_id self = None →
  ChatConsumer.receive self now (Some (JObj data)) d
  = (inr (), d, [Print "Message save error:" DoesNotExist]).
Proof.
  intros Hroom Hty Hget Hne Hpeer.
  rewrite (receive_message_run self room) by done. rewrite Hget.
  rewrite bool_decide_eq_false_2 by done.
  rewrite save_message_run. simpl. by rewrite Hpeer.
Qed.

Lemma message_to_missing_peer_dropped_witness :
  let lost := {| ChatConsumer.user := Authenticated 5 (lit "ann");
                 ChatConsumer.other_user_id := 4;
                 ChatConsumer.room_group_name := Some "chat_4_5"%string;
                 ChatConsumer.channel_name := "ann-2" |} in
  users sample_db !! 4 = None ∧
  @ChatConsumer.receive strict_prep lost 300
    (Some (JObj (frame_of [("message", JStr (lit "hi"))]%string))) sample_db
  = (inr (), sample_db, [Print "Message save error:" DoesNotExist]).
Proof.
  split; [reflexivity|].
  apply (@message_to_missing_peer_dropped strict_prep _ "chat_4_5" 300 _ (lit "hi"));
    try reflexivity.
  vm_compute. discriminate.
Defined.

(** ** Trimming *)

Lemma lstrip_head (s : pystr) (c : N) : head (lstrip s) = Some c → isspace c = false.
Proof.
  induction s as [|x s IH]; simpl; [done|].
  destruct (isspace x) eqn:Hx; [exact IH|]. simpl. by intros [= <-].
Qed.

Lemma lstrip_suffix (s : pystr) : ∃ w, s = w ++ lstrip s.
Proof.
  induction s as [|x s [w IH]]; simpl; [by exists []|].
  destruct (isspace x); [|by exists []].
  exists (x :: w). simpl. by rewrite <- IH.
Qed.

Lemma rstrip_prefix (s : pystr) : ∃ w, s = rstrip s ++ w.
Proof.
  unfold rstrip. destruct (lstrip_suffix (reverse s)) as [w Hw].
  exists (reverse w). rewrite <- reverse_app, <- Hw. by rewrite reverse_involutive.
Qed.

(** What [strip] returns neither starts nor ends with white space. *)
Lemma strip_ends (s : pystr) (c : N) :
  (head (strip s) = Some c → isspace c = false) ∧
  (last (strip s) = Some c → isspace c = false).
Proof.
  unfold strip. split.
  - destruct (rstrip_prefix (lstrip s)) as [w Hw]. intros Hh.
    apply (lstrip_head s). rewrite Hw.
    destruct (rstrip (lstrip s)); [done|]. exact Hh.
  - unfold rstrip. rewrite last_reverse. apply lstrip_head.
Qed.

(** The row that a successful [save_message] adds: its key is the value
    of the sequence, which moves on by one. *)
Lemma save_message_key (self : ChatConsumer.session) (now : Z) (text : pystr)
    (d : db) (pk : Z) (row : Message) :
  let r := ChatConsumer.save_message self now text d in
  outcome r = inr (Some (pk, row)) →
  pk = message_seq d ∧ message_seq (store r) = pk + 1 ∧
  messages (store r) = <[pk := row]> (messages d).
Proof.
  intros r. unfold r. rewrite save_message_run. simpl.
  destruct (users d !! _) as [u|]; [|done].
  destruct (id_of _) as [uid|]; [|done].
  pose proof (get_or_create_run now (Z.min uid (ChatConsumer.other_user_id self))
                (Z.max uid (ChatConsumer.other_user_id self)) d) as Hrun.
  destruct (Conversation_get_or_create _ _ _ _) as [[[e|[[cpk crow] created]] d1] log];
    [done|].
  destruct Hrun as (_ & _ & _ & _ & _ & Hms & Hsq & _).
  destruct (encodable text); simpl; [|done].
  case_bool_decide; [|done]. unfold outcome, store. simpl.
  intros [= <- <-]. simpl. by rewrite Hms, Hsq.
Qed.

(** A key that [receive] fills holds a message saved from the frame. *)
Lemma receive_new_message `{FieldPrep} (self : ChatConsumer.session) (now : Z)
    (text_data : option json) (d : db) (pk : Z) (m : Message) :
  messages d !! pk = None →
  messages (store (ChatConsumer.receive self now text_data d)) !! pk = Some m →
  ∃ text, strip text ≠ [] ∧
    outcome (ChatConsumer.save_message self now (strip text) d) = inr (Some (pk, m)).
Proof.
  intros Hnone. unfold ChatConsumer.receive.
  destruct text_data as [[| | | | |data]|]; try (cbv [store raise ret fst snd]; by rewrite Hnone).
  destruct (eq_str _ "message").
  { destruct (dict_get data "message" (JStr [])) as [| | |text| |];
      try (cbv [store raise ret fst snd]; by rewrite Hnone).
    case_bool_decide as Hblank; [cbv [store raise ret fst snd]; by rewrite Hnone|].
    rewrite bind_store
      by (intros [[pk' row]|] d'; [apply room_send_store|reflexivity]).
    intros Hm. exists text. split; [done|].
    pose proof (save_message_silent self now (strip text) d) as [_ [res Hres]].
    destruct res as [[pk' row]|].
    - destruct (save_message_key self now (strip text) d pk' row Hres) as (_ & _ & Hms).
      rewrite Hms in Hm. apply lookup_insert_Some in Hm as [[<- <-]|[_ Hm]]; [done|].
      by rewrite Hnone in Hm.
    - destruct (save_message_none self now (strip text) d Hres) as (Hms & _).
      by rewrite Hms, Hnone in Hm. }
  destruct (eq_str _ "mark_as_read").
  { destruct (truthy _); [|cbv [store raise ret fst snd]; by rewrite Hnone].
    rewrite bind_store by (intros; apply room_send_store).
    rewrite mark_messages_read_run. destruct (pk_in _); [cbv [store raise ret fst snd]; by rewrite Hnone|].
    match goal with
    | |- context [store (inr (), ?x, ?t)] => change (store (inr (), x, t)) with x
    end.
    by rewrite update_read_lookup, Hnone. }
  destruct (eq_str _ "typing"); [rewrite room_send_store; by rewrite Hnone|].
  destruct (eq_str _ "stop_typing"); [rewrite room_send_store; by rewrite Hnone|].
  destruct (eq_str _ "delete_message"); [|cbv [store raise ret fst snd]; by rewrite Hnone].
  destruct (truthy _); [|cbv [store raise ret fst snd]; by rewrite Hnone].
  rewrite bind_store by (intros; apply room_send_store).
  rewrite delete_message_run. destruct (pk_exact _); [cbv [store raise ret fst snd]; by rewrite Hnone|].
  unfold store. simpl. intros Hm. apply map_lookup_filter_Some in Hm as [Hm _].
  by rewrite Hnone in Hm.
Qed.

(** X15.  Every message that an inbound frame creates is trimmed and
    attributed: a row that [receive] puts under a key that was free has a
    text that is not empty and neither starts nor ends with white space,
    is unread, is stamped with the time of the call, and has the
    session's user as sender. *)
Theorem created_message_is_trimmed `{FieldPrep} (self : ChatConsumer.session) (now : Z)
    (text_data : option json) (d : db) (pk : Z) (m : Message) :
  messages d !! pk = None →
  messages (store (ChatConsumer.receive self now text_data d)) !! pk = Some m →
  content m ≠ [] ∧
  (∀ c, head (content m) = Some c → isspace c = false) ∧
  (∀ c, last (content m) = Some c → isspace c = false) ∧
  is_read m = false ∧ timestamp m = now ∧
  Some (sender m) = id_of (ChatConsumer.user self).
Proof.
  intros Hnone Hm.
  destruct (receive_new_message self now text_data d pk m Hnone Hm)
    as (text & Hne & Hsave).
  destruct (save_message_some self now (strip text) d pk m Hsave)
    as (_ & _ & Hc & Hts & Hrd & Hs & _).
  rewrite Hc. split; [done|].
  split; [intros c; apply strip_ends|].
  split; [intros c; apply strip_ends|]. done.
Qed.

Lemma created_message_is_trimmed_witness :
  let r := @ChatConsumer.receive strict_prep ann_session 300
             (Some (JObj (frame_of [("message", JStr (lit " hi  "))]%string)))
             sample_db in
  messages sample_db !! 3 = None ∧
  messages (store r) !! 3
  = Some {| conversation := 1; sender := 5; content := lit "hi";
            timestamp := 300; is_read := false |} ∧
  lit "hi" ≠ [].
Proof.
  split; [reflexivity|]. split; [reflexivity|].
  exact (proj1 (@created_message_is_trimmed strict_prep ann_session 300
                  (Some (JObj (frame_of [("message", JStr (lit " hi  "))]%string)))
                  sample_db 3
                  {| conversation := 1; sender := 5; content := lit "hi";
                     timestamp := 300; is_read := false |} eq_refl eq_refl)).
Defined.

(** ** How the message operations compose *)

Lemma update_read_twice (ids : list Z) (reader : option Z) (d : db) :
  store (Message_update_read ids reader (store (Message_update_read ids reader d)))
  = store (Message_update_read ids reader d).
Proof.
  apply db_eq; try reflexivity. apply map_eq; intros pk.
  rewrite !update_read_lookup. destruct (messages d !! pk) as [m|]; [|done]. simpl.
  f_equal. destruct (decide (unread_from_others ids reader pk m)) as [H1|H1].
  - rewrite (bool_decide_eq_true_2 _ H1).
    rewrite bool_decide_eq_false_2; [done|].
    intros (_ & Hrd & _). simpl in Hrd. discriminate.
  - rewrite (bool_decide_eq_false_2 _ H1). by rewrite bool_decide_eq_false_2.
Qed.

Lemma filter_not_sent_by_twice (pk : Z) (owner : option Z) (ms : gmap Z Message) :
  filter (λ kv, ¬ sent_by pk owner kv) (filter (λ kv, ¬ sent_by pk owner kv) ms)
  = filter (λ kv, ¬ sent_by pk owner kv) ms.
Proof.
  apply map_eq; intros k. rewrite !map_lookup_filter.
  destruct (ms !! k) as [m|]; [|done]. simpl.
  destruct (decide (¬ sent_by pk owner (k, m))) as [Hn|Hn].
  - rewrite option_guard_True by done. simpl. by rewrite option_guard_True.
  - by rewrite option_guard_False.
Qed.

(** X16.  Marking and deleting can be repeated without harm: marking the
    same ids as read for the same reader a second time changes nothing,
    and a second delete of the same message by the same requester is a
    no-op. *)
Theorem mark_and_delete_idempotent `{FieldPrep} (ids : list Z) (reader pk uid : Z)
    (d : db) :
  let mark := ChatConsumer.mark_messages_read (JArr (JInt <$> ids)) (Some reader) in
  let delete := ChatConsumer.delete_message (JInt pk) (Some uid) in
  store (mark (store (mark d))) = store (mark d) ∧
  store (delete (store (delete d))) = store (delete d).
Proof.
  intros mark delete. unfold mark, delete. split.
  - rewrite !mark_messages_read_run.
    destruct (decide (Forall in_int64 ids)) as [Hfit|Hfit].
    + rewrite pk_in_ints by done.
      change (store (inr (), store (Message_update_read ids (Some reader) d), []))
        with (store (Message_update_read ids (Some reader) d)).
      pose proof (update_read_twice ids (Some reader) d) as Htw.
      rewrite <- Htw at 2. reflexivity.
    + rewrite pk_in_overflow by done. reflexivity.
  - rewrite !delete_message_run. simpl. unfold store. simpl.
    apply db_eq; try reflexivity. simpl. apply filter_not_sent_by_twice.
Qed.

(** X17.  A message can be marked as read by anyone but its sender: once
    [save_message] has returned a row, marking its key as read turns the
    row read for any reader other than the session's user, the key being
    within the 64 bits that the lookup takes, and leaves it unread when
    the reader is that user. *)
Theorem sent_message_read_only_by_others `{FieldPrep} (self : ChatConsumer.session)
    (now uid reader pk : Z) (text : pystr) (row : Message) (d : db) :
  id_of (ChatConsumer.user self) = Some uid →
  outcome (ChatConsumer.save_message self now text d) = inr (Some (pk, row)) →
  let d1 := store (ChatConsumer.save_message self now text d) in
  messages (store (ChatConsumer.mark_messages_read (JArr [JInt pk]) (Some reader) d1))
    !! pk
  = Some (if bool_decide (reader = uid) then row
          else if bool_decide (in_int64 pk) then set_read row else row).
Proof.
  intros Hid Hsave d1.
  destruct (save_message_some self now text d pk row Hsave)
    as (_ & Hlook & _ & _ & Hrd & Hs & _).
  fold d1 in Hlook. rewrite Hid in Hs. injection Hs as Hs.
  change (JArr [JInt pk]) with (JArr (JInt <$> [pk])).
  rewrite mark_messages_read_run.
  destruct (decide (in_int64 pk)) as [Hfit|Hfit]; cycle 1.
  { rewrite pk_in_overflow by (intros Hall; apply Hfit; by inversion Hall).
    rewrite (bool_decide_eq_false_2 (in_int64 pk)) by done.
    change (store (inr (), d1, [Print "Mark read error:" OverflowError])) with d1.
    rewrite Hlook. by case_bool_decide. }
  rewrite pk_in_ints by (by apply Forall_singleton).
  rewrite (bool_decide_eq_true_2 (in_int64 pk)) by done.
  change (store (inr (), store (Message_update_read [pk] (Some reader) d1), []))
    with (store (Message_update_read [pk] (Some reader) d1)).
  rewrite update_read_lookup, Hlook. simpl. f_equal.
  destruct (decide (reader = uid)) as [->|Hne].
  - rewrite (bool_decide_eq_true_2 (uid = uid)) by done.
    rewrite bool_decide_eq_false_2; [done|].
    intros (_ & _ & Hn). apply Hn. by rewrite Hs.
  - rewrite (bool_decide_eq_false_2 (reader = uid)) by done.
    rewrite bool_decide_eq_true_2; [done|].
    split; [by apply list_elem_of_singleton|]. split; [done|].
    rewrite Hs. congruence.
Qed.

Lemma sent_message_read_only_by_others_witness :
  id_of (ChatConsumer.user ann_session) = Some 5 ∧
  let row := {| conversation := 1; sender := 5; content := lit "hi";
                timestamp := 50; is_read := false |} in
  outcome (ChatConsumer.save_message ann_session 50 (lit "hi") fresh_db)
    = inr (Some (1, row)) ∧
  messages
    (store (@ChatConsumer.mark_messages_read strict_prep (JArr [JInt 1]) (Some 9)
              (store (ChatConsumer.save_message ann_session 50 (lit "hi") fresh_db))))
    !! 1 = Some (set_read row).
Proof.
  split; [reflexivity|]. split; [reflexivity|].
  exact (@sent_message_read_only_by_others strict_prep ann_session 50 5 9 1 (lit "hi")
           {| conversation := 1; sender := 5; content := lit "hi";
              timestamp := 50; is_read := false |} fresh_db eq_refl eq_refl).
Defined.

(** X18.  Sending and then deleting gives the message table back: in a
    store with keys from the sequences, when [save_message] has returned
    a row, a delete of its key by the session's user leaves the messages
    exactly as they were before the send, and a delete by anyone else
    leaves the new message in place. *)
Theorem send_then_delete_restores `{FieldPrep} (self : ChatConsumer.session)
    (now uid other pk : Z) (text : pystr) (row : Message) (d : db) :
  keys_from_sequences d →
  id_of (ChatConsumer.user self) = Some uid →
  outcome (ChatConsumer.save_message self now text d) = inr (Some (pk, row)) →
  other ≠ uid →
  let d1 := store (ChatConsumer.save_message self now text d) in
  messages (store (ChatConsumer.delete_message (JInt pk) (Some uid) d1)) = messages d ∧
  messages (store (ChatConsumer.delete_message (JInt pk) (Some other) d1)) = messages d1.
Proof.
  intros (_ & _ & _ & Hkeys) Hid Hsave Hother d1.
  destruct (save_message_some self now text d pk row Hsave)
    as (_ & Hlook & _ & _ & _ & Hs & _).
  destruct (save_message_key self now text d pk row Hsave) as (Hpk & _ & Hms).
  fold d1 in Hlook, Hms. rewrite Hid in Hs. injection Hs as Hs.
  assert (Hfree : messages d !! pk = None).
  { destruct (messages d !! pk) as [m|] eqn:Hm; [|done].
    specialize (Hkeys pk m Hm). simpl in Hkeys. lia. }
  assert (Hdel : ∀ w, messages (store (ChatConsumer.delete_message (JInt pk) (Some w) d1))
            = if bool_decide (sender row = w) then delete pk (messages d1)
              else messages d1).
  { intros w. rewrite delete_message_run. unfold store. simpl.
    rewrite filter_not_sent_by, Hlook. simpl.
    destruct (decide (sender row = w)) as [Hw|Hw].
    - rewrite !bool_decide_eq_true_2; [done|done|congruence].
    - rewrite !bool_decide_eq_false_2; [done|done|congruence]. }
  rewrite !Hdel, Hs. split.
  - rewrite bool_decide_eq_true_2 by done. rewrite Hms. by apply delete_insert_id.
  - rewrite bool_decide_eq_false_2; [done|]. congruence.
Qed.

Lemma send_then_delete_restores_witness :
  keys_from_sequences sample_db ∧
  id_of (ChatConsumer.user ann_session) = Some 5 ∧ 9 ≠ 5 ∧
  let d1 := store (ChatConsumer.save_message ann_session 50 (lit "hi") sample_db) in
  messages d1 !! 3 = Some {| conversation := 1; sender := 5; content := lit "hi";
                             timestamp := 50; is_read := false |} ∧
  messages (store (@ChatConsumer.delete_message strict_prep (JInt 3) (Some 5) d1))
  = messages sample_db.
Proof.
  split; [exact keys_from_sequences_sample|]. split; [reflexivity|]. split; [lia|].
  split; [reflexivity|].
  refine (proj1 (@send_then_delete_restores strict_prep ann_session 50 5 9 3 (lit "hi")
                   {| conversation := 1; sender := 5; content := lit "hi";
                      timestamp := 50; is_read := false |} sample_db
                   keys_from_sequences_sample eq_refl eq_refl _)).
  lia.
Defined.

(** X19.  Messages are numbered in the order they are saved and never
    overwrite one another: in a store with keys from the sequences, the
    key of a saved message was free, the next message saved, by any
    session, gets the next key, and both rows are in the store after the
    second save. *)
Theorem sends_get_increasing_keys (s1 s2 : ChatConsumer.session)
    (now1 now2 pk1 pk2 : Z) (text1 text2 : pystr) (row1 row2 : Message) (d : db) :
  keys_from_sequences d →
  outcome (ChatConsumer.save_message s1 now1 text1 d) = inr (Some (pk1, row1)) →
  outcome (ChatConsumer.save_message s2 now2 text2
             (store (ChatConsumer.save_message s1 now1 text1 d)))
    = inr (Some (pk2, row2)) →
  let d2 := store (ChatConsumer.save_message s2 now2 text2
                     (store (ChatConsumer.save_message s1 now1 text1 d))) in
  messages d !! pk1 = None ∧ pk2 = pk1 + 1 ∧
  messages d2 !! pk1 = Some row1 ∧ messages d2 !! pk2 = Some row2.
Proof.
  intros (_ & _ & _ & Hkeys) H1 H2 d2.
  destruct (save_message_key s1 now1 text1 d pk1 row1 H1) as (Hpk1 & Hseq1 & Hms1).
  destruct (save_message_key s2 now2 text2 _ pk2 row2 H2) as (Hpk2 & _ & Hms2).
  fold d2 in Hms2. rewrite Hms2, Hms1.
  assert (pk2 = pk1 + 1) as -> by congruence.
  split; [|split; [done|split]].
  - destruct (messages d !! pk1) as [m|] eqn:Hm; [|done].
    specialize (Hkeys pk1 m Hm). simpl in Hkeys. lia.
  - rewrite lookup_insert_ne by lia. by rewrite lookup_insert_eq.
  - by rewrite lookup_insert_eq.
Qed.

Lemma sends_get_increasing_keys_witness :
  keys_from_sequences sample_db ∧
  let d1 := store (ChatConsumer.save_message ann_session 50 (lit "hi") sample_db) in
  let d2 := store (ChatConsumer.save_message bob_session 60 (lit "yo") d1) in
  outcome (ChatConsumer.save_message ann_session 50 (lit "hi") sample_db)
    = inr (Some (3, {| conversation := 1; sender := 5; content := lit "hi";
                       timestamp := 50; is_read := false |})) ∧
  outcome (ChatConsumer.save_message bob_session 60 (lit "yo") d1)
    = inr (Some (4, {| conversation := 1; sender := 9; content := lit "yo";
                       timestamp := 60; is_read := false |})) ∧
  messages d2 !! 3 = Some {| conversation := 1; sender := 5; content := lit "hi";
                             timestamp := 50; is_read := false |}.
Proof.
  split; [exact keys_from_sequences_sample|]. split; [reflexivity|].
  split; [reflexivity|].
  exact (proj1 (proj2 (proj2
    (sends_get_increasing_keys ann_session bob_session 50 60 3 4 (lit "hi") (lit "yo")
       {| conversation := 1; sender := 5; content := lit "hi";
          timestamp := 50; is_read := false |}
       {| conversation := 1; sender := 9; content := lit "yo";
          timestamp := 60; is_read := false |}
       sample_db keys_from_sequences_sample eq_refl eq_refl)))).
Defined.

(** ** The pages *)

(** X21.  The chat page writes nothing but, at most, one conversation
    row.  It never touches users or messages and has no channel effect;
    the only key of the conversation table that can change is the value
    of the table's sequence; an anonymous request is redirected and a
    request for a user who has no row raises [Http404], both with the
    store as it was. *)
Theorem chat_page_writes_one_row_at_most (u : identity) (peer now : Z) (d : db) :
  let r := views.chat_view u peer now d in
  users (store r) = users d ∧ messages (store r) = messages d ∧
  message_seq (store r) = message_seq d ∧ trace r = [] ∧
  (∀ k, k ≠ conversation_seq d →
        conversations (store r) !! k = conversations d !! k) ∧
  (u = Anonymous → r = (inr views.Redirect, d, [])) ∧
  (u ≠ Anonymous → users d !! peer = None → r = (inl Http404, d, [])).
Proof.
  intros r. unfold r. destruct u as [|uid name]; [by repeat split|].
  unfold views.chat_view, try_except, User_get, bind, get_db. simpl.
  destruct (users d !! peer) as [v|] eqn:Hpeer; simpl; [|by repeat split].
  unfold Conversation_get_or_create, bind, get_db.
  destruct (map_to_list (filter (same_pair (min2 uid peer) (max2 uid peer))
                           (conversations d))) as [|kv [|kv' l]]; simpl;
    [|by repeat split..].
  case_bool_decide; simpl; [|by repeat split].
  repeat split; try done. intros k Hne. unfold store. simpl.
  by rewrite lookup_insert_ne.
Qed.

(** X22.  The user list offers every user but the requester, and every
    chat opened from it is between two distinct users.  [user_list]
    writes nothing and lists exactly the rows of the other users; for any
    listed user, in a store that keeps the pairs unique, [chat_view] is
    rendered with a conversation whose [user1] is strictly smaller than
    its [user2]. *)
Theorem listed_users_open_ordered_chats (uid peer now : Z) (name : pystr)
    (u : User) (listed : gmap Z User) (d : db) :
  unique_together d →
  users d !! uid = Some u →
  outcome (views.user_list (Authenticated uid name) d)
    = inr (views.UserList "user_list.html" listed) →
  store (views.user_list (Authenticated uid name) d) = d ∧
  (∀ k row, listed !! k = Some row ↔ users d !! k = Some row ∧ k ≠ uid) ∧
  (is_Some (listed !! peer) →
   ∃ pk row,
     conversation_of_view (views.chat_view (Authenticated uid name) peer now d)
       = Some (pk, row) ∧
     user1 row = Z.min uid peer ∧ user2 row = Z.max uid peer ∧
     user1 row < user2 row).
Proof.
  intros Huniq Hu Hlist. unfold views.user_list, bind, get_db, ret, outcome in Hlist.
  simpl in Hlist. injection Hlist as <-.
  split; [reflexivity|].
  assert (Hiff : ∀ k row, filter (λ kv : Z * User, kv.1 ≠ uid) (users d) !! k = Some row
                          ↔ users d !! k = Some row ∧ k ≠ uid).
  { intros k row. by rewrite map_lookup_filter_Some. }
  split; [exact Hiff|]. intros [v Hv]. apply Hiff in Hv as [Hpeer Hne].
  assert (HsP : is_Some (users d !! peer)) by eauto.
  destruct (chat_view_conversation uid peer now name d HsP) as [-> _].
  assert (H1 : is_Some (users d !! Z.min uid peer))
    by (destruct (Z.min_spec uid peer) as [[_ ->]|[_ ->]]; eauto).
  assert (H2 : is_Some (users d !! Z.max uid peer))
    by (destruct (Z.max_spec uid peer) as [[_ ->]|[_ ->]]; eauto).
  destruct (get_or_create_ok now _ _ d Huniq H1 H2) as (pk & row & Hgot).
  exists pk, row. split; [exact Hgot|].
  pose proof (get_or_create_run now (Z.min uid peer) (Z.max uid peer) d) as Hrun.
  unfold conversation_got, outcome in Hgot.
  destruct (Conversation_get_or_create _ _ _ _) as [[[e|[[cpk crow] created]] d1] log];
    simpl in Hgot; [discriminate|].
  injection Hgot as -> ->. destruct Hrun as (_ & -> & -> & _).
  repeat split; lia.
Qed.

Lemma listed_users_open_ordered_chats_witness :
  unique_together fresh_db ∧
  users fresh_db !! 5 = Some {| username := lit "ann"; is_online := false |} ∧
  ∃ listed,
    outcome (views.user_list (Authenticated 5 (lit "ann")) fresh_db)
      = inr (views.UserList "user_list.html" listed) ∧
    listed !! 9 = Some {| username := lit "bob"; is_online := false |} ∧
    listed !! 5 = None.
Proof.
  split; [exact unique_together_fresh|]. split; [reflexivity|].
  exists (filter (λ kv : Z * User, kv.1 ≠ 5) (users fresh_db)).
  split; [reflexivity|].
  destruct (listed_users_open_ordered_chats 5 9 50 (lit "ann")
              {| username := lit "ann"; is_online := false |}
              (filter (λ kv : Z * User, kv.1 ≠ 5) (users fresh_db)) fresh_db
              unique_together_fresh eq_refl eq_refl) as (_ & Hiff & _).
  split.
  - apply Hiff. split; [reflexivity|lia].
  - destruct (filter (λ kv : Z * User, kv.1 ≠ 5) (users fresh_db) !! 5) as [row|] eqn:Hl;
      [|done].
    apply Hiff in Hl as [_ Hn]. by destruct Hn.
Defined.

(** ** Unread counts *)

Lemma unread_loop_run (uid : Z) (convs : list (Z * Conversation))
    (counts : gmap Z nat) (d : db) :
  (∀ kv, kv ∈ convs →
     is_Some (users d !! user1 kv.2) ∧ is_Some (users d !! user2 kv.2)) →
  views.unread_loop uid convs counts d
  = (inr (foldl (count_entry d uid) counts convs), d, []).
Proof.
  revert counts. induction convs as [|[pk conv] rest IH]; intros counts Hrows; [done|].
  destruct (Hrows (pk, conv)) as [[v1 H1] [v2 H2]]; [by left|]. simpl in H1, H2.
  assert (Hrest : ∀ kv, kv ∈ rest →
            is_Some (users d !! user1 kv.2) ∧ is_Some (users d !! user2 kv.2))
    by (intros kv Hkv; apply Hrows; by right).
  simpl. unfold bind at 1. unfold User_get at 1, bind at 1, get_db at 1. simpl.
  rewrite H1. simpl. unfold count_entry, other_side, unread_count. simpl.
  destruct (decide (user1 conv = uid)) as [Heq|Hne].
  - rewrite !(bool_decide_eq_true_2 (user1 conv = uid)) by done.
    unfold bind at 1. unfold User_get at 1, bind at 1, get_db at 1. simpl.
    rewrite H2. simpl. unfold bind at 1, get_db at 1. simpl.
    rewrite IH by done. reflexivity.
  - rewrite !(bool_decide_eq_false_2 (user1 conv = uid)) by done.
    unfold bind at 1, ret at 1. simpl. unfold bind at 1, get_db at 1. simpl.
    rewrite IH by done. reflexivity.
Qed.

(** On a store without dangling references the view runs the pure loop. *)
Lemma get_unread_counts_run (uid : Z) (name : pystr) (d : db) :
  references_ok d →
  views.get_unread_counts (Authenticated uid name) d
  = (inr (views.Json
            (foldl (count_entry d uid) ∅
               (map_to_list (filter (views.involves uid) (conversations d))))),
     d, []).
Proof.
  intros [Hc _]. unfold views.get_unread_counts, bind at 1, get_db at 1. simpl.
  unfold bind at 1. rewrite unread_loop_run; [reflexivity|].
  intros kv Hkv. apply map_to_list_filter_elem in Hkv as [Hkv _].
  exact (Hc kv.1 kv.2 Hkv).
Qed.

(** Every entry of the loop result is a positive count of one of the
    conversations visited, unless it was there before. *)
Lemma count_entries_sound (d : db) (uid : Z) (convs : list (Z * Conversation))
    (counts : gmap Z nat) (o : Z) (n : nat) :
  foldl (count_entry d uid) counts convs !! o = Some n →
  counts !! o = Some n ∨
  ((0 < n)%nat ∧ ∃ kv, kv ∈ convs ∧ other_side uid kv.2 = o ∧
                       n = unread_count d kv.1 o).
Proof.
  revert counts. induction convs as [|kv rest IH]; intros counts Hn; [by left|].
  simpl in Hn. apply IH in Hn as [Hn|(Hpos & kv' & Hin & Ho & Hcnt)].
  - unfold count_entry in Hn. case_bool_decide as Hp; [|by left].
    apply lookup_insert_Some in Hn as [[<- <-]|[_ Hn]]; [|by left].
    right. split; [done|]. exists kv. split; [by left|done].
  - right. split; [done|]. exists kv'. split; [by right|done].
Qed.

(** A conversation with unread messages leaves an entry for its other
    side. *)
Lemma count_entries_complete (d : db) (uid : Z) (convs : list (Z * Conversation))
    (counts : gmap Z nat) (o : Z) :
  is_Some (counts !! o)
  ∨ (∃ kv, kv ∈ convs ∧ other_side uid kv.2 = o ∧ (0 < unread_count d kv.1 o)%nat) →
  is_Some (foldl (count_entry d uid) counts convs !! o).
Proof.
  revert counts. induction convs as [|kv rest IH]; intros counts Hor.
  { destruct Hor as [Hs|(kv & Hin & _)]; [done|]. by apply elem_of_nil in Hin. }
  simpl. apply IH.
  destruct Hor as [Hs|(kv' & Hin & Ho & Hpos)].
  - left. unfold count_entry. case_bool_decide; [|done].
    apply lookup_insert_is_Some'. by right.
  - apply elem_of_cons in Hin as [->|Hin]; [|right; by eauto].
    left. unfold count_entry. rewrite Ho.
    rewrite bool_decide_eq_true_2 by done. rewrite lookup_insert_eq. by eexists.
Qed.

(** X23.  The unread counts are read-only and never report a zero.  An
    anonymous request is redirected.  For an authenticated user, on a
    store without dangling references, [get_unread_counts] returns a JSON
    body, writes nothing and has no effect; every entry of the body is
    the positive number of unread messages that the entry's user sent in
    one of the requester's conversations with that user, and every such
    user with unread messages has an entry. *)
Theorem unread_counts_read_only_and_positive (uid : Z) (name : pystr) (d : db) :
  references_ok d →
  views.get_unread_counts Anonymous d = (inr views.ToLogin, d, []) ∧
  ∃ body,
    views.get_unread_counts (Authenticated uid name) d = (inr (views.Json body), d, []) ∧
    (∀ o n, body !! o = Some n →
       (0 < n)%nat ∧
       ∃ pk c, conversations d !! pk = Some c ∧ views.involves uid (pk, c) ∧
               other_side uid c = o ∧ n = unread_count d pk o) ∧
    (∀ pk c, conversations d !! pk = Some c → views.involves uid (pk, c) →
       (0 < unread_count d pk (other_side uid c))%nat →
       is_Some (body !! other_side uid c)).
Proof.
  intros Href. split; [reflexivity|].
  eexists. split; [by apply get_unread_counts_run|]. split.
  - intros o n Hn. apply count_entries_sound in Hn as [Hn|(Hpos & kv & Hin & Ho & Hcnt)];
      [by rewrite lookup_empty in Hn|].
    split; [done|]. apply map_to_list_filter_elem in Hin as [Hkv Hinv].
    exists kv.1, kv.2. by destruct kv.
  - intros pk c Hc Hinv Hpos. apply count_entries_complete. right.
    exists (pk, c). split; [|done].
    apply elem_of_map_to_list. by apply map_lookup_filter_Some.
Qed.

(** User 9 on the sample store, where users 5 and 7 each sent one message
    that is unread: the body has an entry for each of them. *)
Lemma unread_counts_read_only_and_positive_witness :
  references_ok sample_db ∧
  ∃ body,
    views.get_unread_counts (Authenticated 9 (lit "bob")) sample_db
    = (inr (views.Json body), sample_db, []) ∧
    is_Some (body !! 5) ∧ is_Some (body !! 7) ∧
    ∀ o n, body !! o = Some n → (0 < n)%nat.
Proof.
  split; [exact references_ok_sample|].
  destruct (unread_counts_read_only_and_positive 9 (lit "bob") sample_db
              references_ok_sample)
    as (_ & body & Hrun & Hsound & Hcomplete).
  exists body. split; [exact Hrun|].
  split; [|split].
  - refine (Hcomplete 1 {| user1 := 5; user2 := 9; created_at := 100 |}
              eq_refl (or_intror eq_refl) _).
    vm_compute. lia.
  - refine (Hcomplete 2 {| user1 := 7; user2 := 9; created_at := 200 |}
              eq_refl (or_intror eq_refl) _).
    vm_compute. lia.
  - intros o n Hn. exact (proj1 (Hsound o n Hn)).
Defined.

(** In a store with sorted, unique pairs, a user has one conversation at
    most with each other user. *)
Lemma other_side_inj (uid : Z) (d : db) (k1 k2 : Z) (c1 c2 : Conversation) :
  pairs_sorted d → unique_together d →
  conversations d !! k1 = Some c1 → conversations d !! k2 = Some c2 →
  views.involves uid (k1, c1) → views.involves uid (k2, c2) →
  other_side uid c1 = other_side uid c2 → k1 = k2.
Proof.
  intros Hsort Huniq H1 H2 Hi1 Hi2 Ho.
  pose proof (Hsort k1 c1 H1) as Hs1. pose proof (Hsort k2 c2 H2) as Hs2.
  unfold views.involves, other_side in *. simpl in *.
  apply (Huniq k1 k2 c1 c2 H1 H2);
    repeat case_bool_decide; destruct Hi1, Hi2; lia.
Qed.

Lemma count_entries_skip (d : db) (uid : Z) (convs : list (Z * Conversation))
    (counts : gmap Z nat) (o : Z) :
  (∀ kv, kv ∈ convs → other_side uid kv.2 ≠ o) →
  foldl (count_entry d uid) counts convs !! o = counts !! o.
Proof.
  revert counts. induction convs as [|kv rest IH]; intros counts Hno; [done|].
  simpl. rewrite IH by (intros kv' Hkv'; apply Hno; by right).
  unfold count_entry. case_bool_decide; [|done].
  rewrite lookup_insert_ne; [done|]. apply Hno. by left.
Qed.

Lemma count_entries_exact (d : db) (uid : Z) (convs : list (Z * Conversation))
    (counts : gmap Z nat) (kv : Z * Conversation) :
  NoDup ((λ kv, other_side uid kv.2) <$> convs) → kv ∈ convs →
  foldl (count_entry d uid) counts convs !! other_side uid kv.2
  = if bool_decide (0 < unread_count d kv.1 (other_side uid kv.2))%nat
    then Some (unread_count d kv.1 (other_side uid kv.2))
    else counts !! other_side uid kv.2.
Proof.
  revert counts. induction convs as [|x rest IH]; intros counts Hnd Hin.
  { by apply elem_of_nil in Hin. }
  rewrite fmap_cons in Hnd. apply NoDup_cons in Hnd as [Hx Hnd]. simpl.
  apply elem_of_cons in Hin as [->|Hin].
  - rewrite count_entries_skip.
    + unfold count_entry. case_bool_decide; [by rewrite lookup_insert_eq|done].
    + intros kv' Hkv' Heq. apply Hx. rewrite <- Heq.
      by apply (list_elem_of_fmap_2 (λ kv, other_side uid kv.2)).
  - rewrite IH by done. case_bool_decide; [done|].
    unfold count_entry. case_bool_decide; [|done].
    rewrite lookup_insert_ne; [done|]. intros Heq. apply Hx. rewrite Heq.
    by apply (list_elem_of_fmap_2 (λ kv, other_side uid kv.2)).
Qed.

(** X24.  With sorted, unique pairs the unread counts are exact.  On a
    store without dangling references where every conversation has its
    users in ascending order and no pair occurs twice, the body that
    [get_unread_counts] returns has, for each conversation of the
    requester, the number of unread messages that the other user sent in
    it, under that user's id, or no entry when that number is zero. *)
Theorem unread_counts_exact (uid : Z) (name : pystr) (d : db) (body : gmap Z nat)
    (pk : Z) (c : Conversation) :
  references_ok d → pairs_sorted d → unique_together d →
  outcome (views.get_unread_counts (Authenticated uid name) d) = inr (views.Json body) →
  conversations d !! pk = Some c → views.involves uid (pk, c) →
  body !! other_side uid c
  = if bool_decide (0 < unread_count d pk (other_side uid c))%nat
    then Some (unread_count d pk (other_side uid c)) else None.
Proof.
  intros Href Hsort Huniq Hout Hc Hinv.
  rewrite get_unread_counts_run in Hout by done.
  unfold outcome in Hout. simpl in Hout. injection Hout as <-.
  rewrite (count_entries_exact d uid _ ∅ (pk, c)).
  - simpl. by rewrite lookup_empty.
  - apply NoDup_fmap_2_strong; [|apply NoDup_map_to_list].
    intros [k1 c1] [k2 c2] Hin1 Hin2 Heq. simpl in Heq.
    apply map_to_list_filter_elem in Hin1 as [H1 Hi1].
    apply map_to_list_filter_elem in Hin2 as [H2 Hi2]. simpl in H1, H2.
    assert (k1 = k2) as ->
      by (by apply (other_side_inj uid d k1 k2 c1 c2)).
    congruence.
  - apply elem_of_map_to_list. by apply map_lookup_filter_Some.
Qed.

Lemma unread_counts_exact_witness :
  references_ok sample_db ∧ pairs_sorted sample_db ∧ unique_together sample_db ∧
  conversations sample_db !! 2 = Some {| user1 := 7; user2 := 9; created_at := 200 |} ∧
  views.involves 9 (2, {| user1 := 7; user2 := 9; created_at := 200 |}) ∧
  ∃ body,
    outcome (views.get_unread_counts (Authenticated 9 (lit "bob")) sample_db)
      = inr (views.Json body) ∧
    body !! 7 = Some 1%nat.
Proof.
  split; [exact references_ok_sample|]. split; [exact pairs_sorted_sample|].
  split; [exact unique_together_sample|]. split; [reflexivity|].
  split; [right; reflexivity|].
  eexists. split; [reflexivity|].
  exact (unread_counts_exact 9 (lit "bob") sample_db _ 2
           {| user1 := 7; user2 := 9; created_at := 200 |}
           references_ok_sample pairs_sorted_sample unique_together_sample
           eq_refl eq_refl (or_intror eq_refl)).
Defined.

Lemma unread_count_pos (d : db) (conv o : Z) :
  (0 < unread_count d conv o)%nat ↔
  ∃ k m, messages d !! k = Some m ∧ views.unread_from conv o (k, m).
Proof.
  unfold unread_count. split.
  - intros Hpos.
    assert (filter (views.unread_from conv o) (messages d) ≠ ∅) as Hne
      by (apply map_size_non_empty_iff; lia).
    apply map_choose in Hne as (k & m & Hkm).
    apply map_lookup_filter_Some in Hkm. by eauto.
  - intros (k & m & Hk & Hu).
    assert (size (filter (views.unread_from conv o) (messages d)) ≠ 0%nat); [|lia].
    apply map_size_non_empty_iff. intros He.
    assert (filter (views.unread_from conv o) (messages d) !! k = Some m) as Hin
      by (by apply map_lookup_filter_Some).
    by rewrite He, lookup_empty in Hin.
Qed.

(** X25.  Marking a user's messages as read clears that user from the
    reader's unread counts: when the ids that the reader marks are all
    within the 64 bits of a key and include every unread message that
    another user sent, the counts computed afterwards have no entry for
    that user. *)
Theorem marking_read_clears_unread `{FieldPrep} (uid o : Z) (name : pystr)
    (ids : list Z) (body : gmap Z nat) (d : db) :
  references_ok d →
  o ≠ uid →
  Forall in_int64 ids →
  (∀ k m, messages d !! k = Some m → sender m = o → is_read m = false → k ∈ ids) →
  outcome (views.get_unread_counts (Authenticated uid name)
             (store (ChatConsumer.mark_messages_read (JArr (JInt <$> ids))
                       (Some uid) d)))
    = inr (views.Json body) →
  body !! o = None.
Proof.
  intros Href Hne Hfit Hall. rewrite mark_messages_read_run, pk_in_ints by done.
  change (store (inr (), store (Message_update_read ids (Some uid) d), []))
    with (store (Message_update_read ids (Some uid) d)).
  set (d1 := store (Message_update_read ids (Some uid) d)).
  assert (Href1 : references_ok d1)
    by (apply (references_ok_step d); [constructor|done]).
  rewrite get_unread_counts_run by done. unfold outcome. simpl. intros [= <-].
  match goal with |- ?x = None => destruct x as [n|] eqn:Hn end; [|done].
  exfalso.
  apply count_entries_sound in Hn as [Hn|(Hpos & kv & _ & _ & ->)];
    [by rewrite lookup_empty in Hn|].
  apply unread_count_pos in Hpos as (k & m' & Hk & _ & Hs & Hrd). simpl in Hs, Hrd.
  unfold d1 in Hk. rewrite update_read_lookup in Hk.
  destruct (messages d !! k) as [m|] eqn:Hm; [|done]. simpl in Hk.
  injection Hk as <-. case_bool_decide as Hcond; [done|].
  apply Hcond. split; [by apply (Hall k m)|]. split; [done|]. congruence.
Qed.

Lemma marking_read_clears_unread_witness :
  references_ok sample_db ∧ 7 ≠ 9 ∧ Forall in_int64 [2] ∧
  ∃ body,
    outcome (views.get_unread_counts (Authenticated 9 (lit "bob"))
               (store (@ChatConsumer.mark_messages_read strict_prep
                         (JArr (JInt <$> [2])) (Some 9) sample_db)))
      = inr (views.Json body) ∧
    body !! 7 = None.
Proof.
  assert (Hfit : Forall in_int64 [2]) by (by repeat constructor).
  split; [exact references_ok_sample|]. split; [lia|]. split; [exact Hfit|].
  eexists. split; [reflexivity|].
  refine (@marking_read_clears_unread strict_prep 9 7 (lit "bob") [2] _ sample_db
            references_ok_sample _ Hfit _ eq_refl); [lia|].
  intros k m Hk Hs Hrd. unfold sample_db in Hk; simpl in Hk.
  apply lookup_insert_Some in Hk as [[<- <-]|[_ Hk]]; [simpl in Hs; lia|].
  apply lookup_insert_Some in Hk as [[<- <-]|[_ Hk]];
    [by apply list_elem_of_singleton|by rewrite lookup_empty in Hk].
Defined.

(** X26.  A saved message shows up in the peer's unread counts: once
    [save_message] has returned a row, the counts that the peer of the
    session gets from [get_unread_counts] have an entry for the sender,
    with a positive number. *)
Theorem saved_message_counts_as_unread (self : ChatConsumer.session) (now uid pk : Z)
    (text peer_name : pystr) (row : Message) (body : gmap Z nat) (d : db) :
  references_ok d →
  id_of (ChatConsumer.user self) = Some uid →
  outcome (ChatConsumer.save_message self now text d) = inr (Some (pk, row)) →
  outcome (views.get_unread_counts
             (Authenticated (ChatConsumer.other_user_id self) peer_name)
             (store (ChatConsumer.save_message self now text d)))
    = inr (views.Json body) →
  ∃ n, body !! uid = Some n ∧ (0 < n)%nat.
Proof.
  intros Href Hid Hsave.
  set (peer := ChatConsumer.other_user_id self).
  set (d1 := store (ChatConsumer.save_message self now text d)).
  assert (Href1 : references_ok d1).
  { revert Href. apply steps_invariant; [apply references_ok_step|].
    apply save_message_steps. }
  destruct (save_message_some self now text d pk row Hsave)
    as (_ & Hlook & _ & _ & Hrd & Hs & _ & _ & crow & Hc & Hu1 & Hu2 & _).
  fold d1 in Hlook, Hc. fold peer in Hu1, Hu2.
  rewrite Hid in Hs. injection Hs as Hs. rewrite Hs in Hu1, Hu2.
  rewrite get_unread_counts_run by done. unfold outcome. simpl. intros [= <-].
  assert (Hother : other_side peer crow = uid).
  { unfold other_side. case_bool_decide; lia. }
  assert (Hsome : is_Some (foldl (count_entry d1 peer) ∅
            (map_to_list (filter (views.involves peer) (conversations d1))) !! uid)).
  { apply count_entries_complete. right. exists (conversation row, crow).
    split; [|split; [exact Hother|]].
    - apply elem_of_map_to_list, map_lookup_filter_Some. split; [done|].
      unfold views.involves. simpl. lia.
    - simpl. apply unread_count_pos. exists pk, row. split; [done|].
      unfold views.unread_from. simpl. done. }
  destruct Hsome as [n Hn]. exists n. split; [done|].
  apply count_entries_sound in Hn as [Hn|[Hpos _]]; [by rewrite lookup_empty in Hn|done].
Qed.

Lemma saved_message_counts_as_unread_witness :
  references_ok fresh_db ∧
  id_of (ChatConsumer.user ann_session) = Some 5 ∧
  outcome (ChatConsumer.save_message ann_session 50 (lit "hi") fresh_db)
    = inr (Some (1, {| conversation := 1; sender := 5; content := lit "hi";
                       timestamp := 50; is_read := false |})) ∧
  ∃ body n,
    outcome (views.get_unread_counts (Authenticated 9 (lit "bob"))
               (store (ChatConsumer.save_message ann_session 50 (lit "hi") fresh_db)))
      = inr (views.Json body) ∧
    body !! 5 = Some n ∧ (0 < n)%nat.
Proof.
  split; [exact references_ok_fresh|]. split; [reflexivity|]. split; [reflexivity|].
  eexists.
  destruct (saved_message_counts_as_unread ann_session 50 5 1 (lit "hi") (lit "bob")
              {| conversation := 1; sender := 5; content := lit "hi";
                 timestamp := 50; is_read := false |}
              _ fresh_db references_ok_fresh eq_refl eq_refl eq_refl) as (n & Hn & Hpos).
  exists n. split; [reflexivity|]. split; [exact Hn|exact Hpos].
Defined.

(** ** More on connecting *)

(** X27.  An authenticated user is always let in, with or without a row.
    [ChatConsumer.connect] joins the room, announces the user online and
    accepts, in that order, and returns the session with its room set;
    when the user has no row the failed status update is only printed,
    between the join and the announcement, and the store is left as it
    was. *)
Theorem authenticated_connect_always_accepted (uid peer : Z) (name : pystr)
    (channel : string) (d : db) :
  let room := ChatConsumer.room_name uid peer in
  let r := ChatConsumer.connect (Authenticated uid name) peer channel d in
  outcome r = inr {| ChatConsumer.user := Authenticated uid name;
                     ChatConsumer.other_user_id := peer;
                     ChatConsumer.room_group_name := Some room;
                     ChatConsumer.channel_name := channel |} ∧
  match users d !! uid with
  | Some _ =>
      trace r = [GroupAdd room channel;
                 GroupSend room (user_status_ev (Some uid) true); Accept] ∧
      store r = set_users (alter (set_online true) uid) d
  | None =>
      trace r = [GroupAdd room channel; Print "Status update error:" DoesNotExist;
                 GroupSend room (user_status_ev (Some uid) true); Accept] ∧
      store r = d
  end.
Proof.
  intros room r. unfold r, ChatConsumer.connect, bind, emit, ret.
  rewrite chat_update_user_status_run. simpl.
  destruct (users d !! uid); by repeat split.
Qed.

(** X28.  Presence announcements come back to the user they are about.
    The event that an authenticated [PresenceConsumer.connect] puts on
    the presence group makes every presence session, the user's own
    included, send one frame of type ["presence"] with the user's id and
    name and the online flag. *)
Theorem presence_echoed_to_self (uid : Z) (name : pystr) (channel : string)
    (any : PresenceConsumer.session) (d d' : db) :
  ∃ ev frame,
    broadcasts (trace (PresenceConsumer.connect (Authenticated uid name) channel d))
      = [("presence"%string, ev)] ∧
    PresenceConsumer.dispatch any ev d' = (inr (), d', [Send frame]) ∧
    frame !! lit "type" = Some (JStr (lit "presence")) ∧
    frame !! lit "user_id" = Some (JInt uid) ∧
    frame !! lit "username" = Some (JStr name) ∧
    frame !! lit "is_online" = Some (JBool true).
Proof.
  eexists _, _. unfold PresenceConsumer.connect, bind, emit, ret. simpl.
  rewrite presence_update_user_status_run. simpl.
  split; [destruct (users d !! uid); reflexivity|].
  split; [reflexivity|]. repeat split; reflexivity.
Qed.

(** X29.  In a chat with oneself the unread count cannot be cleared.
    When a user has a conversation with themselves that holds an unread
    message of theirs, then whatever ids they mark as read, the message
    stays unread and [get_unread_counts] keeps an entry, with a positive
    number, under their own id. *)
Theorem self_chat_unread_cannot_be_cleared `{FieldPrep} (uid pk k : Z) (name : pystr)
    (c : Conversation) (m : Message) (ids : list Z) (body : gmap Z nat) (d : db) :
  references_ok d →
  conversations d !! pk = Some c → user1 c = uid → user2 c = uid →
  messages d !! k = Some m → conversation m = pk → sender m = uid →
  is_read m = false →
  let d1 := store (ChatConsumer.mark_messages_read (JArr (JInt <$> ids)) (Some uid) d) in
  outcome (views.get_unread_counts (Authenticated uid name) d1) = inr (views.Json body) →
  messages d1 !! k = Some m ∧ ∃ n, body !! uid = Some n ∧ (0 < n)%nat.
Proof.
  intros Href Hc H1 H2 Hm Hconv Hs Hrd d1.
  assert (Hd1 : d1 = d ∨ d1 = store (Message_update_read ids (Some uid) d)).
  { unfold d1. rewrite mark_messages_read_run.
    destruct (decide (Forall in_int64 ids)) as [Hfit|Hfit].
    - rewrite pk_in_ints by done. by right.
    - rewrite pk_in_overflow by done. by left. }
  assert (Href1 : references_ok d1).
  { destruct Hd1 as [->| ->]; [done|].
    apply (references_ok_step d); [constructor|done]. }
  assert (Hc1 : conversations d1 = conversations d)
    by (by destruct Hd1 as [->| ->]).
  assert (Hm1 : messages d1 !! k = Some m).
  { destruct Hd1 as [->| ->]; [done|].
    rewrite update_read_lookup, Hm. simpl.
    rewrite bool_decide_eq_false_2; [done|].
    intros (_ & _ & Hn). apply Hn. by rewrite Hs. }
  rewrite get_unread_counts_run by done. unfold outcome. simpl. intros [= <-].
  split; [done|].
  assert (Hother : other_side uid c = uid).
  { unfold other_side. by case_bool_decide. }
  assert (Hsome : is_Some (foldl (count_entry d1 uid) ∅
            (map_to_list (filter (views.involves uid) (conversations d1))) !! uid)).
  { apply count_entries_complete. right. exists (pk, c).
    split; [|split; [exact Hother|]].
    - apply elem_of_map_to_list, map_lookup_filter_Some.
      rewrite Hc1. split; [done|]. by left.
    - simpl. apply unread_count_pos. by exists k, m. }
  destruct Hsome as [n Hn]. exists n. split; [done|].
  apply count_entries_sound in Hn as [Hn|[Hpos _]]; [by rewrite lookup_empty in Hn|done].
Qed.

Lemma self_chat_unread_cannot_be_cleared_witness :
  let d := store (ChatConsumer.save_message
                    {| ChatConsumer.user := Authenticated 5 (lit "ann");
                       ChatConsumer.other_user_id := 5;
                       ChatConsumer.room_group_name := Some "chat_5_5"%string;
                       ChatConsumer.channel_name := "ann-3" |} 50 (lit "memo") fresh_db) in
  let m := {| conversation := 1; sender := 5; content := lit "memo";
              timestamp := 50; is_read := false |} in
  conversations d !! 1 = Some {| user1 := 5; user2 := 5; created_at := 50 |} ∧
  messages d !! 1 = Some m ∧
  messages (store (@ChatConsumer.mark_messages_read strict_prep (JArr (JInt <$> [1]))
                     (Some 5) d)) !! 1 = Some m.
Proof.
  intros d m. split; [reflexivity|]. split; [reflexivity|].
  refine (proj1 (@self_chat_unread_cannot_be_cleared strict_prep 5 1 1 (lit "ann")
                   {| user1 := 5; user2 := 5; created_at := 50 |} m [1]
                   {[ 5 := 1%nat ]} d _
                   eq_refl eq_refl eq_refl eq_refl eq_refl eq_refl eq_refl _)).
  2: by vm_compute.
  generalize references_ok_fresh. apply steps_invariant; [apply references_ok_step|].
  apply save_message_steps.
Defined.

(** ** A text that the store refuses *)

(** X30.  A message whose text the store cannot encode is lost, but the
    conversation it was meant for is still opened.  In a session that has
    its room, whose user and peer have rows, on a store with unique
    pairs, a message frame whose trimmed text is not empty and holds a
    surrogate code point makes [receive] return with the
    [UnicodeEncodeError] printed and nothing broadcast; no message is
    stored, and the conversation table is left as the chat page of the
    pair leaves it, with the row of the pair in it. *)
Theorem unencodable_message_opens_conversation `{FieldPrep}
    (self : ChatConsumer.session) (room : string) (now uid : Z) (name text : pystr)
    (data : gmap pystr json) (d : db) :
  ChatConsumer.room_group_name self = Some room →
  ChatConsumer.user self = Authenticated uid name →
  is_Some (users d !! uid) → is_Some (users d !! ChatConsumer.other_user_id self) →
  unique_together d →
  eq_str (ChatConsumer.msg_type_of data) "message" = true →
  dict_get data "message" (JStr []) = JStr text →
  strip text ≠ [] → encodable (strip text) = false →
  let peer := ChatConsumer.other_user_id self in
  let r := ChatConsumer.receive self now (Some (JObj data)) d in
  outcome r = inr () ∧
  trace r = [Print "Message save error:" UnicodeEncodeError] ∧
  messages (store r) = messages d ∧ users (store r) = users d ∧
  conversations (store r)
    = conversations (store (views.chat_view (Authenticated uid name) peer now d)) ∧
  ∃ pk row, conversations (store r) !! pk = Some row ∧
    user1 row = Z.min uid peer ∧ user2 row = Z.max uid peer.
Proof.
  intros Hroom Huser Hu Hp Huniq Hty Hget Hne Henc peer r.
  set (p := ChatConsumer.other_user_id self) in *. subst peer.
  destruct (chat_view_conversation uid p now name d Hp) as (_ & Hview).
  rewrite Hview. unfold r. clear r.
  rewrite (receive_message_run self room) by done. rewrite Hget.
  rewrite bool_decide_eq_false_2 by done.
  rewrite save_message_run. simpl. fold p.
  destruct Hp as [v Hv]. rewrite Hv, Huser. simpl.
  assert (H1 : is_Some (users d !! Z.min uid p))
    by (destruct (Z.min_spec uid p) as [[_ ->]|[_ ->]]; by eauto).
  assert (H2 : is_Some (users d !! Z.max uid p))
    by (destruct (Z.max_spec uid p) as [[_ ->]|[_ ->]]; by eauto).
  destruct (get_or_create_ok now _ _ d Huniq H1 H2) as (pk & row & Hgot).
  pose proof (get_or_create_run now (Z.min uid p) (Z.max uid p) d) as Hrun.
  destruct (Conversation_get_or_create now (Z.min uid p) (Z.max uid p) d)
    as [[[e|[[cpk crow] created]] d1] log]; [discriminate|].
  destruct Hrun as (_ & Hu1 & Hu2 & Hc & Hus & Hms & _).
  rewrite Henc. simpl. unfold outcome, trace, store. simpl.
  repeat split; try done. by exists cpk, crow.
Qed.

(** User 5 sends user 9 a lone surrogate on the fresh store: nothing is
    saved or sent, and the conversation of 5 and 9 is there. *)
Lemma unencodable_message_opens_conversation_witness :
  let r := @ChatConsumer.receive strict_prep ann_session 50
             (Some (JObj (frame_of [("message"%string, JStr [55296%N])]))) fresh_db in
  encodable (strip [55296%N]) = false ∧
  trace r = [Print "Message save error:" UnicodeEncodeError] ∧
  messages (store r) = ∅ ∧
  conversations (store r) !! 1 = Some {| user1 := 5; user2 := 9; created_at := 50 |}.
Proof.
  intros r. split; [reflexivity|].
  destruct (@unencodable_message_opens_conversation strict_prep ann_session "chat_5_9"
              50 5 (lit "ann") [55296%N]
              (frame_of [("message"%string, JStr [55296%N])]) fresh_db
              eq_refl eq_refl (mk_is_Some _ _ eq_refl) (mk_is_Some _ _ eq_refl)
              unique_together_fresh eq_refl eq_refl)
    as (_ & Htrace & Hms & _); [by vm_compute|reflexivity|].
  split; [exact Htrace|]. split; [exact Hms|]. reflexivity.
Defined.
